(** * SmartContractLists: the generator, the list updater and the seed loader

    A shallow embedding of [movement_contract_fetcher.py],
    [surgical_update.py] and [aptos_contract_fetcher.py], and the properties
    of the specification proved (or refuted) on it.

    Conventions of the embedding.
    - A JSON value as [json.load] builds it is a [json]; a Python [dict] is an
      association list in insertion order, which is the order [json.dump]
      writes.  Numbers are integers ([JInt]); the code does no arithmetic on
      the others.
    - A Python expression that can raise is an [option]: [None] is the run
      that raises.
    - A string is the UTF-8 encoding of the Python string, byte by byte.
      [lower] and [title] act on the ASCII letters, which is what Python's do
      on the module names of the chain (Move identifiers) and on the
      hexadecimal addresses; [strip] removes the white space of Python, the
      characters beyond ASCII included.
    - [datetime.now().isoformat()] is the parameter [now]. *)

From Stdlib Require Import ZArith Ascii Bool Lia DecimalString.
From stdpp Require Import base option list strings sorting gmap.

Set Warnings "-register-all".
Local Open Scope Z_scope.

(** ** Python values *)

Module Py.

Inductive json : Type :=
| JNull
| JBool (b : bool)
| JInt (z : Z)
| JStr (s : string)
| JList (l : list json)
| JObj (d : list (string * json)).

Abbreviation dict := (list (string * json)).

(** [d.get(k)], as an option. *)
Fixpoint dict_get (d : dict) (k : string) : option json :=
  match d with
  | [] => None
  | (k', v) :: d' => if decide (k' = k) then Some v else dict_get d' k
  end.

(** [d[k] = v]: an existing key keeps its place, a new one goes last. *)
Fixpoint dict_set (d : dict) (k : string) (v : json) : dict :=
  match d with
  | [] => [(k, v)]
  | (k', v') :: d' =>
      if decide (k' = k) then (k', v) :: d' else (k', v') :: dict_set d' k v
  end.

(** [d.update(other)] for a dict [other]. *)
Definition dict_update (d other : dict) : dict :=
  fold_left (fun acc kv => dict_set acc kv.1 kv.2) other d.

(** [d.get(k, dflt)] on a dict. *)
Definition dict_get_or (d : dict) (k : string) (dflt : json) : json :=
  default dflt (dict_get d k).

(** Truth value of a JSON value ([if v:], [not v], [a and b]). *)
Definition truthy (v : json) : bool :=
  match v with
  | JNull => false
  | JBool b => b
  | JInt z => negb (z =? 0)
  | JStr s => negb (bool_decide (s = ""))
  | JList l => negb (bool_decide (l = []))
  | JObj d => negb (bool_decide (d = []))
  end.

(** [v == s] for a string [s]. *)
Definition eq_str (v : json) (s : string) : bool :=
  match v with
  | JStr s' => bool_decide (s' = s)
  | _ => false
  end.

(** [d.get(k) == s] for a string [s]; a missing key gives [None]. *)
Definition get_is (d : dict) (k : string) (s : string) : bool :=
  match dict_get d k with
  | Some v => eq_str v s
  | None => false
  end.

(** [needle in hay] on strings. *)
Fixpoint contains (needle hay : string) : bool :=
  String.prefix needle hay ||
  match hay with
  | EmptyString => false
  | String _ hay' => contains needle hay'
  end.

(** [o.get(k, dflt)]: only a dict has [get]. *)
Definition py_get (o : json) (k : string) (dflt : json) : option json :=
  match o with
  | JObj d => Some (dict_get_or d k dflt)
  | _ => None
  end.

(** [o.get(k, dflt)] where the key is itself a JSON value: the keys of a
    loaded dict are strings, so only a string can be found; a list or a dict
    is unhashable. *)
Definition py_get_key (o : json) (k : json) (dflt : json) : option json :=
  match o with
  | JObj d =>
      match k with
      | JStr s => Some (dict_get_or d s dflt)
      | JList _ | JObj _ => None
      | _ => Some dflt
      end
  | _ => None
  end.

(** [k in o] for a string [k]: key of a dict, substring of a string, element
    of a list. *)
Definition py_in (k : string) (o : json) : option bool :=
  match o with
  | JObj d => Some (bool_decide (is_Some (dict_get d k)))
  | JStr s => Some (contains k s)
  | JList l => Some (existsb (fun v => eq_str v k) l)
  | _ => None
  end.

(** [o[k]] for a string [k]. *)
Definition py_item (o : json) (k : string) : option json :=
  match o with
  | JObj d => dict_get d k
  | _ => None
  end.

(** The elements [for x in o] visits: the elements of a list, the keys of a
    dict, the characters of a string. *)
Definition py_iter (o : json) : option (list json) :=
  match o with
  | JList l => Some l
  | JObj d => Some (map (fun kv => JStr kv.1) d)
  | JStr s => Some (map (fun c => JStr (String c "")) (String.list_ascii_of_string s))
  | _ => None
  end.

(** [for x in xs: st = body(st, x)], raising as soon as a turn raises. *)
Fixpoint for_each {A S : Type} (body : S -> A -> option S) (st : S) (xs : list A)
  : option S :=
  match xs with
  | [] => Some st
  | x :: xs' => st' ← body st x; for_each body st' xs'
  end.

Definition as_dict (o : json) : option dict :=
  match o with
  | JObj d => Some d
  | _ => None
  end.

(** [d.update(other)]: a dict is merged in; an empty sequence changes
    nothing; everything else raises, but for a sequence of key/value pairs,
    which the overlay file never holds and which is left out here. *)
Definition py_update (d : dict) (other : json) : option dict :=
  match other with
  | JObj o => Some (dict_update d o)
  | JList [] => Some d
  | JStr EmptyString => Some d
  | _ => None
  end.

(** [x + 1] ([True] and [False] count as 1 and 0). *)
Definition py_add1 (v : json) : option json :=
  match v with
  | JInt z => Some (JInt (z + 1))
  | JBool b => Some (JInt ((if b then 1 else 0) + 1))
  | _ => None
  end.

(** [str(z)]. *)
Definition str_of_Z (z : Z) : string :=
  NilZero.string_of_int (Z.to_int z).

(** [f"{v}"] for the values a dict lookup accepts as a key. *)
Definition py_format (v : json) : option string :=
  match v with
  | JStr s => Some s
  | JNull => Some "None"
  | JBool true => Some "True"
  | JBool false => Some "False"
  | JInt z => Some (str_of_Z z)
  | JList _ | JObj _ => None
  end.

(** *** String methods *)

Definition is_upper (c : ascii) : bool :=
  let n := nat_of_ascii c in (65 <=? n)%nat && (n <=? 90)%nat.

Definition is_lower (c : ascii) : bool :=
  let n := nat_of_ascii c in (97 <=? n)%nat && (n <=? 122)%nat.

Definition lower_char (c : ascii) : ascii :=
  if is_upper c then ascii_of_nat (nat_of_ascii c + 32) else c.

Definition upper_char (c : ascii) : ascii :=
  if is_lower c then ascii_of_nat (nat_of_ascii c - 32) else c.

Fixpoint str_map (f : ascii -> ascii) (s : string) : string :=
  match s with
  | EmptyString => EmptyString
  | String c s' => String (f c) (str_map f s')
  end.

(** [s.lower()] *)
Definition lower (s : string) : string := str_map lower_char s.

(** [s.replace(a, b)] for one-character [a] and [b]. *)
Definition replace_char (a b : ascii) (s : string) : string :=
  str_map (fun c => if decide (c = a) then b else c) s.

(** [s.title()]: a letter that follows a letter is lower-cased, any other
    letter is upper-cased. *)
Fixpoint title_from (previous_is_cased : bool) (s : string) : string :=
  match s with
  | EmptyString => EmptyString
  | String c s' =>
      let cased := is_upper c || is_lower c in
      String (if cased then (if previous_is_cased then lower_char c else upper_char c) else c)
             (title_from cased s')
  end.

Definition title (s : string) : string := title_from false s.

(** White space as [str.strip()] knows it ([str.isspace()]): the characters
    U+0009..U+000D, U+001C..U+0020, U+0085, U+00A0, U+1680, U+2000..U+200A,
    U+2028, U+2029, U+202F, U+205F and U+3000, here in UTF-8: one byte for
    the first ten, two bytes [C2 85] and [C2 A0], and three bytes for the
    others. *)
Definition byte_is (n : nat) (c : ascii) : bool :=
  (nat_of_ascii c =? n)%nat.

Definition is_space (c : ascii) : bool :=
  let n := nat_of_ascii c in
  ((9 <=? n)%nat && (n <=? 13)%nat) || ((28 <=? n)%nat && (n <=? 32)%nat).

Definition is_space2 (c1 c2 : ascii) : bool :=
  byte_is 194 c1 && (byte_is 133 c2 || byte_is 160 c2).

Definition is_space3 (c1 c2 c3 : ascii) : bool :=
  (byte_is 225 c1 && byte_is 154 c2 && byte_is 128 c3)
  || (byte_is 226 c1 && byte_is 128 c2
      && (((128 <=? nat_of_ascii c3)%nat && (nat_of_ascii c3 <=? 138)%nat)
          || byte_is 168 c3 || byte_is 169 c3 || byte_is 175 c3))
  || (byte_is 226 c1 && byte_is 129 c2 && byte_is 159 c3)
  || (byte_is 227 c1 && byte_is 128 c2 && byte_is 128 c3).

(** [s.lstrip()] *)
Fixpoint lstrip (s : string) : string :=
  match s with
  | String c1 r1 =>
      if is_space c1 then lstrip r1 else
      match r1 with
      | String c2 r2 =>
          if is_space2 c1 c2 then lstrip r2 else
          match r2 with
          | String c3 r3 => if is_space3 c1 c2 c3 then lstrip r3 else s
          | EmptyString => s
          end
      | EmptyString => s
      end
  | EmptyString => EmptyString
  end.

(** [s.isspace()], and true of the empty string. *)
Fixpoint all_space (s : string) : bool :=
  match s with
  | String c1 r1 =>
      if is_space c1 then all_space r1 else
      match r1 with
      | String c2 r2 =>
          if is_space2 c1 c2 then all_space r2 else
          match r2 with
          | String c3 r3 => is_space3 c1 c2 c3 && all_space r3
          | EmptyString => false
          end
      | EmptyString => false
      end
  | EmptyString => true
  end.

(** [s.rstrip()]: what is left is cut where only white space follows. *)
Fixpoint rstrip (s : string) : string :=
  match s with
  | String c s' => if all_space s then EmptyString else String c (rstrip s')
  | EmptyString => EmptyString
  end.

(** [s.strip()] *)
Definition strip (s : string) : string := rstrip (lstrip s).

End Py.

Import Py.

(** ** movement_contract_fetcher.py *)

Module MovementContractFetcher.

(** [CONFIG] *)
Module CONFIG.

Record network : Type := {
  chainId : Z;
  rpcUrl : string;
  name : string;
}.

Definition networks : list (string * network) :=
  [("aptos_mainnet",
     {| chainId := 1; rpcUrl := "https://fullnode.mainnet.aptoslabs.com";
        name := "Aptos Mainnet" |});
   ("aptos_testnet",
     {| chainId := 2; rpcUrl := "https://fullnode.testnet.aptoslabs.com";
        name := "Aptos Testnet" |});
   ("movement_mainnet",
     {| chainId := 1; rpcUrl := "https://full.mainnet.movementinfra.xyz";
        name := "Movement Mainnet" |});
   ("movement_testnet",
     {| chainId := 2; rpcUrl := "https://full.testnet.movementinfra.xyz";
        name := "Movement Testnet" |})].

Definition knownAddresses : list string :=
  ["0x0000000000000000000000000000000000000000000000000000000000000001";
   "0x0000000000000000000000000000000000000000000000000000000000000003";
   "0x0000000000000000000000000000000000000000000000000000000000000004";
   "0x000000000000000000000000000000000000000000000000000000000000000A";
   "0xccd2621d2897d407e06d18e6ebe3be0e6d9b61f1e809dd49360522b9105812cf";
   "0x31d0a30ae53e2ae852fcbdd1fce75a4ea6ad81417739ef96883eba9574ffe31e";
   "0x58739edcac2f86e62342466f20809b268430aedf32937eba32eaac7e0bbf5233";
   "0x574ecf25ca263b4d9cbd43ded90bba6a52309e0cba2213f9606e4b4a3a20ffae";
   "0x03f7399a0d3d646ce94ee0badf16c4c3f3c656fe3a5e142e83b5ebc011aa8b3d";
   "0x26a95d4bd7d7fc3debf6469ff94837e03e887088bef3a3f2d08d1131141830d3";
   "0x373aab3f20ef3c31fc4caa287b0f18170f4a0b4a28c80f7ee79434458f70f241";
   "0x46566b4a16a1261ab400ab5b9067de84ba152b5eb4016b217187f2a2ca980c5a";
   "0x4c5058bc4cd77fe207b8b9990e8af91e1055b814073f0596068e3b95a7ccd31a";
   "0x4d2969d384e440db9f1a51391cfc261d1ec08ee1bdf7b9711a6c05d485a4110a";
   "0x83121c9f9b0527d1f056e21a950d6bf3b9e9e2e8353d0e95ccea726713cbea39";
   "0x447721a30109c662dde9c73a0c2c9c9c459fb5e5a9c92f03c50fa69737f5d08d"].

(** [CONFIG["networks"].get(key)] *)
Fixpoint network_get (table : list (string * network)) (key : string)
  : option network :=
  match table with
  | [] => None
  | (k, n) :: rest => if decide (k = key) then Some n else network_get rest key
  end.

End CONFIG.

(** What the metadata file holds: no file, a file [json.load] cannot read,
    or a JSON value. *)
Inductive metadata_file : Type :=
| NoFile
| Unreadable
| Holds (content : json).

(** [load_metadata()]: a missing file and a file that cannot be read both
    give the empty overlay. *)
Definition load_metadata (file : metadata_file) : json :=
  match file with
  | Holds content => content
  | NoFile | Unreadable => JObj [("contractMetadata", JObj [])]
  end.

(** One turn of the loop of [fetch_account_modules]:
    [if 'abi' in module_data: abi = module_data['abi'];
     abi['address'] = address; modules.append(abi)] *)
Definition add_module (address : string) (modules : list dict) (module_data : json)
  : option (list dict) :=
  has_abi ← py_in "abi" module_data;
  if has_abi : bool then
    abi ← py_item module_data "abi";
    abi ← as_dict abi;
    Some (modules ++ [dict_set abi "address" (JStr address)])
  else Some modules.

(** [fetch_account_modules(rpc_url, address)]; [make_request] is the RPC,
    which answers [{}] when the request fails.  Whatever raises inside is
    caught, and the address then has no modules. *)
Definition fetch_account_modules (make_request : string -> string -> json)
    (rpc_url address : string) : list dict :=
  let response := make_request rpc_url ("/v1/accounts/" +:+ address +:+ "/modules") in
  match response with
  | JList items => default [] (for_each (add_module address) [] items)
  | _ => []
  end.

(** [get_contract_metadata(address, module_name)], on [self.metadata]. *)
Definition get_contract_metadata (metadata : json) (address module_name : json)
  : option json :=
  all ← py_get metadata "contractMetadata" (JObj []);
  contract_meta ← py_get_key all address (JObj []);
  has_modules ← (if truthy module_name then py_in "modules" contract_meta
                 else Some false);
  if has_modules : bool then
    modules ← py_item contract_meta "modules";
    module_meta ← py_get_key modules module_name (JObj []);
    merged_meta ← as_dict contract_meta;
    merged_meta ← py_update merged_meta module_meta;
    Some (JObj merged_meta)
  else Some contract_meta.

(** [transform_move_function(func)] *)
Definition transform_move_function (func : json) : option json :=
  name ← py_get func "name" (JStr "");
  visibility ← py_get func "visibility" (JStr "public");
  is_entry ← py_get func "is_entry" (JBool false);
  params ← py_get func "params" (JList []);
  ret ← py_get func "return" (JList []);
  acquires ← py_get func "acquires" (JList []);
  Some (JObj [("name", name); ("visibility", visibility); ("is_entry", is_entry);
              ("params", params); ("return", ret); ("acquires", acquires);
              ("audited", JBool false); ("verified", JBool true);
              ("auditors", JList [])]).

(** [transform_move_struct(struct)] *)
Definition transform_move_struct (struct : json) : option json :=
  name ← py_get struct "name" (JStr "");
  abilities ← py_get struct "abilities" (JList []);
  fields ← py_get struct "fields" (JList []);
  fields ← py_iter fields;
  fields ← mapM (fun f => n ← py_get f "name" (JStr "");
                          t ← py_get f "type" (JStr "");
                          Some (JObj [("name", n); ("type", t)])) fields;
  is_resource ← py_in "key" abilities;
  Some (JObj [("name", name); ("abilities", abilities); ("fields", JList fields);
              ("is_resource", JBool is_resource)]).

Definition stablecoin_addresses : list string :=
  ["0x4d2969d384e440db9f1a51391cfc261d1ec08ee1bdf7b9711a6c05d485a4110a";
   "0x83121c9f9b0527d1f056e21a950d6bf3b9e9e2e8353d0e95ccea726713cbea39";
   "0x447721a30109c662dde9c73a0c2c9c9c459fb5e5a9c92f03c50fa69737f5d08d"].

Definition oft_address : string :=
  "0x4d2969d384e440db9f1a51391cfc261d1ec08ee1bdf7b9711a6c05d485a4110a".

Definition native_addresses : list string :=
  ["0x0000000000000000000000000000000000000000000000000000000000000001";
   "0x0000000000000000000000000000000000000000000000000000000000000003";
   "0x0000000000000000000000000000000000000000000000000000000000000004";
   "0x000000000000000000000000000000000000000000000000000000000000000A"].

(** [module.get("address") in addresses]; a missing address is [None]. *)
Definition address_in (address : option json) (addresses : list string) : bool :=
  match address with
  | Some (JStr a) => bool_decide (a ∈ addresses)
  | _ => false
  end.

(** [module.get("address") == a] *)
Definition address_is (address : option json) (a : string) : bool :=
  match address with
  | Some v => eq_str v a
  | None => false
  end.

(** [if cond: tags.append(t1); tags.append(t2); ...] *)
Definition append_if (cond : bool) (new : list string) (tags : list string)
  : list string :=
  if cond then tags ++ new else tags.

(** The body of [determine_tags] once the name is lower-cased. *)
Definition tags_of (module_name : string) (address : option json) : list string :=
  let tags := [] in
  let tags := append_if (contains "coin" module_name || contains "token" module_name)
                        ["moveCoin"] tags in
  let tags := append_if (contains "liquidity" module_name || contains "swap" module_name)
                        ["AMM"] tags in
  let tags := append_if (contains "lending" module_name || contains "borrow" module_name)
                        ["lending"] tags in
  let tags := append_if (contains "staking" module_name || contains "liquid" module_name)
                        ["liquidStaking"] tags in
  let tags := append_if (contains "vault" module_name) ["vault"] tags in
  let tags := append_if (contains "perpetual" module_name || contains "derivative" module_name)
                        ["perpetuals"] tags in
  let tags := append_if (contains "bridge" module_name) ["bridge"] tags in
  let tags := append_if (contains "governance" module_name) ["governance"] tags in
  let tags := append_if (address_in address stablecoin_addresses)
                        ["stablecoin"; "bridged"] tags in
  let tags := append_if (address_is address oft_address && contains "oft" module_name)
                        ["bridge"; "crossChain"] tags in
  let tags := append_if (address_in address native_addresses) ["native"] tags in
  tags.

(** [module.get("name", "").lower()]: only a string has [lower]. *)
Definition module_name_lower (module : dict) : option string :=
  match dict_get_or module "name" (JStr "") with
  | JStr s => Some (lower s)
  | _ => None
  end.

(** [determine_tags(module)] *)
Definition determine_tags (module : dict) : option (list string) :=
  module_name ← module_name_lower module;
  Some (tags_of module_name (dict_get module "address")).

Definition platform_mappings : list (string * string) :=
  [("0x0000000000000000000000000000000000000000000000000000000000000001", "Movement");
   ("0x0000000000000000000000000000000000000000000000000000000000000003", "Movement");
   ("0x0000000000000000000000000000000000000000000000000000000000000004", "Movement");
   ("0x000000000000000000000000000000000000000000000000000000000000000A", "Movement");
   ("0xccd2621d2897d407e06d18e6ebe3be0e6d9b61f1e809dd49360522b9105812cf", "MovePosition");
   ("0x31d0a30ae53e2ae852fcbdd1fce75a4ea6ad81417739ef96883eba9574ffe31e", "MovePosition");
   ("0x58739edcac2f86e62342466f20809b268430aedf32937eba32eaac7e0bbf5233", "Echelon");
   ("0x574ecf25ca263b4d9cbd43ded90bba6a52309e0cba2213f9606e4b4a3a20ffae", "Layerbank");
   ("0x03f7399a0d3d646ce94ee0badf16c4c3f3c656fe3a5e142e83b5ebc011aa8b3d", "Mosaic");
   ("0x26a95d4bd7d7fc3debf6469ff94837e03e887088bef3a3f2d08d1131141830d3", "Mosaic");
   ("0x373aab3f20ef3c31fc4caa287b0f18170f4a0b4a28c80f7ee79434458f70f241", "Interest DEX");
   ("0x46566b4a16a1261ab400ab5b9067de84ba152b5eb4016b217187f2a2ca980c5a", "YUZU");
   ("0x4c5058bc4cd77fe207b8b9990e8af91e1055b814073f0596068e3b95a7ccd31a", "Move.Fun");
   ("0x4d2969d384e440db9f1a51391cfc261d1ec08ee1bdf7b9711a6c05d485a4110a", "USD Coin");
   ("0x83121c9f9b0527d1f056e21a950d6bf3b9e9e2e8353d0e95ccea726713cbea39", "USD Coin");
   ("0x447721a30109c662dde9c73a0c2c9c9c459fb5e5a9c92f03c50fa69737f5d08d", "Tether")].

(** [platform_mappings.get(address)] *)
Fixpoint mapping_get (mappings : list (string * string)) (address : string)
  : option string :=
  match mappings with
  | [] => None
  | (a, p) :: rest => if decide (a = address) then Some p else mapping_get rest address
  end.

(** [determine_platform(address, module_name)] *)
Definition determine_platform (address : string) (module_name : json) : string :=
  default "Unknown" (mapping_get platform_mappings address).

(** [if key in metadata: enhanced_contract[key] = metadata[key]] *)
Definition copy_key (key : string) (metadata : json) (contract : dict)
  : option dict :=
  present ← py_in key metadata;
  if present : bool then
    v ← py_item metadata key;
    Some (dict_set contract key v)
  else Some contract.

(** The [security] sub-record built from the effective metadata. *)
Definition security_of (metadata : json) : option json :=
  auditScore ← py_get metadata "auditScore" (JInt 0);
  lastAuditDate ← py_get metadata "lastAuditDate" (JStr "");
  vulnerabilityReports ← py_get metadata "vulnerabilityReports" (JList []);
  securityLevel ← py_get metadata "securityLevel" (JStr "unknown");
  penetrationTested ← py_get metadata "penetrationTested" (JBool false);
  formalVerification ← py_get metadata "formalVerification" (JBool false);
  Some (JObj [("auditScore", auditScore); ("lastAuditDate", lastAuditDate);
              ("vulnerabilityReports", vulnerabilityReports);
              ("securityLevel", securityLevel);
              ("penetrationTested", penetrationTested);
              ("formalVerification", formalVerification)]).

(** [func["auditors"] = metadata["auditors"]; func["audited"] = True] *)
Definition mark_audited (metadata : json) (func : json) : option json :=
  auditors ← py_item metadata "auditors";
  func ← as_dict func;
  Some (JObj (dict_set (dict_set func "auditors" auditors) "audited" (JBool true))).

(** [for func in functions: ...], on the value of [functions]: the functions
    of a list are changed in place; a value that is not a list is left as it
    is, if the loop gets through it at all. *)
Definition audited_functions (metadata : json) (functions : json) : option json :=
  match functions with
  | JList funcs =>
      funcs ← mapM (mark_audited metadata) funcs;
      Some (JList funcs)
  | _ =>
      funcs ← py_iter functions;
      _ ← mapM (mark_audited metadata) funcs;
      Some functions
  end.

(** [for func in contract.get("functions", []): ...]: the record holds the
    changed functions under the same key; without the key the loop runs over
    the default [[]]. *)
Definition audit_functions (metadata : json) (contract : dict) : option dict :=
  match dict_get contract "functions" with
  | None => Some contract
  | Some functions =>
      functions ← audited_functions metadata functions;
      Some (dict_set contract "functions" functions)
  end.

(** [if "auditors" in metadata: enhanced_contract["security"] = {...};
     for func in enhanced_contract.get("functions", []): ...] *)
Definition add_security (metadata : json) (contract : dict) : option dict :=
  present ← py_in "auditors" metadata;
  if present : bool then
    security ← security_of metadata;
    audit_functions metadata (dict_set contract "security" security)
  else Some contract.

(** The [apiVerification] block. *)
Definition api_verification (address : string) (now : string) : json :=
  JObj [("rpcEndpoint", JStr "https://full.mainnet.movementinfra.xyz/v1");
        ("apiCalls",
          JList [JObj [("endpoint", JStr ("/accounts/" +:+ address +:+ "/modules"));
                       ("method", JStr "GET");
                       ("fullUrl", JStr ("https://full.mainnet.movementinfra.xyz/v1/accounts/"
                                         +:+ address +:+ "/modules"));
                       ("purpose", JStr "module_functions");
                       ("responseHash", JStr "generated_hash_here")]]);
        ("lastVerified", JStr (now +:+ "Z"));
        ("verificationStatus", JStr "verified");
        ("dataIntegrity",
          JObj [("functionsVerified", JBool true); ("structsVerified", JBool true);
                ("moduleExists", JBool true); ("checksumMatch", JBool true)]);
        ("verificationInstructions",
          JObj [("curlCommand",
                  JStr ("curl -s " +:+ String "034" "https://full.mainnet.movementinfra.xyz/v1/accounts/"
                        +:+ address +:+ "/modules" +:+ String "034" ""));
                ("expectedFields",
                  JList [JStr "bytecode"; JStr "abi"; JStr "exposed_functions"; JStr "structs"]);
                ("verificationSteps",
                  JList [JStr "1. Make API call to fetch module data";
                         JStr "2. Verify module exists in response";
                         JStr "3. Check function signatures match schema";
                         JStr "4. Validate struct definitions"])]);
        ("alternativeEndpoints",
          JList [JStr "https://full.mainnet.movementinfra.xyz/v1";
                 JStr "https://mainnet.movementlabs.xyz/v1"])].

(** [enhance_contract_with_metadata(contract)], on [self.metadata] at the
    clock reading [now]. *)
Definition enhance_contract_with_metadata (metadata : json) (now : string)
    (contract : dict) : option dict :=
  let address := dict_get_or contract "address" (JStr "") in
  let module_name := dict_get_or contract "moduleName" (JStr "") in
  metadata ← get_contract_metadata metadata address module_name;
  let enhanced_contract := contract in
  enhanced_contract ← copy_key "description" metadata enhanced_contract;
  enhanced_contract ← copy_key "website" metadata enhanced_contract;
  enhanced_contract ← add_security metadata enhanced_contract;
  enhanced_contract ← copy_key "governance" metadata enhanced_contract;
  enhanced_contract ← copy_key "compliance" metadata enhanced_contract;
  enhanced_contract ← copy_key "performance" metadata enhanced_contract;
  enhanced_contract ← copy_key "interoperability" metadata enhanced_contract;
  enhanced_contract ← copy_key "bridgeImplementation" metadata enhanced_contract;
  enhanced_contract ← copy_key "objectExtensions" metadata enhanced_contract;
  address ← py_format address;
  Some (dict_set enhanced_contract "apiVerification" (api_verification address now)).

(** [module.get("name", "").replace("_", " ").title()] *)
Definition module_title (module : dict) : option string :=
  match dict_get_or module "name" (JStr "") with
  | JStr s => Some (title (replace_char "_" " " s))
  | _ => None
  end.

(** [transform_module_to_contract(module, chain_id, address)] *)
Definition transform_module_to_contract (metadata : json) (now : string)
    (module : dict) (chain_id : Z) (address : string) : option dict :=
  tags ← determine_tags module;
  let platform := determine_platform address (dict_get_or module "name" (JStr "")) in
  titled ← module_title module;
  exposed_functions ← py_iter (dict_get_or module "exposed_functions" (JList []));
  functions ← mapM transform_move_function exposed_functions;
  structs ← py_iter (dict_get_or module "structs" (JList []));
  structs ← mapM transform_move_struct structs;
  let contract :=
    [("chainId", JInt chain_id);
     ("address", JStr address);
     ("moduleName", dict_get_or module "name" (JStr ""));
     ("platform", JStr platform);
     ("name", JStr (platform +:+ " " +:+ titled));
     ("tags", JList (JStr <$> tags));
     ("functions", JList functions);
     ("structs", JList structs);
     ("extensions", JObj [("audited", JBool false); ("verified", JBool true);
                          ("friends", dict_get_or module "friends" (JList []))])] in
  enhance_contract_with_metadata metadata now contract.

(** The tag dictionary of [generate_smart_contract_list]. *)
Definition tag_entry (tag_name description : string) : json :=
  JObj [("name", JStr tag_name); ("description", JStr description)].

Definition list_tags : dict :=
  [("AMM", tag_entry "AMM" "An Automated Market Maker protocol relies on smart contracts to automate price matching or discovery");
   ("moveCoin", tag_entry "Move Coin" "A fungible token implemented using the Move coin standard (0x1::coin::Coin)");
   ("lending", tag_entry "Lending" "A protocol that allows users to lend and borrow digital assets");
   ("liquidStaking", tag_entry "Liquid Staking" "A protocol that allows users to stake tokens while maintaining liquidity through receipt tokens");
   ("vault", tag_entry "Vault" "A destination deposit location that provides a mapping of ownership or receipt token");
   ("perpetuals", tag_entry "Perpetuals" "A protocol for trading perpetual futures contracts");
   ("stablecoin", tag_entry "Stablecoin" "A token with value pegged to another asset, typically a fiat currency");
   ("native", tag_entry "Native" "Native tokens or protocols of the blockchain network");
   ("bridge", tag_entry "Bridge" "A protocol that enables cross-chain asset transfers");
   ("governance", tag_entry "Governance" "A governance token or protocol that enables decentralized decision making");
   ("framework", tag_entry "Framework" "Core framework modules and system contracts");
   ("legacy", tag_entry "Legacy" "Legacy token contracts and deprecated protocols");
   ("digitalAsset", tag_entry "Digital Asset" "Non-fungible tokens and digital asset contracts");
   ("fungibleAsset", tag_entry "Fungible Asset" "Fungible asset contracts using the FA standard");
   ("crossChain", tag_entry "Cross-Chain" "Protocols supporting cross-chain operations")].

(** [generate_smart_contract_list(contracts)] at the clock reading [now]. *)
Definition generate_smart_contract_list (now : string) (contracts : list dict)
  : dict :=
  [("name", JStr "FiHub Movement Smart Contract List");
   ("logoURI", JStr "ipfs://QmXfzKRvjZz3u5JRgC4v5mGVbm9ahrUiB4DgzHBsnWbTMM");
   ("keywords", JList [JStr "movement"; JStr "aptos"; JStr "move"; JStr "defi";
                       JStr "audited"; JStr "verified"]);
   ("tags", JObj list_tags);
   ("timestamp", JStr (now +:+ "Z"));
   ("version", JObj [("major", JInt 1); ("minor", JInt 0); ("patch", JInt 0)]);
   ("smartContracts", JList (JObj <$> contracts))].

(** The inner loop of [run]: the modules of one address are transformed and
    appended one by one; a module that raises ends the loop for the address
    (the [except] of [run] prints and goes on), and the records appended so
    far stay.  The clock is read once for each record, [clock n] being its
    reading number [n]. *)
Fixpoint transform_modules (metadata : json) (clock : nat -> string)
    (chain_id : Z) (address : string) (all_contracts : list dict)
    (modules : list dict) : list dict :=
  match modules with
  | [] => all_contracts
  | module :: rest =>
      match transform_module_to_contract metadata
              (clock (length all_contracts)) module chain_id address with
      | Some contract =>
          transform_modules metadata clock chain_id address
            (all_contracts ++ [contract]) rest
      | None => all_contracts
      end
  end.

(** [for address in CONFIG["knownAddresses"]: ...] for one network. *)
Definition process_network (make_request : string -> string -> json)
    (metadata : json) (clock : nat -> string) (net : CONFIG.network)
    (all_contracts : list dict) : list dict :=
  fold_left
    (fun all_contracts address =>
       transform_modules metadata clock (CONFIG.chainId net) address all_contracts
         (fetch_account_modules make_request (CONFIG.rpcUrl net) address))
    CONFIG.knownAddresses all_contracts.

(** [networks or list(CONFIG["networks"].keys())] *)
Definition networks_to_process (networks : option (list string)) : list string :=
  match networks with
  | Some (key :: keys) => key :: keys
  | _ => fst <$> CONFIG.networks
  end.

(** [run(networks)]: the document written to the output file. *)
Definition run (make_request : string -> string -> json) (metadata : json)
    (clock : nat -> string) (networks : option (list string)) : dict :=
  let all_contracts :=
    fold_left
      (fun all_contracts network_key =>
         match CONFIG.network_get CONFIG.networks network_key with
         | None => all_contracts
         | Some net => process_network make_request metadata clock net all_contracts
         end)
      (networks_to_process networks) [] in
  generate_smart_contract_list (clock (length all_contracts)) all_contracts.

End MovementContractFetcher.

Import MovementContractFetcher.

(** ** surgical_update.py *)

Module SurgicalUpdater.

(** What a call leaves behind: the document it wrote to [list_file], if it
    wrote one, and the value it returned, unless it raised. *)
Inductive outcome (A : Type) : Type :=
| Returned (written : option json) (result : A)
| Raised (written : option json).
Arguments Returned {A} written result.
Arguments Raised {A} written.

Definition written {A} (o : outcome A) : option json :=
  match o with
  | Returned w _ => w
  | Raised w => w
  end.

(** [load_metadata()] of the updater: a missing file gives the empty
    overlay; a file that cannot be read raises. *)
Definition load_metadata (file : metadata_file) : option json :=
  match file with
  | Holds content => Some content
  | NoFile => Some (JObj [("contractMetadata", JObj [])])
  | Unreadable => None
  end.

(** [data["version"]["patch"] = data["version"].get("patch", 0) + 1] *)
Definition bump_patch (version : json) : option json :=
  patch ← py_get version "patch" (JInt 0);
  patch ← py_add1 patch;
  version ← as_dict version;
  Some (JObj (dict_set version "patch" patch)).

(** [save_list(data)] at the clock reading [now].  The file is written
    before the new version is printed; the print raises when the document
    has no [version], or a version without [major] or [minor]. *)
Definition save_list (now : string) (data : dict) : outcome unit :=
  let data := dict_set data "timestamp" (JStr (now +:+ "Z")) in
  match dict_get data "version" with
  | None => Raised (Some (JObj data))
  | Some version =>
      match bump_patch version with
      | None => Raised None
      | Some version =>
          let data := dict_set data "version" version in
          match py_item version "major", py_item version "minor" with
          | Some _, Some _ => Returned (Some (JObj data)) tt
          | _, _ => Raised (Some (JObj data))
          end
      end
  end.

(** [for key, value in updates.items(): contract[key] = value] *)
Definition apply_updates (contract : dict) (updates : dict) : dict :=
  dict_update contract updates.

(** [list_data.get("smartContracts", [])], as the loop visits it. *)
Definition load_contracts (list_data : json) : option (list json) :=
  contracts ← py_get list_data "smartContracts" (JList []);
  py_iter contracts.

(** The loop of [update_contract]: the records up to the first match are
    read, the first match is changed; [None] inside is "not found". *)
Fixpoint update_first (address module_name : string) (updates : dict)
    (contracts : list json) : option (option (list json)) :=
  match contracts with
  | [] => Some None
  | c :: rest =>
      contract ← as_dict c;
      if get_is contract "address" address && get_is contract "moduleName" module_name
      then Some (Some (JObj (apply_updates contract updates) :: rest))
      else found ← update_first address module_name updates rest;
           Some (option_map (cons c) found)
  end.

(** The document in memory once the loop has changed records in place. *)
Definition with_contracts (list_data : json) (contracts : list json) : option dict :=
  list_data ← as_dict list_data;
  Some (dict_set list_data "smartContracts" (JList contracts)).

Definition save_and_return {A} (now : string) (data : option dict) (result : A)
  : outcome A :=
  match data with
  | None => Raised None
  | Some data =>
      match save_list now data with
      | Returned w _ => Returned w result
      | Raised w => Raised w
      end
  end.

(** [update_contract(address, module_name, updates)] on the document
    [load_list()] returns. *)
Definition update_contract (now : string) (list_data : json)
    (address module_name : string) (updates : dict) : outcome bool :=
  match load_contracts list_data ≫= update_first address module_name updates with
  | None => Raised None
  | Some None => Returned None false
  | Some (Some contracts) =>
      save_and_return now (with_contracts list_data contracts) true
  end.

(** One turn of the loops of [update_contracts_by_address] and
    [update_contracts_by_platform]: the record as the turn leaves it, and
    whether it was counted. *)
Definition update_where (key value : string) (updates : dict) (c : json)
  : option (json * bool) :=
  contract ← as_dict c;
  if get_is contract key value
  then Some (JObj (apply_updates contract updates), true)
  else Some (c, false).

Definition count_updated (turns : list (json * bool)) : nat :=
  length (filter (fun t => t.2 = true) turns).

(** The end of the three counting operations: save when a record was
    counted, and return the count. *)
Definition finish (now : string) (list_data : json)
    (turns : option (list (json * bool))) : outcome nat :=
  match turns with
  | None => Raised None
  | Some turns =>
      let updated_count := count_updated turns in
      if (0 <? updated_count)%nat
      then save_and_return now (with_contracts list_data (fst <$> turns)) updated_count
      else Returned None updated_count
  end.

(** [update_contracts_by_address(address, updates)] *)
Definition update_contracts_by_address (now : string) (list_data : json)
    (address : string) (updates : dict) : outcome nat :=
  finish now list_data
    (load_contracts list_data ≫= mapM (update_where "address" address updates)).

(** [update_contracts_by_platform(platform, updates)] *)
Definition update_contracts_by_platform (now : string) (list_data : json)
    (platform : string) (updates : dict) : outcome nat :=
  finish now list_data
    (load_contracts list_data ≫= mapM (update_where "platform" platform updates)).

(** [if field in merged_meta: contract[field] = merged_meta[field];
     updates_applied = True] *)
Definition sync_key (field : string) (merged_meta : json) (st : dict * bool)
  : option (dict * bool) :=
  present ← py_in field merged_meta;
  if present : bool then
    v ← py_item merged_meta field;
    Some (dict_set st.1 field v, true)
  else Some st.

(** [contract["security"][key] = merged_meta.get(key, dflt)] *)
Definition set_security (key : string) (dflt : json) (merged_meta : json)
    (contract : dict) : option dict :=
  v ← py_get merged_meta key dflt;
  security ← dict_get contract "security" ≫= as_dict;
  Some (dict_set contract "security" (JObj (dict_set security key v))).

(** The [if "auditors" in merged_meta:] block of [sync_with_metadata]. *)
Definition sync_security (merged_meta : json) (st : dict * bool)
  : option (dict * bool) :=
  present ← py_in "auditors" merged_meta;
  if present : bool then
    let contract :=
      if bool_decide (is_Some (dict_get st.1 "security")) then st.1
      else dict_set st.1 "security" (JObj []) in
    contract ← set_security "auditScore" JNull merged_meta contract;
    contract ← set_security "lastAuditDate" (JStr "") merged_meta contract;
    contract ← set_security "securityLevel" (JStr "unknown") merged_meta contract;
    contract ← set_security "penetrationTested" (JBool false) merged_meta contract;
    contract ← set_security "formalVerification" (JBool false) merged_meta contract;
    contract ← audit_functions merged_meta contract;
    Some (contract, true)
  else Some st.

(** The merge of the module subsection, as [sync_with_metadata] writes it. *)
Definition merged_metadata (contract_meta module_name : json) : option json :=
  has_modules ← (if truthy module_name then py_in "modules" contract_meta
                 else Some false);
  if has_modules : bool then
    modules ← py_item contract_meta "modules";
    module_meta ← py_get_key modules module_name (JObj []);
    merged_meta ← as_dict contract_meta;
    merged_meta ← py_update merged_meta module_meta;
    Some (JObj merged_meta)
  else Some contract_meta.

(** [if address and contract_address != address: continue] *)
Definition filtered_out (address : option string) (contract_address : json) : bool :=
  match address with
  | Some a => negb (bool_decide (a = "")) && negb (eq_str contract_address a)
  | None => false
  end.

(** One turn of the loop of [sync_with_metadata]. *)
Definition sync_contract (metadata : json) (address : option string) (c : json)
  : option (json * bool) :=
  contract ← as_dict c;
  let contract_address := dict_get_or contract "address" (JStr "") in
  let module_name := dict_get_or contract "moduleName" (JStr "") in
  if filtered_out address contract_address then Some (c, false) else
  all ← py_get metadata "contractMetadata" (JObj []);
  contract_meta ← py_get_key all contract_address (JObj []);
  if negb (truthy contract_meta) then Some (c, false) else
  merged_meta ← merged_metadata contract_meta module_name;
  st ← sync_key "description" merged_meta (contract, false);
  st ← sync_key "website" merged_meta st;
  st ← sync_security merged_meta st;
  st ← for_each (fun st field => sync_key field merged_meta st) st
         ["governance"; "compliance"; "performance"; "interoperability"];
  Some (JObj st.1, st.2).

(** [sync_with_metadata(address)] on [self.metadata]. *)
Definition sync_with_metadata (metadata : json) (now : string) (list_data : json)
    (address : option string) : outcome nat :=
  finish now list_data
    (load_contracts list_data ≫= mapM (sync_contract metadata address)).

End SurgicalUpdater.

(** ** aptos_contract_fetcher.py *)

Module AptosContractFetcher.

Definition is_hex (c : ascii) : bool :=
  let n := nat_of_ascii c in
  ((48 <=? n)%nat && (n <=? 57)%nat) || ((97 <=? n)%nat && (n <=? 102)%nat)
  || ((65 <=? n)%nat && (n <=? 70)%nat).

(** [$]: the end of the string, or the line feed that ends it. *)
Definition at_end (s : string) : bool :=
  bool_decide (s = "") || bool_decide (s = String "010" "").

(** [[0-9a-fA-F]+$] *)
Fixpoint hex_digits_to_end (s : string) : bool :=
  match s with
  | EmptyString => false
  | String c rest => is_hex c && (at_end rest || hex_digits_to_end rest)
  end.

(** [ADDRESS_RE.match(address)] for [^0x[0-9a-fA-F]+$] *)
Definition ADDRESS_RE_match (address : string) : bool :=
  match address with
  | String "0" (String "x" rest) => hex_digits_to_end rest
  | _ => false
  end.

(** [(entry.get("address") or "").strip()]: only a string has [strip]. *)
Definition entry_address (entry : json) : option string :=
  a ← py_get entry "address" JNull;
  match (if truthy a then a else JStr "") with
  | JStr s => Some (strip s)
  | _ => None
  end.

(** The inner loop: one entry of a protocol's [addresses]. *)
Definition add_entry (addresses : gset string) (entry : json) : option (gset string) :=
  address ← entry_address entry;
  if ADDRESS_RE_match address then Some ({[ lower address ]} ∪ addresses)
  else Some addresses.

(** The outer loop: one protocol. *)
Definition add_protocol (addresses : gset string) (protocol : json)
  : option (gset string) :=
  entries ← py_get protocol "addresses" (JList []) ≫= py_iter;
  for_each add_entry addresses entries.

(** [sorted(addresses)] on a set of strings. *)
Definition sorted (addresses : gset string) : list string :=
  merge_sort String.le (elements addresses).

(** [load_seed_addresses(seed_file)], on the JSON document the file holds. *)
Definition load_seed_addresses (data : json) : option (list string) :=
  protocols ← py_get data "protocols" (JList []) ≫= py_iter;
  addresses ← for_each add_protocol ∅ protocols;
  Some (sorted addresses).

(** [build_tags()] *)
Definition build_tags : dict :=
  [("AMM", tag_entry "AMM" "Automated market maker protocols for spot/liquidity operations");
   ("lending", tag_entry "Lending" "Collateralized lending and borrowing protocols");
   ("vault", tag_entry "Vault" "Yield or allocation vault strategies");
   ("liquidStaking", tag_entry "Liquid Staking" "Staking with liquid receipt assets");
   ("stablecoin", tag_entry "Stablecoin" "Fiat-pegged token and issuer modules");
   ("bridge", tag_entry "Bridge" "Cross-chain asset movement protocols");
   ("native", tag_entry "Native" "Aptos native framework/system modules");
   ("framework", tag_entry "Framework" "Core framework module set");
   ("gaming", tag_entry "Gaming" "Gaming-related modules");
   ("marketplace", tag_entry "Marketplace" "Marketplace and trade modules");
   ("social", tag_entry "Social" "Social and community modules");
   ("nft", tag_entry "NFT" "NFT minting and trading modules")].

(** The loop of [main] over the modules of one address: here nothing
    catches what [transform_module_to_contract] raises. *)
Definition transform_all (metadata : json) (clock : nat -> string)
    (chain_id : Z) (address : string) (contracts : list dict) (modules : list dict)
  : option (list dict) :=
  for_each
    (fun contracts module =>
       contract ← transform_module_to_contract metadata (clock (length contracts))
                    module chain_id address;
       Some (contracts ++ [contract]))
    contracts modules.

(** The [choices] of [--network]. *)
Definition network_choices : list string := ["aptos_mainnet"; "aptos_testnet"].

(** [main()] on the value of [--network], the JSON of the seed file and the
    metadata file.  [None] is a run that ends before anything is written:
    [parse_args] exits on a network that is not among the choices, and the
    rest raises; otherwise the document written to the output. *)
Definition main (make_request : string -> string -> json) (clock : nat -> string)
    (network : string) (seed : json) (metadata : metadata_file) : option dict :=
  if negb (bool_decide (network ∈ network_choices)) then None else
  net ← CONFIG.network_get CONFIG.networks network;
  addresses ← load_seed_addresses seed;
  if bool_decide (addresses = []) then None else
  let metadata := load_metadata metadata in
  contracts ←
    for_each
      (fun contracts address =>
         transform_all metadata clock (CONFIG.chainId net) address contracts
           (fetch_account_modules make_request (CONFIG.rpcUrl net) address))
      [] addresses;
  let out := generate_smart_contract_list (clock (length contracts)) contracts in
  let out := dict_set out "name" (JStr "FiHub Aptos Smart Contract List") in
  let out := dict_set out "keywords"
               (JList [JStr "aptos"; JStr "move"; JStr "defi"; JStr "stablecoin";
                       JStr "nft"]) in
  let out := dict_set out "timestamp"
               (JStr (clock (S (length contracts)) +:+ "Z")) in
  let out := dict_set out "tags" (JObj build_tags) in
  Some out.

End AptosContractFetcher.

Import SurgicalUpdater AptosContractFetcher.

(** ** The shapes of the inputs

    The documents the code reads have the shapes of the specification's
    sections 3 and 6.  The checks below say so on a [json]; they are what a
    statement "for every overlay" or "for every document" ranges over. *)

Module Shape.

Definition is_obj (v : json) : bool :=
  match v with JObj _ => true | _ => false end.

Definition is_str (v : json) : bool :=
  match v with JStr _ => true | _ => false end.

Definition is_int (v : json) : bool :=
  match v with JInt _ => true | _ => false end.

Definition is_list (v : json) : bool :=
  match v with JList _ => true | _ => false end.

(** The key is missing, or its value passes [p]. *)
Definition absent_or (p : json -> bool) (d : dict) (k : string) : bool :=
  match dict_get d k with
  | None => true
  | Some v => p v
  end.

Definition list_of (p : json -> bool) (v : json) : bool :=
  match v with JList l => forallb p l | _ => false end.

Definition obj_where (p : dict -> bool) (v : json) : bool :=
  match v with JObj d => p d | _ => false end.

Definition values_all (p : json -> bool) (d : dict) : bool :=
  forallb (fun kv => p kv.2) d.

(** An overlay entry: fields, and possibly [modules], a dict of dicts. *)
Definition entry_ok (entry : dict) : bool :=
  absent_or (obj_where (values_all is_obj)) entry "modules".

(** The metadata file: [{"contractMetadata": {address: entry}}]. *)
Definition overlay_ok (metadata : json) : bool :=
  obj_where (fun top =>
    absent_or (obj_where (values_all (obj_where entry_ok))) top "contractMetadata")
    metadata.

(** A contract record: string keys, functions a list of dicts, [security],
    where present, a dict. *)
Definition record_ok (contract : dict) : bool :=
  absent_or is_str contract "address"
  && absent_or is_str contract "moduleName"
  && absent_or (list_of is_obj) contract "functions"
  && absent_or is_obj contract "security".

(** A version: [major], [minor] and an integer [patch]. *)
Definition version_ok (version : dict) : bool :=
  bool_decide (is_Some (dict_get version "major"))
  && bool_decide (is_Some (dict_get version "minor"))
  && match dict_get version "patch" with Some (JInt _) => true | _ => false end.

(** A contract list document. *)
Definition document_ok (list_data : json) : bool :=
  obj_where (fun d =>
    match dict_get d "version" with
    | Some (JObj version) => version_ok version
    | _ => false
    end
    && match dict_get d "smartContracts" with
       | Some contracts => list_of (obj_where record_ok) contracts
       | None => false
       end)
    list_data.

(** A module as the RPC returns it. *)
Definition struct_ok (struct : dict) : bool :=
  absent_or (list_of is_obj) struct "fields"
  && absent_or is_list struct "abilities".

Definition module_ok (module : dict) : bool :=
  absent_or is_str module "name"
  && absent_or (list_of is_obj) module "exposed_functions"
  && absent_or (list_of (obj_where struct_ok)) module "structs".

(** The seed file: [{"protocols": [{"addresses": [{"address": ...}]}]}];
    an address is a string or [null]. *)
Definition seed_entry_ok (entry : dict) : bool :=
  match dict_get entry "address" with
  | None | Some JNull | Some (JStr _) => true
  | _ => false
  end.

Definition seed_protocol_ok (protocol : dict) : bool :=
  absent_or (list_of (obj_where seed_entry_ok)) protocol "addresses".

Definition seed_ok (data : json) : bool :=
  obj_where (fun top =>
    absent_or (list_of (obj_where seed_protocol_ok)) top "protocols") data.

(** The records of a document, its version's patch, and its time stamp. *)
Definition records (list_data : json) : list json :=
  match list_data with
  | JObj d => match dict_get d "smartContracts" with Some (JList l) => l | _ => [] end
  | _ => []
  end.

Definition patch_of (list_data : json) : option json :=
  match list_data with
  | JObj d => dict_get d "version" ≫= fun v => py_item v "patch"
  | _ => None
  end.

Definition timestamp_of (list_data : json) : option json :=
  match list_data with
  | JObj d => dict_get d "timestamp"
  | _ => None
  end.

End Shape.

Import Shape.

(** ** The vocabulary of the statements, and the inputs of the examples *)

(** An overlay with a module subsection, once under a module name and once
    under the empty name. *)
Definition c5_metadata : json :=
  JObj [("contractMetadata",
    JObj [("0xabc",
      JObj [("description", JStr "contract level");
            ("website", JStr "https://example.org");
            ("modules",
              JObj [("pool", JObj [("description", JStr "module level")]);
                    ("", JObj [("description", JStr "empty name")])])])])].

(** How often a tag occurs in a list of tags. *)
Definition occurrences (t : string) (tags : list string) : nat :=
  length (filter (fun x => x = t) tags).

(** The tags as a function of which rules fire. *)
Definition tags_from (coin amm lending staking vault perpetual bridge governance
                      stablecoin oft native : bool) : list string :=
  (if coin then ["moveCoin"] else [])
  ++ (if amm then ["AMM"] else [])
  ++ (if lending then ["lending"] else [])
  ++ (if staking then ["liquidStaking"] else [])
  ++ (if vault then ["vault"] else [])
  ++ (if perpetual then ["perpetuals"] else [])
  ++ (if bridge then ["bridge"] else [])
  ++ (if governance then ["governance"] else [])
  ++ (if stablecoin then ["stablecoin"; "bridged"] else [])
  ++ (if oft then ["bridge"; "crossChain"] else [])
  ++ (if native then ["native"] else []).

(** Every tag a rule can append. *)
Definition all_tags : list string :=
  ["moveCoin"; "AMM"; "lending"; "liquidStaking"; "vault"; "perpetuals"; "bridge";
   "governance"; "stablecoin"; "bridged"; "crossChain"; "native"].

(** A module at the LayerZero address whose name fires both [bridge] rules. *)
Definition oft_bridge_module : dict :=
  [("name", JStr "oft_bridge"); ("address", JStr oft_address)].

(** A module whose name fires several rules at once. *)
Definition liquidity_pool_swap_module : dict :=
  [("name", JStr "Liquidity_Pool_Swap"); ("address", JStr "0x1")].

Definition lending_borrow_pool_module : dict :=
  [("name", JStr "lending_borrow_pool")].

(** What [copy_key key] leaves under the key [k] of a record that had [old]
    there. *)
Definition copy_key_at (key : string) (metadata : json) (k : string)
    (old : option json) : option json :=
  if decide (key = k) then
    match py_in key metadata with
    | Some true => py_item metadata key
    | _ => old
    end
  else old.

(** What [add_security] leaves under the key [k]. *)
Definition add_security_at (metadata : json) (k : string) (old : option json)
  : option json :=
  if decide (k = "functions") then
    match py_in "auditors" metadata with
    | Some true => old ≫= audited_functions metadata
    | _ => old
    end
  else if decide (k = "security") then
    match py_in "auditors" metadata with
    | Some true => security_of metadata
    | _ => old
    end
  else old.

(** What the overlay steps of [enhance_contract_with_metadata] leave under
    the key [k], before [apiVerification] is set. *)
Definition overlay_at (metadata : json) (k : string) (old : option json)
  : option json :=
  copy_key_at "objectExtensions" metadata k
    (copy_key_at "bridgeImplementation" metadata k
      (copy_key_at "interoperability" metadata k
        (copy_key_at "performance" metadata k
          (copy_key_at "compliance" metadata k
            (copy_key_at "governance" metadata k
              (add_security_at metadata k
                (copy_key_at "website" metadata k
                  (copy_key_at "description" metadata k old)))))))).

(** The overlay steps of [enhance_contract_with_metadata], from the effective
    metadata on and before [apiVerification] is set. *)
Definition overlay_steps (metadata : json) (contract : dict) : option dict :=
  c ← copy_key "description" metadata contract;
  c ← copy_key "website" metadata c;
  c ← add_security metadata c;
  c ← copy_key "governance" metadata c;
  c ← copy_key "compliance" metadata c;
  c ← copy_key "performance" metadata c;
  c ← copy_key "interoperability" metadata c;
  c ← copy_key "bridgeImplementation" metadata c;
  copy_key "objectExtensions" metadata c.

(** A record and an overlay entry for it. *)
Definition c3_metadata : json :=
  JObj [("contractMetadata",
    JObj [("0xabc", JObj [("description", JStr "A pool"); ("auditors", JList [JStr "Auditor"])])])].

Definition c3_record : dict :=
  [("chainId", JInt 1); ("address", JStr "0xabc"); ("moduleName", JStr "pool");
   ("functions", JList [JObj [("name", JStr "swap"); ("audited", JBool false);
                              ("verified", JBool true); ("auditors", JList [])]])].

(** The functions of a record once an auditor list is written to them. *)
Definition audited_as (auditors : json) (func func' : json) : Prop :=
  ∃ fd fd',
    func = JObj fd ∧ func' = JObj fd'
    ∧ dict_get fd' "auditors" = Some auditors
    ∧ dict_get fd' "audited" = Some (JBool true)
    ∧ ∀ k, k ≠ "auditors" → k ≠ "audited" → dict_get fd' k = dict_get fd k.

(** An overlay entry with auditors and a record with two functions. *)
Definition c4_metadata : json :=
  JObj [("contractMetadata",
    JObj [("0xabc", JObj [("auditors", JList [JStr "Auditor One"; JStr "Auditor Two"]);
                          ("securityLevel", JStr "high")])])].

Definition c4_record : dict :=
  [("chainId", JInt 1); ("address", JStr "0xabc"); ("moduleName", JStr "pool");
   ("functions",
     JList [JObj [("name", JStr "swap"); ("audited", JBool false);
                  ("verified", JBool true); ("auditors", JList [])];
            JObj [("name", JStr "add"); ("audited", JBool false);
                  ("verified", JBool true); ("auditors", JList [])]])].

(** A module as the RPC returns it, and an overlay that has no entry for
    its address. *)
Definition c10_module : dict :=
  [("name", JStr "liquidity_pool");
   ("address", JStr "0x1");
   ("friends", JList [JStr "0x1::router"]);
   ("exposed_functions",
     JList [JObj [("name", JStr "swap"); ("visibility", JStr "public");
                  ("is_entry", JBool true); ("params", JList [JStr "&signer"; JStr "u64"]);
                  ("return", JList [])]]);
   ("structs",
     JList [JObj [("name", JStr "Pool"); ("abilities", JList [JStr "key"]);
                  ("fields", JList [JObj [("name", JStr "reserve"); ("type", JStr "u64")]])]])].

Definition c10_metadata : json :=
  JObj [("contractMetadata", JObj [("0xdef", JObj [("description", JStr "other")])])].

(** The steps of one turn of [sync_with_metadata], from the merged metadata
    on. *)
Definition sync_steps (merged_meta : json) (contract : dict) : option (dict * bool) :=
  st ← sync_key "description" merged_meta (contract, false);
  st ← sync_key "website" merged_meta st;
  st ← sync_security merged_meta st;
  for_each (fun st field => sync_key field merged_meta st) st
    ["governance"; "compliance"; "performance"; "interoperability"].

(** The keys [sync_with_metadata] reads from the merged metadata. *)
Definition synced_keys : list string :=
  ["description"; "website"; "auditors"; "governance"; "compliance"; "performance";
   "interoperability"].


(** An overlay entry with auditors and bridge details, and a record of the
    persisted list for it. *)
Definition c1_metadata : json :=
  JObj [("contractMetadata",
    JObj [("0xabc",
      JObj [("description", JStr "A bridged pool");
            ("auditors", JList [JStr "Auditor"]);
            ("bridgeImplementation", JObj [("protocol", JStr "LayerZero")])])])].

Definition c1_record : dict :=
  [("chainId", JInt 1); ("address", JStr "0xabc"); ("moduleName", JStr "pool");
   ("functions", JList [JObj [("name", JStr "swap"); ("audited", JBool false);
                              ("verified", JBool true); ("auditors", JList [])]])].

(** A persisted list that holds the record. *)
Definition c1_document : json :=
  JObj [("name", JStr "FiHub Movement Smart Contract List");
        ("timestamp", JStr "2025-12-31T00:00:00Z");
        ("version", JObj [("major", JInt 1); ("minor", JInt 0); ("patch", JInt 0)]);
        ("smartContracts", JList [JObj c1_record])].

(** [d.get(key) == value] on a record of the list. *)
Definition record_has (key value : string) (r : json) : bool :=
  match r with
  | JObj c => get_is c key value
  | _ => false
  end.

(** The record once the caller's fields are written to it. *)
Definition updated (updates : dict) (r : json) : json :=
  match r with
  | JObj c => JObj (apply_updates c updates)
  | _ => r
  end.

(** The records that are changed: all that pass the test. *)
Definition update_all (test : json -> bool) (updates : dict) (rs : list json)
  : list json :=
  (fun r => if test r then updated updates r else r) <$> rs.

(** How many records pass the test. *)
Definition matching (test : json -> bool) (rs : list json) : nat :=
  length (filter (fun r => test r = true) rs).

(** A record is synced when it is in the scope of the address filter and its
    effective metadata has one of the keys the sync reads. *)
Definition sync_matches (metadata : json) (address : option string) (r : json)
  : bool :=
  match r with
  | JObj c =>
      negb (filtered_out address (dict_get_or c "address" (JStr "")))
      && match get_contract_metadata metadata
                 (dict_get_or c "address" (JStr ""))
                 (dict_get_or c "moduleName" (JStr "")) with
         | Some effective =>
             existsb (fun key => bool_decide (py_in key effective = Some true))
                     synced_keys
         | None => false
         end
  | _ => false
  end.

(** The document a save leaves: a new time stamp, the patch one higher, the
    other top-level keys and the other keys of the version as they were. *)
Definition bumped (now : string) (before after : json) : Prop :=
  ∃ d d' version version' p,
    before = JObj d ∧ after = JObj d'
    ∧ dict_get d "version" = Some (JObj version)
    ∧ dict_get d' "version" = Some (JObj version')
    ∧ dict_get version "patch" = Some (JInt p)
    ∧ dict_get version' "patch" = Some (JInt (p + 1))
    ∧ (∀ k, k ≠ "patch" → dict_get version' k = dict_get version k)
    ∧ dict_get d' "timestamp" = Some (JStr (now +:+ "Z"))
    ∧ (∀ k, k ∉ ["timestamp"; "version"; "smartContracts"] →
            dict_get d' k = dict_get d k).

(** What a counting operation leaves behind when [n] records match: the
    count [n]; no write for [n = 0]; otherwise one write, of the bumped
    document. *)
Definition persisted (now : string) (list_data : json) (o : outcome nat) (n : nat)
  : Prop :=
  ∃ w, o = Returned w n
       ∧ (n = 0%nat → w = None)
       ∧ ((0 < n)%nat → ∃ after, w = Some after ∧ bumped now list_data after).

(** A persisted list with two records at one address and one at another. *)
Definition c6_document : json :=
  JObj [("name", JStr "FiHub Movement Smart Contract List");
        ("timestamp", JStr "2025-12-31T00:00:00Z");
        ("version", JObj [("major", JInt 1); ("minor", JInt 0); ("patch", JInt 4)]);
        ("smartContracts",
          JList [JObj [("chainId", JInt 1); ("address", JStr "0xabc");
                       ("moduleName", JStr "pool"); ("platform", JStr "Mosaic");
                       ("description", JStr "old")];
                 JObj [("chainId", JInt 1); ("address", JStr "0xdef");
                       ("moduleName", JStr "vault"); ("platform", JStr "Echelon");
                       ("description", JStr "other")];
                 JObj [("chainId", JInt 1); ("address", JStr "0xabc");
                       ("moduleName", JStr "router"); ("platform", JStr "Mosaic")]])].

Definition c6_metadata : json :=
  JObj [("contractMetadata",
    JObj [("0xdef", JObj [("description", JStr "A vault"); ("website", JStr "https://example.org")])])].

(** The address strings of a seed file, in the order of the file. *)
Definition entry_raw (entry : json) : option string :=
  match entry with
  | JObj e => match dict_get e "address" with Some (JStr s) => Some s | _ => None end
  | _ => None
  end.

Definition protocol_raws (protocol : json) : list string :=
  match protocol with
  | JObj p =>
      match dict_get p "addresses" with
      | Some (JList entries) => omap entry_raw entries
      | _ => []
      end
  | _ => []
  end.

Definition seed_raws (data : json) : list string :=
  match data with
  | JObj top =>
      match dict_get top "protocols" with
      | Some (JList protocols) => protocols ≫= protocol_raws
      | _ => []
      end
  | _ => []
  end.

(** Every character is a hexadecimal digit. *)
Fixpoint all_hex (s : string) : bool :=
  match s with
  | EmptyString => true
  | String c s' => is_hex c && all_hex s'
  end.

(** The last character is white space. *)
Fixpoint ends_with_space (s : string) : bool :=
  match s with
  | EmptyString => false
  | String c EmptyString => is_space c
  | String _ s' => ends_with_space s'
  end.

(** The seed file of the specification's example. *)
Definition c8_seed : json :=
  JObj [("protocols",
    JList [JObj [("name", JStr "example");
                 ("addresses",
                   JList [JObj [("address", JStr "0xABC")];
                          JObj [("address", JStr "0xabc")];
                          JObj [("address", JStr "not-hex")];
                          JObj [("address", JStr "0xDEF")]])]])].

(** The addresses a raw string adds to the set. *)
Definition accepted (raw : string) : list string :=
  if ADDRESS_RE_match (strip raw) then [lower (strip raw)] else [].

(** The string of the bytes. *)
Definition utf8 (bytes : list nat) : string :=
  foldr (fun n s => String (ascii_of_nat n) s) "" bytes.

(** The white space characters of Python, each in UTF-8: U+0009..U+000D,
    U+001C..U+0020, U+0085, U+00A0, U+1680, U+2000..U+200A, U+2028, U+2029,
    U+202F, U+205F, U+3000. *)
Definition whitespace : list string :=
  utf8 <$> [[9]; [10]; [11]; [12]; [13]; [28]; [29]; [30]; [31]; [32];
            [194; 133]; [194; 160]; [225; 154; 128];
            [226; 128; 128]; [226; 128; 129]; [226; 128; 130]; [226; 128; 131];
            [226; 128; 132]; [226; 128; 133]; [226; 128; 134]; [226; 128; 135];
            [226; 128; 136]; [226; 128; 137]; [226; 128; 138];
            [226; 128; 168]; [226; 128; 169]; [226; 128; 175];
            [226; 129; 159]; [227; 128; 128]]%nat.

(** A string of white space characters only. *)
Inductive white : string -> Prop :=
| white_nil : white ""
| white_cons (w s : string) : w ∈ whitespace -> white s -> white (w +:+ s).

(** [x] is the address the seed loader keeps for the raw string: the raw
    string is ["0x"] and hexadecimal digits, one at least, with white space
    before and after it and nothing else, and [x] is its lower case. *)
Definition normalised (raw x : string) : Prop :=
  ∃ before digits after,
    raw = before +:+ "0x" +:+ digits +:+ after
    ∧ white before ∧ white after
    ∧ digits ≠ "" ∧ all_hex digits = true
    ∧ x = "0x" +:+ lower digits.

(** The string after its first character, when that is white space. *)
Definition space_head (s : string) : option string :=
  match s with
  | String c1 r1 =>
      if is_space c1 then Some r1 else
      match r1 with
      | String c2 r2 =>
          if is_space2 c1 c2 then Some r2 else
          match r2 with
          | String c3 r3 => if is_space3 c1 c2 c3 then Some r3 else None
          | EmptyString => None
          end
      | EmptyString => None
      end
  | EmptyString => None
  end.

(** The example's seed file with white space around the addresses: a
    no-break space and an em space, a tab and a line feed, an ideographic
    space. *)
Definition c8_seed_spaced : json :=
  JObj [("protocols",
    JList [JObj [("name", JStr "example");
                 ("addresses",
                   JList [JObj [("address",
                                 JStr (utf8 [194; 160]%nat +:+ "0xABC"
                                       +:+ utf8 [226; 128; 131]%nat))];
                          JObj [("address", JStr (utf8 [9; 32]%nat +:+ "0xabc"
                                                  +:+ utf8 [10]%nat))];
                          JObj [("address", JStr " not-hex ")];
                          JObj [("address", JStr ("0x DEF"))];
                          JObj [("address",
                                 JStr ("0xDEF" +:+ utf8 [227; 128; 128]%nat))]])]])].

(** ** The vocabulary of the further properties *)

(** The tags of the classifier that the Aptos tag dictionary does not
    define. *)
Definition not_in_build_tags : list string :=
  ["moveCoin"; "perpetuals"; "governance"; "bridged"; "crossChain"].

(** A module of a bridged stablecoin. *)
Definition usdt_module : dict :=
  [("name", JStr "usdt_token");
   ("address", JStr "0x447721a30109c662dde9c73a0c2c9c9c459fb5e5a9c92f03c50fa69737f5d08d")].

(** The record [transform_module_to_contract] builds from the module, before
    the overlay. *)
Definition base_record (module : dict) (chain_id : Z) (address name : string)
    (tags : list string) (functions structs : list json) : dict :=
  [("chainId", JInt chain_id);
   ("address", JStr address);
   ("moduleName", JStr name);
   ("platform", JStr (determine_platform address (JStr name)));
   ("name", JStr (determine_platform address (JStr name) +:+ " "
                  +:+ title (replace_char "_" " " name)));
   ("tags", JList (JStr <$> tags));
   ("functions", JList functions);
   ("structs", JList structs);
   ("extensions", JObj [("audited", JBool false); ("verified", JBool true);
                        ("friends", dict_get_or module "friends" (JList []))])].

(** The keys the overlay can write. *)
Definition overlay_keys : list string :=
  ["description"; "website"; "security"; "functions"; "governance"; "compliance";
   "performance"; "interoperability"; "bridgeImplementation"; "objectExtensions"].

(** The keys the overlay copies as they are. *)
Definition copied_keys : list string :=
  ["description"; "website"; "governance"; "compliance"; "performance";
   "interoperability"; "bridgeImplementation"; "objectExtensions"].

(** An RPC that answers one address with two modules and a stray item, and
    every other address with the empty dict of a failed request. *)
Definition x_rpc (url path : string) : json :=
  if decide (path = "/v1/accounts/0x1/modules") then
    JList [JObj [("bytecode", JStr "0xa11ceb0b");
                 ("abi", JObj [("address", JStr "0x0001"); ("name", JStr "coin")])];
           JObj [("error", JStr "no abi here")];
           JObj [("abi", JObj [("name", JStr "vault")])]]
  else JObj [].

(** An RPC whose answer has an item that is not a dict. *)
Definition x_rpc_broken (url path : string) : json :=
  JList [JObj [("abi", JObj [("name", JStr "coin")])]; JInt 5].

(** An overlay that tries to rename a record and to change its tags. *)
Definition x_metadata : json :=
  JObj [("contractMetadata",
    JObj [("0x1", JObj [("description", JStr "Coin module");
                        ("name", JStr "Renamed"); ("tags", JList [JStr "legacy"]);
                        ("chainId", JInt 99); ("address", JStr "0xdead")])])].

Definition x_module : dict :=
  [("name", JStr "managed_coin"); ("address", JStr "0x1");
   ("exposed_functions",
     JList [JObj [("name", JStr "mint"); ("is_entry", JBool true)];
            JObj [("name", JStr "burn")]]);
   ("structs",
     JList [JObj [("name", JStr "Capabilities"); ("abilities", JList [JStr "key"]);
                  ("fields", JList [JObj [("name", JStr "cap"); ("type", JStr "u64")]])];
            JObj [("name", JStr "Event"); ("abilities", JList [JStr "drop"; JStr "store"])]])].

(** A function of a module and the function of the record made of it: the
    fields of the ABI, with their defaults, and [verified]. *)
Definition function_as (func func' : json) : Prop :=
  ∃ fd fd',
    func = JObj fd ∧ func' = JObj fd'
    ∧ dict_get fd' "name" = Some (dict_get_or fd "name" (JStr ""))
    ∧ dict_get fd' "visibility" = Some (dict_get_or fd "visibility" (JStr "public"))
    ∧ dict_get fd' "is_entry" = Some (dict_get_or fd "is_entry" (JBool false))
    ∧ dict_get fd' "params" = Some (dict_get_or fd "params" (JList []))
    ∧ dict_get fd' "return" = Some (dict_get_or fd "return" (JList []))
    ∧ dict_get fd' "acquires" = Some (dict_get_or fd "acquires" (JList []))
    ∧ dict_get fd' "verified" = Some (JBool true).

(** The audit fields of a function of a record. *)
Definition audit_state (audited auditors : json) (func' : json) : Prop :=
  ∃ fd', func' = JObj fd'
         ∧ dict_get fd' "audited" = Some audited
         ∧ dict_get fd' "auditors" = Some auditors.

(** A field of a struct and the field of the record's struct. *)
Definition field_as (field field' : json) : Prop :=
  ∃ fd, field = JObj fd
        ∧ field' = JObj [("name", dict_get_or fd "name" (JStr ""));
                         ("type", dict_get_or fd "type" (JStr ""))].

(** A struct of a module and the struct of the record made of it. *)
Definition struct_as (struct struct' : json) : Prop :=
  ∃ sd sd',
    struct = JObj sd ∧ struct' = JObj sd'
    ∧ dict_get sd' "name" = Some (dict_get_or sd "name" (JStr ""))
    ∧ dict_get sd' "abilities" = Some (dict_get_or sd "abilities" (JList []))
    ∧ (∀ abilities,
         dict_get_or sd "abilities" (JList []) = JList abilities →
         ∃ is_resource : bool,
           dict_get sd' "is_resource" = Some (JBool is_resource)
           ∧ (is_resource = true ↔ JStr "key" ∈ abilities))
    ∧ (∀ fields,
         dict_get_or sd "fields" (JList []) = JList fields →
         ∃ fields', dict_get sd' "fields" = Some (JList fields')
                    ∧ Forall2 field_as fields fields').

(** The work of a run: the modules the RPC returns, each with the network
    and the address it was asked for, in the order of the loops. *)
Definition job : Type := CONFIG.network * string * dict.

Definition address_jobs (make_request : string -> string -> json)
    (net : CONFIG.network) (address : string) : list job :=
  (fun module => (net, address, module))
  <$> fetch_account_modules make_request (CONFIG.rpcUrl net) address.

Definition network_jobs (make_request : string -> string -> json)
    (addresses : list string) (net : CONFIG.network) : list job :=
  addresses ≫= address_jobs make_request net.

Definition key_jobs (make_request : string -> string -> json) (key : string)
  : list job :=
  match CONFIG.network_get CONFIG.networks key with
  | None => []
  | Some net => network_jobs make_request CONFIG.knownAddresses net
  end.

Definition run_jobs (make_request : string -> string -> json)
    (networks : option (list string)) : list job :=
  networks_to_process networks ≫= key_jobs make_request.

Definition transform_job (metadata : json) (now : string) (j : job) : option dict :=
  transform_module_to_contract metadata now j.2 (CONFIG.chainId j.1.1) j.1.2.

(** The records [rs] are made of the jobs one by one, in their order, the
    record number [i] at the clock reading number [start + i]. *)
Definition produced (metadata : json) (clock : nat -> string) (start : nat)
    (jobs : list job) (rs : list dict) : Prop :=
  length rs = length jobs
  ∧ ∀ i j, jobs !! i = Some j →
           transform_job metadata (clock (start + i)%nat) j = rs !! i.

(** The record comes from one of the jobs. *)
Definition made_from (metadata : json) (clock : nat -> string) (jobs : list job)
    (r : dict) : Prop :=
  ∃ j n, j ∈ jobs ∧ transform_job metadata (clock n) j = Some r.

(** The first of the known addresses. *)
Definition x_address : string :=
  "0x0000000000000000000000000000000000000000000000000000000000000001".

(** An RPC that knows two modules at the first known address, on every
    network, and nothing else. *)
Definition x_rpc_known (url path : string) : json :=
  if decide (path = "/v1/accounts/" +:+ x_address +:+ "/modules")
  then JList [JObj [("abi", JObj [("name", JStr "coin")])];
              JObj [("abi", JObj [("name", JStr "staking_pool")])]]
  else JObj [].

(** The same, with a module between the two whose name is no string. *)
Definition x_rpc_bad_module (url path : string) : json :=
  if decide (path = "/v1/accounts/" +:+ x_address +:+ "/modules")
  then JList [JObj [("abi", JObj [("name", JStr "coin")])];
              JObj [("abi", JObj [("name", JInt 7)])];
              JObj [("abi", JObj [("name", JStr "staking_pool")])]]
  else JObj [].

(** A clock whose reading number [n] ends in [n]. *)
Definition x_clock (n : nat) : string :=
  "2026-01-01T00:00:" +:+ str_of_Z (Z.of_nat n).

(** One turn of the loop of [run] over the networks, and one turn of its
    loop over the known addresses. *)
Definition run_step (make_request : string -> string -> json) (metadata : json)
    (clock : nat -> string) (all_contracts : list dict) (network_key : string)
  : list dict :=
  match CONFIG.network_get CONFIG.networks network_key with
  | None => all_contracts
  | Some net => process_network make_request metadata clock net all_contracts
  end.

Definition address_step (make_request : string -> string -> json) (metadata : json)
    (clock : nat -> string) (net : CONFIG.network) (all_contracts : list dict)
    (address : string) : list dict :=
  transform_modules metadata clock (CONFIG.chainId net) address all_contracts
    (fetch_account_modules make_request (CONFIG.rpcUrl net) address).

(** An RPC that knows two modules at the address [0xabc] and none elsewhere. *)
Definition x_rpc_seed (url path : string) : json :=
  if decide (path = "/v1/accounts/0xabc/modules")
  then JList [JObj [("abi", JObj [("name", JStr "coin")])];
              JObj [("abi", JObj [("name", JStr "staking_pool")])]]
  else JObj [].

(** The same, with a module whose name is no string at the address [0xdef]. *)
Definition x_rpc_seed_bad (url path : string) : json :=
  if decide (path = "/v1/accounts/0xabc/modules")
  then JList [JObj [("abi", JObj [("name", JStr "coin")])];
              JObj [("abi", JObj [("name", JStr "staking_pool")])]]
  else if decide (path = "/v1/accounts/0xdef/modules")
  then JList [JObj [("abi", JObj [("name", JInt 7)])]]
  else JObj [].

(** One turn of the loop of [main] over the seed addresses. *)
Definition main_step (make_request : string -> string -> json) (metadata : json)
    (clock : nat -> string) (net : CONFIG.network) (contracts : list dict)
    (address : string) : option (list dict) :=
  transform_all metadata clock (CONFIG.chainId net) address contracts
    (fetch_account_modules make_request (CONFIG.rpcUrl net) address).

(** The test of [update_contract]: the record has the address and the module
    name. *)
Definition is_contract (address module_name : string) (r : json) : bool :=
  record_has "address" address r && record_has "moduleName" module_name r.

(** A list with the same module twice, on two chains. *)
Definition x_twice : json :=
  JObj [("version", JObj [("major", JInt 1); ("minor", JInt 0); ("patch", JInt 0)]);
        ("smartContracts",
          JList [JObj [("chainId", JInt 1); ("address", JStr "0x1");
                       ("moduleName", JStr "coin"); ("platform", JStr "Movement")];
                 JObj [("chainId", JInt 2); ("address", JStr "0x1");
                       ("moduleName", JStr "coin"); ("platform", JStr "Movement")]])].

(** Lists whose version is missing, is no dict, has no [patch], has no
    [minor]. *)
Definition x_versioned (version : option json) : dict :=
  match version with
  | Some v => [("version", v)]
  | None => []
  end
  ++ [("smartContracts",
        JList [JObj [("address", JStr "0x1"); ("moduleName", JStr "coin")]])].

(** A payload is a JSON object: no key twice. *)
Definition payload_ok (updates : dict) : Prop := NoDup updates.*1.

(** The keys of a record [sync_with_metadata] can write. *)
Definition sync_written_keys : list string :=
  ["description"; "website"; "security"; "functions"; "governance"; "compliance";
   "performance"; "interoperability"].

(** The seed file with one protocol that lists the addresses. *)
Definition seed_of (addresses : list string) : json :=
  JObj [("protocols",
    JList [JObj [("addresses",
      JList ((fun a => JObj [("address", JStr a)]) <$> addresses))]])].

(** The normalised valid addresses of a seed file, in the order of the
    file and with their repetitions, as the string methods give them. *)
Definition seed_accepted (data : json) : list string :=
  seed_raws data ≫= accepted.

(** [x] is the address kept for one of the raw strings of the file. *)
Definition seed_normalised (data : json) (x : string) : Prop :=
  ∃ raw, raw ∈ seed_raws data ∧ normalised raw x.

(** The addresses of [c8_seed] in another order, in two protocols, with
    white space around one (a space, a no-break space, a thin space and a
    line feed) and a repetition. *)
Definition x_seed_shuffled : json :=
  JObj [("protocols",
    JList [JObj [("addresses",
                   JList [JObj [("address",
                                 JStr (utf8 [32; 194; 160]%nat +:+ "0xDef"
                                       +:+ utf8 [226; 128; 137; 10]%nat))]])];
           JObj [("name", JStr "second");
                 ("addresses",
                   JList [JObj [("address", JStr "0xAbC")];
                          JObj [("address", JNull)];
                          JObj [("address", JStr "0xdef")]])]])].

(** A seed file with an address that is a number. *)
Definition x_seed_number : json :=
  JObj [("protocols",
    JList [JObj [("addresses",
      JList [JObj [("address", JStr "0xabc")]; JObj [("address", JInt 171)]])]])].







(** * Properties *)

(** ** The string methods, on examples *)



(** ** Dicts *)

Section dict_facts.
Implicit Types (d o : dict) (k : string) (v : json).

Lemma dict_get_set d k v k' :
  dict_get (dict_set d k v) k' = if decide (k = k') then Some v else dict_get d k'.
Proof.
  induction d as [|[k0 v0] d IH]; simpl.
  - done.
  - destruct (decide (k0 = k)) as [->|Hne]; simpl.
    + destruct (decide (k = k')); done.
    + rewrite IH. destruct (decide (k0 = k')) as [->|]; [|done].
      by rewrite decide_False.
Qed.

Lemma dict_get_set_eq d k v : dict_get (dict_set d k v) k = Some v.
Proof. by rewrite dict_get_set, decide_True. Qed.

Lemma dict_get_set_ne d k v k' :
  k ≠ k' → dict_get (dict_set d k v) k' = dict_get d k'.
Proof. intros. by rewrite dict_get_set, decide_False. Qed.

(** Writing the value a key already has changes nothing. *)
Lemma dict_set_id d k v : dict_get d k = Some v → dict_set d k v = d.
Proof.
  induction d as [|[k0 v0] d IH]; simpl; [done|].
  destruct (decide (k0 = k)); intros; simplify_eq; [done|].
  by rewrite IH.
Qed.

(** The second write to a key wins, in the place of the first. *)
Lemma dict_set_set d k v v' : dict_set (dict_set d k v) k v' = dict_set d k v'.
Proof.
  induction d as [|[k0 v0] d IH]; simpl.
  - by rewrite decide_True.
  - destruct (decide (k0 = k)) as [->|]; simpl.
    + by rewrite decide_True.
    + by rewrite decide_False, IH.
Qed.

Lemma dict_get_Some_elem d k v : dict_get d k = Some v → (k, v) ∈ d.
Proof.
  induction d as [|[k0 v0] d IH]; simpl; [done|].
  destruct (decide (k0 = k)); intros; simplify_eq; [left|right; auto].
Qed.

Lemma dict_get_None d k : dict_get d k = None ↔ k ∉ d.*1.
Proof.
  induction d as [|[k0 v0] d IH]; simpl.
  - split; [intros _; apply not_elem_of_nil|done].
  - rewrite not_elem_of_cons. destruct (decide (k0 = k)); naive_solver.
Qed.

Lemma dict_get_elem d k v : NoDup d.*1 → (k, v) ∈ d → dict_get d k = Some v.
Proof.
  induction d as [|[k0 v0] d IH]; simpl.
  - intros _ ?%elem_of_nil. done.
  - rewrite NoDup_cons. intros [Hk0 Hnd] [?|Hin]%elem_of_cons; simplify_eq.
    + by rewrite decide_True.
    + rewrite decide_False; [auto|].
      intros ->. apply Hk0. apply list_elem_of_fmap. by exists (k, v).
Qed.

(** [d.update(o)]: a key of [o] takes the value of its last item in [o]. *)
Lemma dict_get_update_rev d o k :
  dict_get (dict_update d o) k =
    match dict_get (reverse o) k with
    | Some v => Some v
    | None => dict_get d k
    end.
Proof.
  unfold dict_update. revert d.
  induction o as [|[k0 v0] o IH] using rev_ind; intros d; [done|].
  rewrite fold_left_app, reverse_app. simpl.
  rewrite dict_get_set. destruct (decide (k0 = k)); [done|]. apply IH.
Qed.

Lemma dict_get_reverse o k : NoDup o.*1 → dict_get (reverse o) k = dict_get o k.
Proof.
  intros Hnd. destruct (dict_get o k) as [v|] eqn:Hget.
  - apply dict_get_elem; [by rewrite fmap_reverse, reverse_Permutation|].
    apply elem_of_reverse. by apply dict_get_Some_elem.
  - apply dict_get_None. rewrite fmap_reverse, elem_of_reverse.
    by apply dict_get_None.
Qed.

(** For a dict [o] (distinct keys): the keys of [o] win, the others keep
    the value they have in [d]. *)
Lemma dict_get_update d o k :
  NoDup o.*1 →
  dict_get (dict_update d o) k =
    match dict_get o k with
    | Some v => Some v
    | None => dict_get d k
    end.
Proof. intros. by rewrite dict_get_update_rev, dict_get_reverse. Qed.

Lemma dict_update_nil d : dict_update d [] = d.
Proof. done. Qed.

End dict_facts.

(** ** Shapes *)

Section shape_facts.

Lemma values_all_get p (d : dict) k v :
  values_all p d = true → dict_get d k = Some v → p v = true.
Proof.
  unfold values_all. rewrite forallb_forall. intros Hall Hget.
  apply dict_get_Some_elem, list_elem_of_In in Hget. apply (Hall _ Hget).
Qed.

Lemma obj_where_inv p v : obj_where p v = true → ∃ d, v = JObj d ∧ p d = true.
Proof. destruct v; simpl; try done. eauto. Qed.

Lemma is_obj_inv v : is_obj v = true → ∃ d, v = JObj d.
Proof. destruct v; simpl; try done. eauto. Qed.

Lemma list_of_inv p v :
  list_of p v = true → ∃ l, v = JList l ∧ Forall (fun x => p x = true) l.
Proof.
  destruct v; simpl; try done. intros Hall. eexists; split; [done|].
  apply Forall_forall. intros x Hx%list_elem_of_In.
  by apply (proj1 (forallb_forall _ _) Hall).
Qed.

Lemma absent_or_inv p (d : dict) k :
  absent_or p d k = true →
  dict_get d k = None ∨ ∃ v, dict_get d k = Some v ∧ p v = true.
Proof. unfold absent_or. destruct (dict_get d k); eauto. Qed.

(** A well-shaped metadata file has a dict of entries, possibly empty. *)
Lemma overlay_ok_inv metadata :
  overlay_ok metadata = true →
  ∃ all, py_get metadata "contractMetadata" (JObj []) = Some (JObj all)
         ∧ values_all (obj_where entry_ok) all = true.
Proof.
  intros (top & -> & Htop)%obj_where_inv. simpl. unfold dict_get_or.
  apply absent_or_inv in Htop as [->|(v & -> & (all & -> & Hall)%obj_where_inv)];
    simpl; eauto.
Qed.

(** Every address has an entry there, the empty one by default. *)
Lemma overlay_entry (all : dict) address :
  values_all (obj_where entry_ok) all = true →
  ∃ entry, dict_get_or all address (JObj []) = JObj entry ∧ entry_ok entry = true.
Proof.
  intros Hall. unfold dict_get_or.
  destruct (dict_get all address) as [v|] eqn:Hget; simpl.
  - apply (values_all_get _ _ _ _ Hall), obj_where_inv in Hget as (e & -> & ?).
    eauto.
  - by exists [].
Qed.

Lemma entry_modules entry :
  entry_ok entry = true →
  dict_get entry "modules" = None
  ∨ ∃ modules, dict_get entry "modules" = Some (JObj modules)
               ∧ values_all is_obj modules = true.
Proof.
  intros [?|(v & ? & (m & -> & ?)%obj_where_inv)]%absent_or_inv; eauto.
Qed.

End shape_facts.

(** ** The effective metadata record *)

Section effective_metadata.

(** The generator and the updater write the same merge. *)
Lemma get_contract_metadata_merged metadata address module_name :
  get_contract_metadata metadata address module_name =
    all ← py_get metadata "contractMetadata" (JObj []);
    contract_meta ← py_get_key all address (JObj []);
    merged_metadata contract_meta module_name.
Proof. done. Qed.

Lemma merged_metadata_falsy_name contract_meta module_name :
  truthy module_name = false →
  merged_metadata contract_meta module_name = Some contract_meta.
Proof. unfold merged_metadata. by intros ->. Qed.

Lemma merged_metadata_no_modules entry module_name :
  dict_get entry "modules" = None →
  merged_metadata (JObj entry) module_name = Some (JObj entry).
Proof.
  unfold merged_metadata. intros Hno. simpl. rewrite Hno.
  rewrite bool_decide_eq_false_2 by (by intros [? ?]).
  by destruct (truthy module_name).
Qed.

Lemma merged_metadata_no_section entry modules name :
  dict_get entry "modules" = Some (JObj modules) →
  dict_get modules name = None →
  merged_metadata (JObj entry) (JStr name) = Some (JObj entry).
Proof.
  unfold merged_metadata. intros Hm Hno.
  destruct (truthy (JStr name)); [|done]. simpl. rewrite Hm.
  rewrite bool_decide_eq_true_2 by eauto. simpl.
  unfold dict_get_or. by rewrite Hno.
Qed.

Lemma merged_metadata_section entry modules name module_meta :
  name ≠ "" →
  dict_get entry "modules" = Some (JObj modules) →
  dict_get modules name = Some (JObj module_meta) →
  merged_metadata (JObj entry) (JStr name)
  = Some (JObj (dict_update entry module_meta)).
Proof.
  unfold merged_metadata. intros Hname Hm Hsec. simpl.
  rewrite bool_decide_eq_false_2 by done. simpl. rewrite Hm.
  rewrite bool_decide_eq_true_2 by eauto. simpl.
  unfold dict_get_or. by rewrite Hsec.
Qed.

(** On a well-shaped overlay the effective metadata is always a dict. *)
Lemma merged_metadata_total entry module_name :
  entry_ok entry = true →
  ∃ effective, merged_metadata (JObj entry) (JStr module_name) = Some (JObj effective).
Proof.
  intros [Hno|(modules & Hm & Hall)]%entry_modules.
  - rewrite merged_metadata_no_modules by done. eauto.
  - destruct (decide (module_name = "")) as [->|Hne].
    { rewrite merged_metadata_falsy_name by done. eauto. }
    destruct (dict_get modules module_name) as [v|] eqn:Hsec.
    + destruct (is_obj_inv v (values_all_get _ _ _ _ Hall Hsec)) as [mm ->].
      erewrite merged_metadata_section by done. eauto.
    + erewrite merged_metadata_no_section by done. eauto.
Qed.

Lemma get_contract_metadata_total metadata address module_name :
  overlay_ok metadata = true →
  ∃ effective,
    get_contract_metadata metadata (JStr address) (JStr module_name)
    = Some (JObj effective).
Proof.
  intros (all & Hall & Hok)%overlay_ok_inv.
  rewrite get_contract_metadata_merged, Hall. simpl.
  destruct (overlay_entry all address Hok) as (entry & -> & Hentry).
  by apply merged_metadata_total.
Qed.

End effective_metadata.

(** C5, as stated, fails for the empty module name: a subsection exists for
    it, and the effective record still has the contract-level description. *)
Lemma get_contract_metadata_empty_name_counterexample :
  ¬ (∀ address module_name all entry modules module_meta,
       py_get c5_metadata "contractMetadata" (JObj []) = Some (JObj all) →
       dict_get all address = Some (JObj entry) →
       dict_get entry "modules" = Some (JObj modules) →
       dict_get modules module_name = Some (JObj module_meta) →
       ∃ merged,
         get_contract_metadata c5_metadata (JStr address) (JStr module_name)
         = Some (JObj merged)
         ∧ ∀ k v, dict_get module_meta k = Some v → dict_get merged k = Some v).
Proof.
  intros Hclaim.
  edestruct (Hclaim "0xabc" "") as (merged & Hrun & Hwins); [reflexivity..|].
  vm_compute in Hrun. injection Hrun as <-.
  specialize (Hwins "description" _ eq_refl). vm_compute in Hwins. discriminate.
Qed.

(** C5, amended: for a module name that is not empty, the effective metadata
    is the overlay entry of the address (the empty record when there is
    none), with the module subsection of that name, when there is one, merged
    over it: module-level keys win, the other keys keep the contract-level
    value.  Without a subsection the entry is used as it is.  For the empty
    module name the entry is used as it is, whatever the subsections. *)
Theorem get_contract_metadata_effective
    (metadata : json) (address module_name : string) :
  overlay_ok metadata = true →
  module_name ≠ "" →
  ∃ all entry : dict,
    py_get metadata "contractMetadata" (JObj []) = Some (JObj all)
    ∧ dict_get_or all address (JObj []) = JObj entry
    ∧ (dict_get all address = None → entry = [])
    ∧ get_contract_metadata metadata (JStr address) (JStr "") = Some (JObj entry)
    ∧ (dict_get entry "modules" = None →
       get_contract_metadata metadata (JStr address) (JStr module_name)
       = Some (JObj entry))
    ∧ (∀ modules,
         dict_get entry "modules" = Some (JObj modules) →
         dict_get modules module_name = None →
         get_contract_metadata metadata (JStr address) (JStr module_name)
         = Some (JObj entry))
    ∧ (∀ modules module_meta,
         dict_get entry "modules" = Some (JObj modules) →
         dict_get modules module_name = Some (JObj module_meta) →
         NoDup module_meta.*1 →
         ∃ merged,
           get_contract_metadata metadata (JStr address) (JStr module_name)
           = Some (JObj merged)
           ∧ ∀ k, dict_get merged k =
                  match dict_get module_meta k with
                  | Some v => Some v
                  | None => dict_get entry k
                  end).
Proof.
  intros (all & Hall & Hok)%overlay_ok_inv Hname.
  destruct (overlay_entry all address Hok) as (entry & Hentry & _).
  exists all, entry. rewrite !get_contract_metadata_merged, Hall. simpl.
  rewrite Hentry. repeat split; try done.
  - intros Hno. unfold dict_get_or in Hentry. rewrite Hno in Hentry.
    by injection Hentry.
  - by apply merged_metadata_no_modules.
  - intros modules ??. by eapply merged_metadata_no_section.
  - intros modules module_meta Hm Hsec Hnd.
    exists (dict_update entry module_meta). split.
    + by eapply merged_metadata_section.
    + intros k. by apply dict_get_update.
Qed.

Lemma get_contract_metadata_effective_witness :
  ∃ merged,
    get_contract_metadata c5_metadata (JStr "0xabc") (JStr "pool") = Some (JObj merged)
    ∧ dict_get merged "description" = Some (JStr "module level")
    ∧ dict_get merged "website" = Some (JStr "https://example.org").
Proof.
  destruct (get_contract_metadata_effective c5_metadata "0xabc" "pool")
    as (all & entry & Hall & Hentry & _ & _ & _ & _ & Hmerge);
    [reflexivity | discriminate |].
  vm_compute in Hall. injection Hall as <-.
  vm_compute in Hentry. injection Hentry as <-.
  edestruct Hmerge as (merged & Hrun & Hget); [reflexivity | reflexivity | |].
  { vm_compute. apply NoDup_cons_2; [apply not_elem_of_nil | apply NoDup_nil_2]. }
  exists merged. split; [exact Hrun|]. split; [apply (Hget "description") | apply (Hget "website")].
Defined.

(** ** The classifier *)

Section classifier.

Lemma append_if_app cond new tags :
  append_if cond new tags = tags ++ (if cond then new else []).
Proof. destruct cond; simpl; [done|]. by rewrite app_nil_r. Qed.

Lemma tags_of_from name address :
  tags_of name address =
    tags_from (contains "coin" name || contains "token" name)
              (contains "liquidity" name || contains "swap" name)
              (contains "lending" name || contains "borrow" name)
              (contains "staking" name || contains "liquid" name)
              (contains "vault" name)
              (contains "perpetual" name || contains "derivative" name)
              (contains "bridge" name)
              (contains "governance" name)
              (address_in address stablecoin_addresses)
              (address_is address oft_address && contains "oft" name)
              (address_in address native_addresses).
Proof.
  unfold tags_of, tags_from. rewrite !append_if_app. simpl.
  by rewrite <- !app_assoc.
Qed.

(** A check that holds whichever rules fire holds of every module. *)
Ltac all_rules := by intros [] [] [] [] [] [] [] [] [] [] []; vm_compute.

Lemma tags_from_coin c a l s v p b g st o n :
  bool_decide ("moveCoin" ∈ tags_from c a l s v p b g st o n) = c.
Proof. revert c a l s v p b g st o n. all_rules. Qed.

Lemma tags_from_amm c a l s v p b g st o n :
  bool_decide ("AMM" ∈ tags_from c a l s v p b g st o n) = a.
Proof. revert c a l s v p b g st o n. all_rules. Qed.

Lemma tags_from_lending c a l s v p b g st o n :
  bool_decide ("lending" ∈ tags_from c a l s v p b g st o n) = l.
Proof. revert c a l s v p b g st o n. all_rules. Qed.

Lemma tags_from_staking c a l s v p b g st o n :
  bool_decide ("liquidStaking" ∈ tags_from c a l s v p b g st o n) = s.
Proof. revert c a l s v p b g st o n. all_rules. Qed.

Lemma tags_from_vault c a l s v p b g st o n :
  bool_decide ("vault" ∈ tags_from c a l s v p b g st o n) = v.
Proof. revert c a l s v p b g st o n. all_rules. Qed.

Lemma tags_from_perpetual c a l s v p b g st o n :
  bool_decide ("perpetuals" ∈ tags_from c a l s v p b g st o n) = p.
Proof. revert c a l s v p b g st o n. all_rules. Qed.

Lemma tags_from_bridge c a l s v p b g st o n :
  bool_decide ("bridge" ∈ tags_from c a l s v p b g st o n) = b || o.
Proof. revert c a l s v p b g st o n. all_rules. Qed.

Lemma tags_from_governance c a l s v p b g st o n :
  bool_decide ("governance" ∈ tags_from c a l s v p b g st o n) = g.
Proof. revert c a l s v p b g st o n. all_rules. Qed.

(** The only tag two rules append is [bridge]. *)
Lemma tags_from_NoDup c a l s v p b g st o n :
  bool_decide (NoDup (tags_from c a l s v p b g st o n)) = negb (b && o).
Proof. revert c a l s v p b g st o n. all_rules. Qed.

Lemma tags_from_occurrences c a l s v p b g st o n :
  forallb (fun t => bool_decide
             (occurrences t (tags_from c a l s v p b g st o n)
              = if bool_decide (t = "bridge") then (Nat.b2n b + Nat.b2n o)%nat
                else Nat.b2n (bool_decide (t ∈ tags_from c a l s v p b g st o n))))
          all_tags = true.
Proof. revert c a l s v p b g st o n. all_rules. Qed.

Lemma tags_from_all_tags c a l s v p b g st o n :
  forallb (fun t => bool_decide (t ∈ all_tags)) (tags_from c a l s v p b g st o n) = true.
Proof. revert c a l s v p b g st o n. all_rules. Qed.

End classifier.

Lemma determine_tags_duplicate_counterexample :
  ¬ (∀ tags t, determine_tags oft_bridge_module = Some tags → (occurrences t tags ≤ 1)%nat).
Proof.
  intros Hclaim. specialize (Hclaim _ "bridge" eq_refl). vm_compute in Hclaim. lia.
Qed.

Lemma occurrences_not_elem t tags : t ∉ tags → occurrences t tags = 0%nat.
Proof.
  unfold occurrences. induction tags as [|x tags IH]; [done|].
  rewrite not_elem_of_cons. intros [Hne Hnot].
  rewrite filter_cons_False by done. auto.
Qed.

Lemma determine_tags_name module :
  absent_or is_str module "name" = true →
  ∃ name, dict_get_or module "name" (JStr "") = JStr name
          ∧ determine_tags module
            = Some (tags_of (lower name) (dict_get module "address")).
Proof.
  unfold absent_or, determine_tags, module_name_lower, dict_get_or.
  destruct (dict_get module "name") as [[]|]; simpl; try done; eauto.
Qed.

(** C2, amended: no tag but [bridge] occurs twice in the tags of a module;
    [bridge] occurs at most twice, and the tags are free of duplicates unless
    the module is at the LayerZero OFT address and its lower-cased name contains
    both "bridge" and "oft". *)
Theorem determine_tags_occurrences (module : dict) :
  absent_or is_str module "name" = true →
  ∃ name tags,
    dict_get_or module "name" (JStr "") = JStr name
    ∧ determine_tags module = Some tags
    ∧ (∀ t, t ≠ "bridge" → (occurrences t tags ≤ 1)%nat)
    ∧ (occurrences "bridge" tags ≤ 2)%nat
    ∧ (NoDup tags ↔
       ¬ (contains "bridge" (lower name) = true
          ∧ contains "oft" (lower name) = true
          ∧ dict_get module "address" = Some (JStr oft_address))).
Proof.
  intros (name & Hname & Hrun)%determine_tags_name.
  exists name, (tags_of (lower name) (dict_get module "address")).
  split; [done|]. split; [done|]. rewrite tags_of_from.
  set (c := _ || _). set (a := _ || _). set (l := _ || _). set (s := _ || _).
  set (v := contains "vault" _). set (p := _ || _). set (b := contains "bridge" _).
  set (g := contains "governance" _). set (st := address_in _ _).
  set (o := _ && _). set (n := address_in _ _).
  pose proof (tags_from_occurrences c a l s v p b g st o n) as Hocc.
  pose proof (tags_from_all_tags c a l s v p b g st o n) as Hall.
  rewrite forallb_forall in Hocc, Hall.
  assert (∀ t, (occurrences t (tags_from c a l s v p b g st o n)
                ≤ if bool_decide (t = "bridge") then 2 else 1)%nat) as Hle.
  { intros t. destruct (decide (t ∈ all_tags)) as [Hin|Hnot].
    - apply list_elem_of_In, Hocc, bool_decide_eq_true in Hin. rewrite Hin.
      case_bool_decide; [destruct b, o; simpl; lia|].
      destruct (bool_decide _); simpl; lia.
    - rewrite occurrences_not_elem; [case_bool_decide; lia|].
      intros Hin. apply Hnot. apply list_elem_of_In, Hall in Hin.
      by apply bool_decide_eq_true in Hin. }
  split; [|split].
  - intros t Ht. specialize (Hle t). by rewrite bool_decide_eq_false_2 in Hle.
  - apply (Hle "bridge").
  - clear Hocc Hall Hle.
    pose proof (tags_from_NoDup c a l s v p b g st o n) as Hnd.
    assert (Is_true o ↔ contains "oft" (lower name) = true
                        ∧ dict_get module "address" = Some (JStr oft_address)) as Ho.
    { subst o. rewrite andb_True, !Is_true_true. unfold address_is, eq_str.
      destruct (dict_get module "address") as [[]|]; simpl;
        rewrite ?bool_decide_eq_true; naive_solver. }
    rewrite <- (bool_decide_spec (NoDup _)), Hnd, negb_True, andb_True, Ho.
    subst b. rewrite Is_true_true. tauto.
Qed.

Lemma determine_tags_occurrences_witness :
  ∃ tags, determine_tags oft_bridge_module = Some tags
          ∧ (occurrences "bridge" tags ≤ 2)%nat
          ∧ (occurrences "stablecoin" tags ≤ 1)%nat.
Proof.
  destruct (determine_tags_occurrences oft_bridge_module)
    as (name & tags & _ & Hrun & Hone & Htwo & _); [reflexivity|].
  exists tags. split; [exact Hrun|]. split; [exact Htwo|].
  apply Hone. discriminate.
Defined.

(** C9: the classifier lower-cases the module name and tests every pattern on
    it; a tag of a name rule is among the tags exactly when one of the
    patterns of its rule occurs in the lower-cased name ([bridge] also when
    the OFT rule fires), whatever the other rules do. *)
Theorem determine_tags_rules (module : dict) :
  absent_or is_str module "name" = true →
  ∃ name tags,
    dict_get_or module "name" (JStr "") = JStr name
    ∧ determine_tags module = Some tags
    ∧ ("moveCoin" ∈ tags ↔
       contains "coin" (lower name) = true ∨ contains "token" (lower name) = true)
    ∧ ("AMM" ∈ tags ↔
       contains "liquidity" (lower name) = true ∨ contains "swap" (lower name) = true)
    ∧ ("lending" ∈ tags ↔
       contains "lending" (lower name) = true ∨ contains "borrow" (lower name) = true)
    ∧ ("liquidStaking" ∈ tags ↔
       contains "staking" (lower name) = true ∨ contains "liquid" (lower name) = true)
    ∧ ("vault" ∈ tags ↔ contains "vault" (lower name) = true)
    ∧ ("perpetuals" ∈ tags ↔
       contains "perpetual" (lower name) = true
       ∨ contains "derivative" (lower name) = true)
    ∧ ("bridge" ∈ tags ↔
       contains "bridge" (lower name) = true
       ∨ (address_is (dict_get module "address") oft_address = true
          ∧ contains "oft" (lower name) = true))
    ∧ ("governance" ∈ tags ↔ contains "governance" (lower name) = true).
Proof.
  intros (name & Hname & Hrun)%determine_tags_name.
  exists name, (tags_of (lower name) (dict_get module "address")).
  split; [done|]. split; [done|]. rewrite tags_of_from.
  assert (∀ (t : string) (tags : list string) (b : bool) (P : Prop),
            bool_decide (t ∈ tags) = b → (Is_true b ↔ P) → (t ∈ tags ↔ P)) as Hrule.
  { intros t tags b P <- <-. by rewrite bool_decide_spec. }
  split_and!.
  - eapply Hrule; [apply tags_from_coin|]. by rewrite orb_True, !Is_true_true.
  - eapply Hrule; [apply tags_from_amm|]. by rewrite orb_True, !Is_true_true.
  - eapply Hrule; [apply tags_from_lending|]. by rewrite orb_True, !Is_true_true.
  - eapply Hrule; [apply tags_from_staking|]. by rewrite orb_True, !Is_true_true.
  - eapply Hrule; [apply tags_from_vault|]. by rewrite Is_true_true.
  - eapply Hrule; [apply tags_from_perpetual|]. by rewrite orb_True, !Is_true_true.
  - eapply Hrule; [apply tags_from_bridge|].
    by rewrite orb_True, andb_True, !Is_true_true.
  - eapply Hrule; [apply tags_from_governance|]. by rewrite Is_true_true.
Qed.

Lemma determine_tags_rules_witness :
  (∃ tags, determine_tags liquidity_pool_swap_module = Some tags ∧ "AMM" ∈ tags)
  ∧ (∃ tags, determine_tags lending_borrow_pool_module = Some tags ∧ "lending" ∈ tags).
Proof.
  split.
  - destruct (determine_tags_rules liquidity_pool_swap_module)
      as (name & tags & Hname & Hrun & _ & Hamm & _); [reflexivity|].
    exists tags. split; [exact Hrun|].
    apply Hamm. injection Hname as <-. left. reflexivity.
  - destruct (determine_tags_rules lending_borrow_pool_module)
      as (name & tags & Hname & Hrun & _ & _ & Hlending & _); [reflexivity|].
    exists tags. split; [exact Hrun|].
    apply Hlending. injection Hname as <-. right. reflexivity.
Defined.

(** ** The overlay, key by key *)

(** Peel the binds off a run that returned. *)
Ltac bind_inv H :=
  repeat match type of H with
         | (_ ≫= _) = Some _ =>
             let x := fresh "x" in let Hx := fresh "Hx" in
             apply bind_Some in H as (x & Hx & H)
         end.

Section overlay_steps.
Implicit Types (metadata : json) (contract c e : dict) (k key : string).

Lemma copy_key_get key metadata c c' k :
  copy_key key metadata c = Some c' →
  dict_get c' k = copy_key_at key metadata k (dict_get c k).
Proof.
  unfold copy_key, copy_key_at. intros H. bind_inv H. rewrite Hx.
  destruct x.
  - bind_inv H. injection H as <-. rewrite Hx0, dict_get_set.
    by destruct (decide (key = k)).
  - injection H as <-. by destruct (decide (key = k)).
Qed.

(** A record that already holds what [copy_key] writes is left as it is. *)
Lemma copy_key_stable key metadata c c' e :
  copy_key key metadata c = Some c' →
  dict_get e key = dict_get c' key →
  copy_key key metadata e = Some e.
Proof.
  unfold copy_key. intros H He. bind_inv H. rewrite Hx. simpl.
  destruct x; [|done].
  bind_inv H. injection H as <-. rewrite Hx0. simpl.
  rewrite dict_get_set_eq in He. by rewrite dict_set_id.
Qed.

Lemma mark_audited_twice metadata func func' :
  mark_audited metadata func = Some func' →
  mark_audited metadata func' = Some func'.
Proof.
  unfold mark_audited. intros H. bind_inv H. injection H as <-.
  rewrite Hx. simpl.
  rewrite (dict_set_id _ "auditors")
    by (by rewrite dict_get_set_ne, dict_get_set_eq).
  by rewrite dict_set_id by apply dict_get_set_eq.
Qed.

Lemma mapM_mark_audited_twice metadata funcs funcs' :
  mapM (mark_audited metadata) funcs = Some funcs' →
  mapM (mark_audited metadata) funcs' = Some funcs'.
Proof.
  rewrite !mapM_Some. intros H. induction H; constructor; eauto using mark_audited_twice.
Qed.

Lemma audited_functions_twice metadata functions functions' :
  audited_functions metadata functions = Some functions' →
  audited_functions metadata functions' = Some functions'.
Proof.
  unfold audited_functions. intros H.
  destruct functions; simpl in H; bind_inv H; simplify_eq; simpl;
    try (by rewrite ?Hx, ?Hx0; simpl; rewrite ?H).
  erewrite mapM_mark_audited_twice; done.
Qed.

Lemma audit_functions_get metadata c c' k :
  audit_functions metadata c = Some c' →
  dict_get c' k =
    if decide (k = "functions") then dict_get c k ≫= audited_functions metadata
    else dict_get c k.
Proof.
  unfold audit_functions. intros H.
  destruct (dict_get c "functions") as [functions|] eqn:Hf.
  - bind_inv H. injection H as <-. rewrite dict_get_set.
    destruct (decide (k = "functions")) as [->|].
    + by rewrite decide_True, Hf.
    + by rewrite decide_False.
  - injection H as <-. destruct (decide (k = "functions")) as [->|]; [|done].
    by rewrite Hf.
Qed.

Lemma audit_functions_stable metadata c c' e :
  audit_functions metadata c = Some c' →
  dict_get e "functions" = dict_get c' "functions" →
  audit_functions metadata e = Some e.
Proof.
  intros H He. rewrite (audit_functions_get _ _ _ _ H), decide_True in He by done.
  unfold audit_functions in *. rewrite He.
  destruct (dict_get c "functions") as [functions|]; [|done].
  bind_inv H. change (Some functions ≫= audited_functions metadata)
    with (audited_functions metadata functions) in *.
  rewrite Hx in *. rewrite (audited_functions_twice _ _ _ Hx). simpl.
  by rewrite dict_set_id.
Qed.

Lemma add_security_get metadata c c' k :
  add_security metadata c = Some c' →
  dict_get c' k = add_security_at metadata k (dict_get c k).
Proof.
  unfold add_security, add_security_at. intros H. bind_inv H. rewrite Hx.
  destruct x; [|injection H as <-; by repeat case_decide].
  bind_inv H. rewrite (audit_functions_get _ _ _ _ H), dict_get_set.
  destruct (decide (k = "functions")) as [->|]; [by rewrite decide_False|].
  destruct (decide (k = "security")) as [->|]; [by rewrite decide_True|].
  by rewrite decide_False.
Qed.

Lemma add_security_stable metadata c c' e :
  add_security metadata c = Some c' →
  dict_get e "security" = dict_get c' "security" →
  dict_get e "functions" = dict_get c' "functions" →
  add_security metadata e = Some e.
Proof.
  unfold add_security. intros H Hs Hf. bind_inv H. rewrite Hx. simpl.
  destruct x; [|done]. bind_inv H. rewrite Hx0. simpl.
  rewrite (audit_functions_get _ _ _ _ H), decide_False, dict_get_set_eq in Hs by done.
  rewrite (dict_set_id e) by done.
  apply (audit_functions_stable _ _ _ _ H Hf).
Qed.

End overlay_steps.

Section enhance_facts.
Implicit Types (metadata effective : json) (contract c e : dict) (k key : string).

Lemma enhance_unfold metadata now contract :
  enhance_contract_with_metadata metadata now contract =
    effective ← get_contract_metadata metadata
                  (dict_get_or contract "address" (JStr ""))
                  (dict_get_or contract "moduleName" (JStr ""));
    c ← overlay_steps effective contract;
    address ← py_format (dict_get_or contract "address" (JStr ""));
    Some (dict_set c "apiVerification" (api_verification address now)).
Proof.
  unfold enhance_contract_with_metadata, overlay_steps.
  destruct (get_contract_metadata _ _ _) as [effective|]; simpl; [|done].
  repeat (match goal with
          | |- context [copy_key ?k ?m ?c] => destruct (copy_key k m c); simpl; [|done]
          | |- context [add_security ?m ?c] => destruct (add_security m c); simpl; [|done]
          end).
  done.
Qed.

(** Rewrite the lookups in the later records of a run into lookups in the
    record the run started from. *)
Ltac chase :=
  repeat match goal with
         | H : copy_key _ _ ?c = Some ?c' |- context [dict_get ?c' ?k] =>
             rewrite (copy_key_get _ _ _ _ k H)
         | H : add_security _ ?c = Some ?c' |- context [dict_get ?c' ?k] =>
             rewrite (add_security_get _ _ _ k H)
         end.

Lemma overlay_steps_get effective c c' k :
  overlay_steps effective c = Some c' →
  dict_get c' k = overlay_at effective k (dict_get c k).
Proof.
  unfold overlay_steps. intros H. bind_inv H. chase. done.
Qed.

Lemma overlay_steps_stable effective c c' e :
  overlay_steps effective c = Some c' →
  (∀ k, k ≠ "apiVerification" → dict_get e k = dict_get c' k) →
  overlay_steps effective e = Some e.
Proof.
  unfold overlay_steps. intros H He. bind_inv H.
  rewrite (copy_key_stable _ _ _ _ e Hx) by (rewrite He by done; chase; done).
  simpl.
  rewrite (copy_key_stable _ _ _ _ e Hx0) by (rewrite He by done; chase; done).
  simpl.
  rewrite (add_security_stable _ _ _ e Hx1) by (rewrite He by done; chase; done).
  simpl.
  rewrite (copy_key_stable _ _ _ _ e Hx2) by (rewrite He by done; chase; done).
  simpl.
  rewrite (copy_key_stable _ _ _ _ e Hx3) by (rewrite He by done; chase; done).
  simpl.
  rewrite (copy_key_stable _ _ _ _ e Hx4) by (rewrite He by done; chase; done).
  simpl.
  rewrite (copy_key_stable _ _ _ _ e Hx5) by (rewrite He by done; chase; done).
  simpl.
  rewrite (copy_key_stable _ _ _ _ e Hx6) by (rewrite He by done; chase; done).
  simpl.
  apply (copy_key_stable _ _ _ _ e H). by rewrite He.
Qed.

Lemma copy_key_at_ne key merged k old :
  key ≠ k → copy_key_at key merged k old = old.
Proof. intros. unfold copy_key_at. by rewrite decide_False. Qed.

Lemma add_security_at_other effective k old :
  k ≠ "functions" → k ≠ "security" → add_security_at effective k old = old.
Proof. intros. unfold add_security_at. by rewrite !decide_False. Qed.

(** The overlay leaves the keys it does not name alone. *)
Lemma overlay_at_other effective k old :
  k ∉ ["description"; "website"; "security"; "functions"; "governance";
       "compliance"; "performance"; "interoperability"; "bridgeImplementation";
       "objectExtensions"] →
  overlay_at effective k old = old.
Proof.
  rewrite !not_elem_of_cons. intros Hk. destruct_and!.
  unfold overlay_at.
  rewrite !copy_key_at_ne by done. by apply add_security_at_other.
Qed.

Lemma overlay_at_security effective old :
  overlay_at effective "security" old =
    match py_in "auditors" effective with
    | Some true => security_of effective
    | _ => old
    end.
Proof.
  unfold overlay_at. rewrite !copy_key_at_ne by done.
  unfold add_security_at. rewrite decide_False by done. by rewrite decide_True.
Qed.

Lemma overlay_at_functions effective old :
  overlay_at effective "functions" old =
    match py_in "auditors" effective with
    | Some true => old ≫= audited_functions effective
    | _ => old
    end.
Proof.
  unfold overlay_at. rewrite !copy_key_at_ne by done.
  unfold add_security_at. by rewrite decide_True.
Qed.



(** The record [enhance_contract_with_metadata] returns, key by key. *)
Lemma enhance_get metadata now contract e :
  enhance_contract_with_metadata metadata now contract = Some e →
  ∃ effective address,
    get_contract_metadata metadata
      (dict_get_or contract "address" (JStr ""))
      (dict_get_or contract "moduleName" (JStr "")) = Some effective
    ∧ py_format (dict_get_or contract "address" (JStr "")) = Some address
    ∧ ∀ k, dict_get e k =
           if decide (k = "apiVerification")
           then Some (api_verification address now)
           else overlay_at effective k (dict_get contract k).
Proof.
  rewrite enhance_unfold. intros H. bind_inv H. injection H as <-.
  exists x, x1. split; [done|]. split; [done|]. intros k.
  rewrite dict_get_set. destruct (decide (k = "apiVerification")) as [->|].
  - by rewrite decide_True.
  - rewrite decide_False by done. by apply overlay_steps_get.
Qed.

End enhance_facts.

(** C3, as stated, fails: the second application stamps a new
    [lastVerified]. *)
Lemma enhance_twice_counterexample :
  ¬ (∀ now1 now2 once twice,
       enhance_contract_with_metadata c3_metadata now1 c3_record = Some once →
       enhance_contract_with_metadata c3_metadata now2 once = Some twice →
       twice = once).
Proof.
  intros Hclaim.
  specialize (Hclaim "2026-01-01T00:00:00" "2026-01-02T00:00:00" _ _ eq_refl eq_refl).
  vm_compute in Hclaim. discriminate.
Qed.

(** C3, amended: applying the overlay to an enhanced record gives the record
    one application gives at the clock reading of the second application; the
    two applications differ in [apiVerification.lastVerified] only, and not at
    all at the same clock reading. *)
Theorem enhance_twice (metadata : json) (now1 now2 : string) (contract once : dict) :
  enhance_contract_with_metadata metadata now1 contract = Some once →
  enhance_contract_with_metadata metadata now2 once
  = enhance_contract_with_metadata metadata now2 contract
  ∧ ∃ twice,
      enhance_contract_with_metadata metadata now2 once = Some twice
      ∧ (∀ k, k ≠ "apiVerification" → dict_get twice k = dict_get once k)
      ∧ (now1 = now2 → twice = once).
Proof.
  intros Honce. pose proof Honce as Hrun.
  rewrite enhance_unfold in Hrun. bind_inv Hrun. injection Hrun as <-.
  rename x into effective, x0 into c, x1 into address.
  assert (∀ k, k ≠ "apiVerification" →
               dict_get (dict_set c "apiVerification" (api_verification address now1)) k
               = dict_get c k) as Hframe.
  { intros k Hk. by rewrite dict_get_set_ne. }
  assert (∀ key, key ∈ ["address"; "moduleName"] → ∀ dflt,
            dict_get_or (dict_set c "apiVerification" (api_verification address now1)) key dflt
            = dict_get_or contract key dflt) as Hkeys.
  { intros key Hkey dflt. unfold dict_get_or.
    rewrite Hframe, (overlay_steps_get _ _ _ _ Hx0), overlay_at_other; [done|..].
    - rewrite !elem_of_cons in Hkey. rewrite !not_elem_of_cons.
      destruct Hkey as [->|[->|[]%elem_of_nil]]; split_and!; done || apply not_elem_of_nil.
    - rewrite !elem_of_cons in Hkey.
      destruct Hkey as [->|[->|[]%elem_of_nil]]; done. }
  assert (enhance_contract_with_metadata metadata now2
            (dict_set c "apiVerification" (api_verification address now1))
          = Some (dict_set c "apiVerification" (api_verification address now2))) as Htwice.
  { rewrite enhance_unfold.
    rewrite !Hkeys by (rewrite !elem_of_cons; auto).
    rewrite Hx. simpl.
    rewrite (overlay_steps_stable _ _ _ _ Hx0 Hframe). simpl.
    rewrite Hx1. simpl. by rewrite dict_set_set. }
  split.
  - rewrite Htwice, enhance_unfold, Hx. simpl. rewrite Hx0. simpl. by rewrite Hx1.
  - eexists. split; [exact Htwice|]. split.
    + intros k Hk. by rewrite !dict_get_set_ne.
    + by intros ->.
Qed.

Lemma enhance_twice_witness :
  ∃ once twice,
    enhance_contract_with_metadata c3_metadata "2026-01-01T00:00:00" c3_record = Some once
    ∧ enhance_contract_with_metadata c3_metadata "2026-01-02T00:00:00" once = Some twice
    ∧ dict_get twice "security" = dict_get once "security"
    ∧ dict_get twice "functions" = dict_get once "functions".
Proof.
  eexists.
  destruct (enhance_twice c3_metadata "2026-01-01T00:00:00" "2026-01-02T00:00:00"
              c3_record _ eq_refl) as (_ & twice & Htwice & Hsame & _).
  exists twice. split; [reflexivity|]. split; [exact Htwice|].
  split; apply Hsame; discriminate.
Defined.

(** ** The generator's overlay returns, on well-shaped inputs *)

Section enhance_total.
Implicit Types (metadata : json) (effective contract c e : dict) (k key : string).

Lemma copy_key_total key effective c :
  ∃ c', copy_key key (JObj effective) c = Some c'.
Proof.
  unfold copy_key. simpl. case_bool_decide as Hin; simpl; [|eauto].
  destruct Hin as [v ->]. simpl. eauto.
Qed.

Lemma record_functions contract :
  absent_or (list_of is_obj) contract "functions" = true →
  dict_get contract "functions" = None
  ∨ ∃ funcs, dict_get contract "functions" = Some (JList funcs)
             ∧ Forall (fun f => ∃ fd, f = JObj fd) funcs.
Proof.
  intros [?|(v & ? & (funcs & -> & Hall)%list_of_inv)]%absent_or_inv; [by left|].
  right. exists funcs. split; [done|].
  eapply Forall_impl; [exact Hall|]. intros f. apply is_obj_inv.
Qed.

Lemma mark_audited_spec effective auditors fd :
  dict_get effective "auditors" = Some auditors →
  ∃ func', mark_audited (JObj effective) (JObj fd) = Some func'
           ∧ audited_as auditors (JObj fd) func'.
Proof.
  intros Ha. unfold mark_audited. simpl. rewrite Ha. simpl.
  eexists. split; [done|]. eexists _, _. split_and!; try done.
  - by rewrite dict_get_set_ne, dict_get_set_eq.
  - by rewrite dict_get_set_eq.
  - intros k ??. by rewrite !dict_get_set_ne.
Qed.

Lemma mapM_mark_audited_spec effective auditors funcs :
  dict_get effective "auditors" = Some auditors →
  Forall (fun f => ∃ fd, f = JObj fd) funcs →
  ∃ funcs', mapM (mark_audited (JObj effective)) funcs = Some funcs'
            ∧ Forall2 (audited_as auditors) funcs funcs'.
Proof.
  intros Ha Hall. induction Hall as [|f funcs [fd ->] _ (funcs' & IH & Hrel)].
  - by exists [].
  - destruct (mark_audited_spec _ _ fd Ha) as (func' & Hrun & Hspec).
    exists (func' :: funcs'). split.
    + apply mapM_Some. constructor; [done|]. by apply mapM_Some.
    + by constructor.
Qed.

Lemma add_security_total effective c :
  absent_or (list_of is_obj) c "functions" = true →
  ∃ c', add_security (JObj effective) c = Some c'.
Proof.
  intros Hf. unfold add_security. simpl. case_bool_decide as Hin; simpl; [|eauto].
  destruct Hin as [auditors Ha]. unfold audit_functions.
  rewrite dict_get_set_ne by done.
  destruct (record_functions _ Hf) as [->|(funcs & -> & Hall)]; [eauto|].
  destruct (mapM_mark_audited_spec _ _ _ Ha Hall) as (funcs' & Hrun & _).
  simpl. rewrite Hrun. simpl. eauto.
Qed.

Lemma overlay_steps_total effective c :
  absent_or (list_of is_obj) c "functions" = true →
  ∃ c', overlay_steps (JObj effective) c = Some c'.
Proof.
  intros Hf. unfold overlay_steps.
  destruct (copy_key_total "description" effective c) as [c1 H1].
  destruct (copy_key_total "website" effective c1) as [c2 H2].
  destruct (add_security_total effective c2) as [c3 H3].
  { unfold absent_or in *.
    rewrite (copy_key_get _ _ _ _ _ H2), (copy_key_get _ _ _ _ _ H1). exact Hf. }
  rewrite H1. simpl. rewrite H2. simpl. rewrite H3. simpl.
  destruct (copy_key_total "governance" effective c3) as [c4 ->]. simpl.
  destruct (copy_key_total "compliance" effective c4) as [c5 ->]. simpl.
  destruct (copy_key_total "performance" effective c5) as [c6 ->]. simpl.
  destruct (copy_key_total "interoperability" effective c6) as [c7 ->]. simpl.
  destruct (copy_key_total "bridgeImplementation" effective c7) as [c8 ->]. simpl.
  apply copy_key_total.
Qed.

Lemma record_strings contract :
  record_ok contract = true →
  ∃ address module_name,
    dict_get_or contract "address" (JStr "") = JStr address
    ∧ dict_get_or contract "moduleName" (JStr "") = JStr module_name.
Proof.
  unfold record_ok, absent_or, dict_get_or. rewrite !andb_true_iff.
  intros [[[Ha Hm] _] _].
  destruct (dict_get contract "address") as [[]|]; try done;
    destruct (dict_get contract "moduleName") as [[]|]; try done; simpl; eauto.
Qed.

Lemma enhance_total metadata now contract :
  overlay_ok metadata = true →
  record_ok contract = true →
  ∃ address module_name effective c,
    dict_get_or contract "address" (JStr "") = JStr address
    ∧ dict_get_or contract "moduleName" (JStr "") = JStr module_name
    ∧ get_contract_metadata metadata (JStr address) (JStr module_name)
      = Some (JObj effective)
    ∧ overlay_steps (JObj effective) contract = Some c
    ∧ enhance_contract_with_metadata metadata now contract
      = Some (dict_set c "apiVerification" (api_verification address now)).
Proof.
  intros Hmeta Hrec.
  destruct (record_strings _ Hrec) as (address & module_name & Ha & Hm).
  destruct (get_contract_metadata_total metadata address module_name Hmeta)
    as [effective Heff].
  destruct (overlay_steps_total effective contract) as [c Hc].
  { unfold record_ok in Hrec. rewrite !andb_true_iff in Hrec. tauto. }
  exists address, module_name, effective, c. split_and!; try done.
  rewrite enhance_unfold, Ha, Hm, Heff. simpl. rewrite Hc. done.
Qed.

End enhance_total.

(** C4: when the effective metadata has [auditors], the enhanced record has
    the [security] sub-record with the six fields, each from the metadata or
    its default, and every function of the record has the overlay's auditor
    list and [audited] true, its other fields unchanged; when it has no
    [auditors], [functions] (and [security]) are as they were. *)
Theorem enhance_security (metadata : json) (now : string) (contract : dict) :
  overlay_ok metadata = true →
  record_ok contract = true →
  ∃ effective e,
    get_contract_metadata metadata
      (dict_get_or contract "address" (JStr ""))
      (dict_get_or contract "moduleName" (JStr "")) = Some (JObj effective)
    ∧ enhance_contract_with_metadata metadata now contract = Some e
    ∧ (∀ auditors,
         dict_get effective "auditors" = Some auditors →
         dict_get e "security"
         = Some (JObj [("auditScore", dict_get_or effective "auditScore" (JInt 0));
                       ("lastAuditDate", dict_get_or effective "lastAuditDate" (JStr ""));
                       ("vulnerabilityReports",
                         dict_get_or effective "vulnerabilityReports" (JList []));
                       ("securityLevel",
                         dict_get_or effective "securityLevel" (JStr "unknown"));
                       ("penetrationTested",
                         dict_get_or effective "penetrationTested" (JBool false));
                       ("formalVerification",
                         dict_get_or effective "formalVerification" (JBool false))])
         ∧ ∀ funcs,
             dict_get contract "functions" = Some (JList funcs) →
             ∃ funcs', dict_get e "functions" = Some (JList funcs')
                       ∧ Forall2 (audited_as auditors) funcs funcs')
    ∧ (dict_get effective "auditors" = None →
       dict_get e "functions" = dict_get contract "functions"
       ∧ dict_get e "security" = dict_get contract "security").
Proof.
  intros Hmeta Hrec.
  destruct (enhance_total metadata now contract Hmeta Hrec)
    as (address & module_name & effective & c & Ha & Hm & Heff & Hc & Hrun).
  exists effective, (dict_set c "apiVerification" (api_verification address now)).
  rewrite Ha, Hm. split; [done|]. split; [done|].
  assert (∀ k, k ≠ "apiVerification" →
               dict_get (dict_set c "apiVerification" (api_verification address now)) k
               = overlay_at (JObj effective) k (dict_get contract k)) as Hget.
  { intros k Hk. rewrite dict_get_set_ne by done. by apply overlay_steps_get. }
  split.
  - intros auditors Hauditors. rewrite !Hget by done.
    rewrite overlay_at_security, overlay_at_functions. cbn [py_in].
    rewrite bool_decide_eq_true_2 by eauto. split; [done|].
    intros funcs Hfuncs. rewrite Hfuncs. simpl.
    destruct (mapM_mark_audited_spec effective auditors funcs Hauditors)
      as (funcs' & -> & Hrel); [|simpl; eauto].
    unfold record_ok in Hrec. rewrite !andb_true_iff in Hrec.
    destruct Hrec as [[[_ _] Hf] _].
    destruct (record_functions _ Hf) as [?|(? & ? & ?)]; simplify_eq. done.
  - intros Hno. rewrite !Hget by done.
    rewrite overlay_at_security, overlay_at_functions. cbn [py_in].
    rewrite bool_decide_eq_false_2; [done|]. rewrite Hno. by intros [? ?].
Qed.

Lemma enhance_security_witness :
  ∃ e funcs',
    enhance_contract_with_metadata c4_metadata "2026-01-01T00:00:00" c4_record = Some e
    ∧ dict_get e "security"
      = Some (JObj [("auditScore", JInt 0); ("lastAuditDate", JStr "");
                    ("vulnerabilityReports", JList []); ("securityLevel", JStr "high");
                    ("penetrationTested", JBool false);
                    ("formalVerification", JBool false)])
    ∧ dict_get e "functions" = Some (JList funcs')
    ∧ length funcs' = 2%nat.
Proof.
  destruct (enhance_security c4_metadata "2026-01-01T00:00:00" c4_record)
    as (effective & e & Heff & Hrun & Hsec & _); [reflexivity | reflexivity |].
  vm_compute in Heff. injection Heff as <-.
  destruct (Hsec _ eq_refl) as [Hsecurity Hfuncs].
  destruct (Hfuncs _ eq_refl) as (funcs' & Hget & Hrel).
  exists e, funcs'. split; [exact Hrun|]. split; [exact Hsecurity|]. split; [exact Hget|].
  symmetry. apply (Forall2_length _ _ _ Hrel).
Defined.

(** ** The generator's record *)

Section transform_total.
Implicit Types (module struct : dict).

Lemma transform_move_function_total (fd : dict) :
  ∃ fd', transform_move_function (JObj fd) = Some (JObj fd').
Proof. unfold transform_move_function. simpl. eauto. Qed.

Lemma mapM_transform_move_function_total funcs :
  Forall (fun f => is_obj f = true) funcs →
  ∃ funcs', mapM transform_move_function funcs = Some funcs'
            ∧ forallb is_obj funcs' = true.
Proof.
  induction 1 as [|f funcs [fd ->]%is_obj_inv _ (funcs' & IH & Hok)].
  - by exists [].
  - destruct (transform_move_function_total fd) as [fd' Hrun].
    exists (JObj fd' :: funcs'). split; [|done].
    apply mapM_Some. constructor; [done|]. by apply mapM_Some.
Qed.

Lemma transform_move_struct_total struct :
  struct_ok struct = true →
  ∃ s', transform_move_struct (JObj struct) = Some s'.
Proof.
  unfold struct_ok. rewrite andb_true_iff. intros [Hfields Habilities].
  unfold transform_move_struct. simpl. unfold dict_get_or.
  assert (∃ fields, py_iter (default (JList []) (dict_get struct "fields")) = Some fields
                    ∧ Forall (fun f => is_obj f = true) fields) as (fields & -> & Hall).
  { apply absent_or_inv in Hfields as [->|(v & -> & (l & -> & ?)%list_of_inv)];
      simpl; eauto. }
  simpl.
  assert (∃ fields', mapM (fun f => n ← py_get f "name" (JStr "");
                                    t ← py_get f "type" (JStr "");
                                    Some (JObj [("name", n); ("type", t)])) fields
                     = Some fields') as [fields' ->].
  { induction Hall as [|f fields [fd ->]%is_obj_inv _ [fields' IH]]; [by exists []|].
    eexists (_ :: fields'). apply mapM_Some. constructor; [done|]. by apply mapM_Some. }
  simpl.
  apply absent_or_inv in Habilities as [->|(v & -> & Hv)]; simpl; [eauto|].
  destruct v; try done. simpl. eauto.
Qed.

Lemma mapM_transform_move_struct_total structs :
  Forall (fun s => obj_where struct_ok s = true) structs →
  ∃ structs', mapM transform_move_struct structs = Some structs'.
Proof.
  induction 1 as [|s structs (sd & -> & Hok)%obj_where_inv _ [structs' IH]].
  - by exists [].
  - destruct (transform_move_struct_total sd Hok) as [s' Hrun].
    exists (s' :: structs'). apply mapM_Some. constructor; [done|]. by apply mapM_Some.
Qed.

Lemma append_Z_inj (s1 s2 : string) : s1 +:+ "Z" = s2 +:+ "Z" → s1 = s2.
Proof.
  revert s2. induction s1 as [|c1 s1 IH]; intros [|c2 s2]; simpl; try done.
  - intros [= <- Hrest]. by destruct s2.
  - intros [= -> Hrest]. by destruct s1.
  - intros [= -> Hrest]. f_equal. by apply IH.
Qed.

End transform_total.

(** C10: the record the generator returns for a module has an
    [apiVerification] block with the fixed [rpcEndpoint] and
    [verificationStatus] and with [lastVerified] read from the clock, and an
    [extensions] block with [audited] false and [verified] true, whatever the
    overlay holds; two runs at different clock readings return different
    records. *)
Theorem transform_module_to_contract_fixed_fields
    (metadata : json) (now : string) (module : dict) (chain_id : Z) (address : string) :
  overlay_ok metadata = true →
  module_ok module = true →
  ∃ contract api extensions,
    transform_module_to_contract metadata now module chain_id address = Some contract
    ∧ dict_get contract "apiVerification" = Some (JObj api)
    ∧ dict_get api "rpcEndpoint" = Some (JStr "https://full.mainnet.movementinfra.xyz/v1")
    ∧ dict_get api "verificationStatus" = Some (JStr "verified")
    ∧ dict_get api "lastVerified" = Some (JStr (now +:+ "Z"))
    ∧ dict_get contract "extensions" = Some (JObj extensions)
    ∧ dict_get extensions "audited" = Some (JBool false)
    ∧ dict_get extensions "verified" = Some (JBool true)
    ∧ ∀ now', now' ≠ now →
        transform_module_to_contract metadata now' module chain_id address
        ≠ Some contract.
Proof.
  intros Hmeta Hmod. unfold module_ok in Hmod. rewrite !andb_true_iff in Hmod.
  destruct Hmod as [[Hname Hfuncs] Hstructs].
  destruct (determine_tags_name module Hname) as (name & Hn & Htags).
  assert (∃ funcs, py_iter (dict_get_or module "exposed_functions" (JList [])) = Some funcs
                   ∧ Forall (fun f => is_obj f = true) funcs) as (funcs & Hiter & Hall).
  { unfold dict_get_or.
    apply absent_or_inv in Hfuncs as [->|(v & -> & (l & -> & ?)%list_of_inv)];
      simpl; eauto. }
  destruct (mapM_transform_move_function_total funcs Hall) as (functions & Hfs & Hobj).
  assert (∃ structs, py_iter (dict_get_or module "structs" (JList [])) = Some structs
                     ∧ Forall (fun s => obj_where struct_ok s = true) structs)
    as (structs & Hiter' & Hall').
  { unfold dict_get_or.
    apply absent_or_inv in Hstructs as [->|(v & -> & (l & -> & ?)%list_of_inv)];
      simpl; eauto. }
  destruct (mapM_transform_move_struct_total structs Hall') as (structs' & Hss).
  assert (∀ t, transform_module_to_contract metadata t module chain_id address
               = enhance_contract_with_metadata metadata t
                   [("chainId", JInt chain_id);
                    ("address", JStr address);
                    ("moduleName", JStr name);
                    ("platform", JStr (determine_platform address (JStr name)));
                    ("name", JStr (determine_platform address (JStr name) +:+ " "
                                   +:+ title (replace_char "_" " " name)));
                    ("tags", JList (JStr <$> tags_of (lower name) (dict_get module "address")));
                    ("functions", JList functions);
                    ("structs", JList structs');
                    ("extensions", JObj [("audited", JBool false); ("verified", JBool true);
                                         ("friends", dict_get_or module "friends" (JList []))])])
    as Hunfold.
  { intros t. unfold transform_module_to_contract, module_title.
    rewrite Htags, Hn. simpl. rewrite Hiter. simpl. rewrite Hfs. simpl.
    rewrite Hiter'. simpl. rewrite Hss. done. }
  set (contract0 := [("chainId", _); _; _; _; _; _; _; _; _]) in Hunfold.
  assert (record_ok contract0 = true) as Hrec.
  { unfold record_ok, absent_or. simpl. by rewrite Hobj. }
  destruct (enhance_total metadata now contract0 Hmeta Hrec)
    as (address' & module_name & effective & c & Ha & _ & _ & Hc & Hrun).
  injection Ha as <-.
  eexists _, _, _. rewrite Hunfold. split; [exact Hrun|].
  split; [apply dict_get_set_eq|]. split; [done|]. split; [done|]. split; [done|].
  split.
  { rewrite dict_get_set_ne by done. rewrite (overlay_steps_get _ _ _ _ Hc).
    rewrite overlay_at_other; [done|]. rewrite !not_elem_of_cons.
    split_and!; done || apply not_elem_of_nil. }
  split; [done|]. split; [done|].
  intros now' Hne. rewrite Hunfold.
  destruct (enhance_total metadata now' contract0 Hmeta Hrec)
    as (address' & module_name' & effective' & c' & Ha & _ & _ & Hc' & ->).
  injection Ha as <-. intros [= Heq].
  apply (f_equal (fun d => dict_get d "apiVerification")) in Heq.
  rewrite !dict_get_set_eq in Heq. injection Heq as Heq.
  by apply append_Z_inj in Heq.
Qed.

Lemma transform_module_to_contract_fixed_fields_witness :
  ∃ contract api,
    transform_module_to_contract c10_metadata "2026-01-01T00:00:00" c10_module 1 "0x1"
    = Some contract
    ∧ dict_get contract "apiVerification" = Some (JObj api)
    ∧ dict_get api "lastVerified" = Some (JStr "2026-01-01T00:00:00Z")
    ∧ transform_module_to_contract c10_metadata "2026-01-02T00:00:00" c10_module 1 "0x1"
      ≠ Some contract.
Proof.
  destruct (transform_module_to_contract_fixed_fields
              c10_metadata "2026-01-01T00:00:00" c10_module 1 "0x1")
    as (contract & api & extensions & Hrun & Hapi & _ & _ & Hlast & _ & _ & _ & Hclock);
    [reflexivity | reflexivity |].
  exists contract, api. split; [exact Hrun|]. split; [exact Hapi|]. split; [exact Hlast|].
  apply Hclock. discriminate.
Defined.

(** ** The updater's overlay, key by key *)

Section sync_facts.
Implicit Types (metadata merged : json) (contract c e s : dict) (k key : string).

Lemma sync_contract_unfold metadata address contract :
  sync_contract metadata address (JObj contract) =
    if filtered_out address (dict_get_or contract "address" (JStr ""))
    then Some (JObj contract, false)
    else
      all ← py_get metadata "contractMetadata" (JObj []);
      contract_meta ← py_get_key all (dict_get_or contract "address" (JStr "")) (JObj []);
      if negb (truthy contract_meta) then Some (JObj contract, false)
      else
        merged ← merged_metadata contract_meta (dict_get_or contract "moduleName" (JStr ""));
        st ← sync_steps merged contract;
        Some (JObj st.1, st.2).
Proof.
  unfold sync_contract, sync_steps. simpl.
  destruct (filtered_out _ _); [done|].
  destruct (py_get metadata _ _) as [all|]; simpl; [|done].
  destruct (py_get_key _ _ _) as [contract_meta|]; simpl; [|done].
  destruct (negb (truthy contract_meta)); [done|].
  destruct (merged_metadata _ _) as [merged|]; simpl; [|done].
  repeat (match goal with
          | |- context [sync_key ?k ?m ?c] => destruct (sync_key k m c); simpl; [|done]
          | |- context [sync_security ?m ?c] => destruct (sync_security m c); simpl; [|done]
          end).
  done.
Qed.

Lemma sync_key_get field merged st st' k :
  sync_key field merged st = Some st' →
  dict_get st'.1 k = copy_key_at field merged k (dict_get st.1 k).
Proof.
  unfold sync_key, copy_key_at. intros H. bind_inv H. rewrite Hx.
  destruct x.
  - bind_inv H. injection H as <-. simpl. rewrite Hx0, dict_get_set.
    by destruct (decide (field = k)).
  - injection H as <-. by destruct (decide (field = k)).
Qed.

(** A turn is counted when one of the keys it reads is in the metadata. *)
Lemma sync_key_flag field merged st st' :
  sync_key field merged st = Some st' →
  st'.2 = st.2 || bool_decide (py_in field merged = Some true).
Proof.
  unfold sync_key. intros H. bind_inv H. rewrite Hx.
  destruct x.
  - bind_inv H. injection H as <-. simpl. by rewrite orb_true_r.
  - injection H as <-. by rewrite orb_false_r.
Qed.

Lemma set_security_inv key dflt merged c c' :
  set_security key dflt merged c = Some c' →
  ∃ security v,
    dict_get c "security" = Some (JObj security)
    ∧ py_get merged key dflt = Some v
    ∧ c' = dict_set c "security" (JObj (dict_set security key v)).
Proof.
  unfold set_security. intros H. bind_inv H. injection H as <-.
  apply bind_Some in Hx0 as (sv & Hsv & Hd). destruct sv; try done.
  injection Hd as ->. eauto.
Qed.

Lemma sync_security_get merged st st' k :
  sync_security merged st = Some st' →
  k ≠ "security" →
  dict_get st'.1 k = add_security_at merged k (dict_get st.1 k).
Proof.
  unfold sync_security, add_security_at. intros H Hk. bind_inv H. rewrite Hx.
  rewrite (decide_False (P := k = "security")) by done.
  destruct x; [|injection H as <-; by case_decide].
  bind_inv H. injection H as <-. simpl.
  match goal with
  | H : audit_functions _ _ = Some _ |- _ => rewrite (audit_functions_get _ _ _ _ H)
  end.
  repeat match goal with
         | H : set_security _ _ _ _ = Some _ |- _ =>
             apply set_security_inv in H as (? & ? & ? & ? & ->)
         end.
  rewrite !dict_get_set_ne by done.
  case_bool_decide; [|rewrite dict_get_set_ne by done]; by case_decide.
Qed.

Lemma sync_security_flag merged st st' :
  sync_security merged st = Some st' →
  st'.2 = st.2 || bool_decide (py_in "auditors" merged = Some true).
Proof.
  unfold sync_security. intros H. bind_inv H. rewrite Hx.
  destruct x.
  - bind_inv H. injection H as <-. simpl. by rewrite orb_true_r.
  - injection H as <-. by rewrite orb_false_r.
Qed.



(** Rewrite the lookups in the later records of a turn into lookups in the
    record the turn started from. *)
Ltac chase_sync :=
  repeat match goal with
         | H : sync_key _ _ ?st = Some ?st' |- context [dict_get ?st'.1 ?k] =>
             rewrite (sync_key_get _ _ _ _ k H)
         | H : sync_security _ ?st = Some ?st' |- context [dict_get ?st'.1 ?k] =>
             rewrite (sync_security_get _ _ _ k H) by done
         end.

Lemma sync_steps_inv merged contract st :
  sync_steps merged contract = Some st →
  ∃ st1 st2 st3 st4 st5 st6,
    sync_key "description" merged (contract, false) = Some st1
    ∧ sync_key "website" merged st1 = Some st2
    ∧ sync_security merged st2 = Some st3
    ∧ sync_key "governance" merged st3 = Some st4
    ∧ sync_key "compliance" merged st4 = Some st5
    ∧ sync_key "performance" merged st5 = Some st6
    ∧ sync_key "interoperability" merged st6 = Some st.
Proof.
  unfold sync_steps. intros H. bind_inv H. simpl in H. bind_inv H.
  destruct (sync_key "interoperability" merged x4) eqn:Hlast; simplify_eq/=.
  eexists _, _, _, _, _, _. split_and!; done.
Qed.

Lemma sync_steps_get merged contract st k :
  sync_steps merged contract = Some st →
  k ≠ "security" →
  dict_get st.1 k =
    copy_key_at "interoperability" merged k
      (copy_key_at "performance" merged k
        (copy_key_at "compliance" merged k
          (copy_key_at "governance" merged k
            (add_security_at merged k
              (copy_key_at "website" merged k
                (copy_key_at "description" merged k (dict_get contract k))))))).
Proof.
  intros (st1 & st2 & st3 & st4 & st5 & st6 & H1 & H2 & H3 & H4 & H5 & H6 & H7)%sync_steps_inv Hk.
  chase_sync. done.
Qed.

Lemma sync_steps_flag merged contract st :
  sync_steps merged contract = Some st →
  st.2 = existsb (fun key => bool_decide (py_in key merged = Some true)) synced_keys.
Proof.
  intros (st1 & st2 & st3 & st4 & st5 & st6 & H1 & H2 & H3 & H4 & H5 & H6 & H7)%sync_steps_inv.
  rewrite (sync_key_flag _ _ _ _ H7), (sync_key_flag _ _ _ _ H6),
    (sync_key_flag _ _ _ _ H5), (sync_key_flag _ _ _ _ H4),
    (sync_security_flag _ _ _ H3), (sync_key_flag _ _ _ _ H2),
    (sync_key_flag _ _ _ _ H1).
  simpl. by rewrite orb_false_r, <- !orb_assoc.
Qed.


End sync_facts.

Section sync_agrees.
Implicit Types (metadata merged : json) (contract c e s : dict) (k key : string).


End sync_agrees.

(** C1: the equality of the claim does not hold of the code.  On the keys
    the claim lists, the record the sync path leaves differs from the record
    the generator's overlay returns (no [bridgeImplementation], a [security]
    without [vulnerabilityReports] and with a null [auditScore]). *)
Lemma sync_contract_differs_counterexample :
  ¬ (∀ now s flag e,
       sync_contract c1_metadata None (JObj c1_record) = Some (JObj s, flag) →
       enhance_contract_with_metadata c1_metadata now c1_record = Some e →
       ∀ k, k ∈ ["description"; "website"; "governance"; "compliance"; "performance";
                 "interoperability"; "bridgeImplementation"; "objectExtensions";
                 "security"] →
            dict_get s k = dict_get e k).
Proof.
  intros Hclaim.
  pose proof (Hclaim "2026-01-01T00:00:00" _ _ _ eq_refl eq_refl) as Hkeys.
  assert ("bridgeImplementation"
          ∈ ["description"; "website"; "governance"; "compliance"; "performance";
             "interoperability"; "bridgeImplementation"; "objectExtensions";
             "security"]) as Hin by (rewrite !elem_of_cons; auto 10).
  apply Hkeys in Hin. vm_compute in Hin. discriminate.
Qed.

(** C1: the sync path and the generator's overlay, on the same record and
    the same overlay entry (a description, auditors and a bridge
    implementation).  The sync writes the list with one record changed; that
    record has no [bridgeImplementation] and a [security] with a null
    [auditScore] and no [vulnerabilityReports], where the record of the
    generator has the overlay's [bridgeImplementation] and a [security] with
    [auditScore] 0 and empty [vulnerabilityReports]. *)
Theorem sync_with_metadata_diverges :
  ∃ after s e,
    sync_with_metadata c1_metadata "2026-01-01T00:00:00" c1_document None
    = Returned (Some after) 1%nat
    ∧ records after = [JObj s]
    ∧ enhance_contract_with_metadata c1_metadata "2026-01-01T00:00:00" c1_record = Some e
    ∧ dict_get s "bridgeImplementation" = None
    ∧ dict_get e "bridgeImplementation" = Some (JObj [("protocol", JStr "LayerZero")])
    ∧ dict_get s "security"
      = Some (JObj [("auditScore", JNull); ("lastAuditDate", JStr "");
                    ("securityLevel", JStr "unknown");
                    ("penetrationTested", JBool false);
                    ("formalVerification", JBool false)])
    ∧ dict_get e "security"
      = Some (JObj [("auditScore", JInt 0); ("lastAuditDate", JStr "");
                    ("vulnerabilityReports", JList []);
                    ("securityLevel", JStr "unknown");
                    ("penetrationTested", JBool false);
                    ("formalVerification", JBool false)]).
Proof. eexists _, _, _. split_and!; by vm_compute. Qed.

(** ** The list updater *)

Section updater_facts.
Implicit Types (list_data : json) (d c : dict) (rs : list json).

Lemma document_ok_inv list_data :
  document_ok list_data = true →
  ∃ d version p rs,
    list_data = JObj d
    ∧ dict_get d "version" = Some (JObj version)
    ∧ is_Some (dict_get version "major")
    ∧ is_Some (dict_get version "minor")
    ∧ dict_get version "patch" = Some (JInt p)
    ∧ dict_get d "smartContracts" = Some (JList rs)
    ∧ Forall (fun r => obj_where record_ok r = true) rs.
Proof.
  intros (d & -> & Hd)%obj_where_inv. apply andb_true_iff in Hd as [Hv Hrs].
  destruct (dict_get d "version") as [[| | | | |version]|] eqn:Hversion; try done.
  unfold version_ok in Hv. rewrite !andb_true_iff, !bool_decide_eq_true in Hv.
  destruct Hv as [[Hmajor Hminor] Hpatch].
  destruct (dict_get version "patch") as [[| |p| | |]|] eqn:Hp; try done.
  destruct (dict_get d "smartContracts") as [contracts|] eqn:Hc; [|done].
  apply list_of_inv in Hrs as (rs & -> & Hall).
  by exists d, version, p, rs.
Qed.

Lemma records_ok list_data d rs :
  list_data = JObj d → dict_get d "smartContracts" = Some (JList rs) →
  records list_data = rs ∧ load_contracts list_data = Some rs.
Proof.
  intros -> Hrs. unfold records, load_contracts. simpl. unfold dict_get_or.
  by rewrite Hrs.
Qed.

(** Saving a well-shaped document returns, and bumps it. *)
Lemma save_list_bumped now d version p rs rs' :
  dict_get d "version" = Some (JObj version) →
  is_Some (dict_get version "major") →
  is_Some (dict_get version "minor") →
  dict_get version "patch" = Some (JInt p) →
  dict_get d "smartContracts" = Some (JList rs) →
  ∃ after,
    save_list now (dict_set d "smartContracts" (JList rs')) = Returned (Some after) ()
    ∧ bumped now (JObj d) after
    ∧ records after = rs'.
Proof.
  intros Hversion [major Hmajor] [minor Hminor] Hpatch Hrs.
  unfold save_list, bump_patch. rewrite !dict_get_set_ne by done.
  rewrite Hversion. simpl. unfold dict_get_or. rewrite Hpatch. simpl.
  rewrite !dict_get_set_ne by done. rewrite Hmajor, Hminor.
  eexists. split; [done|]. split.
  - eexists d, _, version, (dict_set version "patch" (JInt (p + 1))), p.
    split_and!; try done.
    + apply dict_get_set_eq.
    + apply dict_get_set_eq.
    + intros k Hk. by rewrite dict_get_set_ne.
    + rewrite dict_get_set_ne by done. by rewrite dict_get_set_eq.
    + intros k. rewrite !not_elem_of_cons. intros (? & ? & ? & _).
      by rewrite !dict_get_set_ne.
  - unfold records. rewrite !dict_get_set_ne by done. by rewrite dict_get_set_eq.
Qed.

(** The end of a counting operation on a well-shaped document. *)
Lemma finish_spec now list_data turns :
  document_ok list_data = true →
  ∃ w,
    finish now list_data (Some turns) = Returned w (count_updated turns)
    ∧ (count_updated turns = 0%nat → w = None)
    ∧ ((0 < count_updated turns)%nat →
       ∃ after, w = Some after ∧ bumped now list_data after
                ∧ records after = turns.*1).
Proof.
  intros (d & version & p & rs & -> & Hversion & Hmajor & Hminor & Hpatch & Hrs & _)
    %document_ok_inv.
  unfold finish. destruct (0 <? count_updated turns)%nat eqn:Hcount.
  - apply Nat.ltb_lt in Hcount.
    destruct (save_list_bumped now d version p rs turns.*1
                Hversion Hmajor Hminor Hpatch Hrs) as (after & Hsave & Hbump & Hafter).
    unfold save_and_return, with_contracts. simpl. rewrite Hsave.
    eexists. split; [done|]. split; [lia|]. eauto.
  - apply Nat.ltb_ge in Hcount. eexists. split; [done|]. split; [done|lia].
Qed.

Lemma mapM_update_where key value updates rs :
  Forall (fun r => is_obj r = true) rs →
  mapM (update_where key value updates) rs
  = Some ((fun r => if record_has key value r then (updated updates r, true)
                    else (r, false)) <$> rs).
Proof.
  intros Hall. apply mapM_Some, Forall2_fmap_r, Forall_Forall2_diag.
  eapply Forall_impl; [exact Hall|]. intros r [c ->]%is_obj_inv.
  unfold update_where. simpl. by destruct (get_is c key value).
Qed.

Lemma turns_records (test : json → bool) (f : json → json) rs :
  ((fun r => if test r then (f r, true) else (r, false)) <$> rs).*1
  = (fun r => if test r then f r else r) <$> rs.
Proof.
  rewrite <- list_fmap_compose. apply list_fmap_ext. intros _ r _. simpl.
  by destruct (test r).
Qed.

Lemma turns_count (test : json → bool) (f : json → json) rs :
  count_updated ((fun r => if test r then (f r, true) else (r, false)) <$> rs)
  = matching test rs.
Proof.
  unfold count_updated, matching. induction rs as [|r rs IH]; [done|].
  rewrite fmap_cons. destruct (test r) eqn:Htest.
  - rewrite !filter_cons_True by done. simpl. by rewrite IH.
  - rewrite !filter_cons_False by (by rewrite ?Htest). done.
Qed.

Lemma records_are_objects rs :
  Forall (fun r => obj_where record_ok r = true) rs →
  Forall (fun r => is_obj r = true) rs.
Proof.
  intros Hall. eapply Forall_impl; [exact Hall|].
  by intros r (c & -> & _)%obj_where_inv.
Qed.

(** [update_contracts_by_address] and [update_contracts_by_platform]. *)
Lemma update_where_spec now list_data key value updates :
  document_ok list_data = true →
  ∃ w,
    finish now list_data
      (load_contracts list_data ≫= mapM (update_where key value updates))
    = Returned w (matching (record_has key value) (records list_data))
    ∧ (matching (record_has key value) (records list_data) = 0%nat → w = None)
    ∧ ((0 < matching (record_has key value) (records list_data))%nat →
       ∃ after,
         w = Some after ∧ bumped now list_data after
         ∧ records after
           = update_all (record_has key value) updates (records list_data)).
Proof.
  intros Hdoc. pose proof Hdoc as Hdoc'.
  apply document_ok_inv in Hdoc'
      as (d & version & p & rs & -> & Hversion & Hmajor & Hminor & Hpatch & Hrs & Hall).
  destruct (records_ok (JObj d) d rs eq_refl Hrs) as [-> ->]. simpl.
  rewrite (mapM_update_where _ _ _ _ (records_are_objects _ Hall)).
  match goal with
  | |- context [finish _ _ (Some ?t)] =>
      destruct (finish_spec now (JObj d) t Hdoc) as (w & Hfinish & Hzero & Hsome)
  end.
  rewrite turns_count, ?turns_records in *. eauto.
Qed.

(** The loop of [update_contract] changes the first record that has both
    the address and the module name. *)
Lemma update_first_spec address module_name updates rs :
  Forall (fun r => is_obj r = true) rs →
  let test r := record_has "address" address r && record_has "moduleName" module_name r in
  if existsb test rs
  then ∃ before r after,
         rs = before ++ r :: after
         ∧ Forall (fun r => test r = false) before ∧ test r = true
         ∧ update_first address module_name updates rs
           = Some (Some (before ++ updated updates r :: after))
  else update_first address module_name updates rs = Some None.
Proof.
  intros Hall test. induction Hall as [|r rs [c ->]%is_obj_inv _ IH]; [done|].
  simpl. destruct (test (JObj c)) eqn:Htest; simpl.
  - exists [], (JObj c), rs. split_and!; try done. unfold test in Htest. simpl in Htest.
    by rewrite Htest.
  - unfold test in Htest. simpl in Htest. rewrite Htest.
    destruct (existsb test rs).
    + destruct IH as (before & r & after & -> & Hbefore & Hr & ->).
      exists (JObj c :: before), r, after. split_and!; try done.
      constructor; [|done]. unfold test. done.
    + by rewrite IH.
Qed.

End updater_facts.

Section sync_total.
Implicit Types (metadata : json) (effective contract c : dict) (st : dict * bool).

Lemma sync_key_total field effective st :
  ∃ st', sync_key field (JObj effective) st = Some st'.
Proof.
  unfold sync_key. simpl. case_bool_decide as Hin; simpl; [|eauto].
  destruct Hin as [v ->]. simpl. eauto.
Qed.

Lemma set_security_total key dflt effective c security :
  dict_get c "security" = Some (JObj security) →
  set_security key dflt (JObj effective) c
  = Some (dict_set c "security"
            (JObj (dict_set security key (dict_get_or effective key dflt)))).
Proof. intros Hs. unfold set_security. simpl. by rewrite Hs. Qed.

Lemma audit_functions_total effective auditors c :
  dict_get effective "auditors" = Some auditors →
  absent_or (list_of is_obj) c "functions" = true →
  ∃ c', audit_functions (JObj effective) c = Some c'.
Proof.
  intros Ha Hf. unfold audit_functions.
  destruct (record_functions _ Hf) as [->|(funcs & -> & Hall)]; [eauto|].
  destruct (mapM_mark_audited_spec _ _ _ Ha Hall) as (funcs' & Hrun & _).
  simpl. rewrite Hrun. simpl. eauto.
Qed.

Lemma sync_security_total effective st :
  absent_or is_obj st.1 "security" = true →
  absent_or (list_of is_obj) st.1 "functions" = true →
  ∃ st', sync_security (JObj effective) st = Some st'.
Proof.
  intros Hs Hf. unfold sync_security. simpl.
  case_bool_decide as Hin; simpl; [|eauto]. destruct Hin as [auditors Ha].
  set (c0 := if bool_decide _ then _ else _).
  assert (∃ security, dict_get c0 "security" = Some (JObj security)) as [security0 H0].
  { subst c0. case_bool_decide as Hsec.
    - destruct Hsec as [v Hv]. unfold absent_or in Hs. rewrite Hv in Hs.
      apply is_obj_inv in Hs as [security ->]. eauto.
    - rewrite dict_get_set_eq. eauto. }
  assert (dict_get c0 "functions" = dict_get st.1 "functions") as Hf0.
  { subst c0. case_bool_decide; [done|]. by rewrite dict_get_set_ne. }
  erewrite set_security_total by exact H0. simpl.
  erewrite set_security_total by apply dict_get_set_eq. simpl.
  erewrite set_security_total by apply dict_get_set_eq. simpl.
  erewrite set_security_total by apply dict_get_set_eq. simpl.
  erewrite set_security_total by apply dict_get_set_eq. simpl.
  match goal with
  | |- context [audit_functions _ ?c] =>
      destruct (audit_functions_total effective auditors c Ha) as [c' ->]
  end; [|simpl; eauto].
  unfold absent_or in *. rewrite !dict_get_set_ne by done. by rewrite Hf0.
Qed.

Lemma sync_steps_total effective contract :
  record_ok contract = true →
  ∃ st, sync_steps (JObj effective) contract = Some st.
Proof.
  unfold record_ok. rewrite !andb_true_iff. intros [[[_ _] Hf] Hs].
  unfold sync_steps.
  destruct (sync_key_total "description" effective (contract, false)) as [st1 H1].
  destruct (sync_key_total "website" effective st1) as [st2 H2].
  destruct (sync_security_total effective st2) as [st3 H3].
  { unfold absent_or.
    rewrite (sync_key_get _ _ _ _ _ H2), (sync_key_get _ _ _ _ _ H1). exact Hs. }
  { unfold absent_or.
    rewrite (sync_key_get _ _ _ _ _ H2), (sync_key_get _ _ _ _ _ H1). exact Hf. }
  rewrite H1. simpl. rewrite H2. simpl. rewrite H3. simpl.
  destruct (sync_key_total "governance" effective st3) as [st4 ->]. simpl.
  destruct (sync_key_total "compliance" effective st4) as [st5 ->]. simpl.
  destruct (sync_key_total "performance" effective st5) as [st6 ->]. simpl.
  destruct (sync_key_total "interoperability" effective st6) as [st7 ->]. simpl.
  eauto.
Qed.

(** One turn of the sync on a well-shaped record: it returns, and counts the
    record exactly when the record matches. *)
Lemma sync_contract_spec metadata address contract :
  overlay_ok metadata = true →
  record_ok contract = true →
  ∃ s, sync_contract metadata address (JObj contract)
       = Some (JObj s, sync_matches metadata address (JObj contract)).
Proof.
  intros Hmeta Hrec. rewrite sync_contract_unfold. unfold sync_matches.
  destruct (record_strings _ Hrec) as (a & module_name & -> & ->).
  destruct (filtered_out address (JStr a)); [eauto|]. simpl.
  rewrite get_contract_metadata_merged.
  destruct (overlay_ok_inv _ Hmeta) as (all & -> & Hall). simpl.
  destruct (overlay_entry all a Hall) as (entry & -> & Hentry).
  destruct (merged_metadata_total entry module_name Hentry) as [effective Heff].
  destruct entry as [|kv entry]; simpl.
  - rewrite merged_metadata_no_modules by done. eauto.
  - rewrite Heff. simpl.
    destruct (sync_steps_total effective contract Hrec) as [st Hst].
    rewrite Hst. simpl. rewrite (sync_steps_flag _ _ _ Hst). eauto.
Qed.

Lemma mapM_sync_contract metadata address rs :
  overlay_ok metadata = true →
  Forall (fun r => obj_where record_ok r = true) rs →
  ∃ turns,
    mapM (sync_contract metadata address) rs = Some turns
    ∧ count_updated turns = matching (sync_matches metadata address) rs
    ∧ Forall2 (fun r t => t.2 = sync_matches metadata address r
                          ∧ sync_contract metadata address r = Some t) rs turns.
Proof.
  intros Hmeta Hall.
  induction Hall as [|r rs (c & -> & Hrec)%obj_where_inv _ (turns & Hturns & Hcount & Hrel)].
  - by exists [].
  - destruct (sync_contract_spec metadata address c Hmeta Hrec) as [s Hs].
    exists ((JObj s, sync_matches metadata address (JObj c)) :: turns). split_and!.
    + apply mapM_Some. constructor; [done|]. by apply mapM_Some.
    + unfold count_updated, matching in *.
      destruct (sync_matches metadata address (JObj c)) eqn:Hm.
      * rewrite !filter_cons_True by done. simpl. by rewrite Hcount.
      * rewrite !filter_cons_False by (by rewrite ?Hm). done.
    + by constructor.
Qed.

End sync_total.

Section persistence.

Lemma update_contract_spec now list_data address module_name updates :
  document_ok list_data = true →
  let test r := record_has "address" address r && record_has "moduleName" module_name r in
  if existsb test (records list_data)
  then ∃ after,
         update_contract now list_data address module_name updates
         = Returned (Some after) true
         ∧ bumped now list_data after
  else update_contract now list_data address module_name updates
       = Returned None false.
Proof.
  intros (d & version & p & rs & -> & Hversion & Hmajor & Hminor & Hpatch & Hrs & Hall)
    %document_ok_inv test.
  destruct (records_ok (JObj d) d rs eq_refl Hrs) as [Hrecords Hload].
  rewrite Hrecords. unfold update_contract. rewrite Hload. simpl.
  pose proof (update_first_spec address module_name updates rs
                (records_are_objects _ Hall)) as Hfirst.
  simpl in Hfirst. fold test in Hfirst.
  destruct (existsb test rs).
  - destruct Hfirst as (before & r & after & -> & _ & _ & ->).
    destruct (save_list_bumped now d version p _ (before ++ updated updates r :: after)
                Hversion Hmajor Hminor Hpatch Hrs) as (doc & Hsave & Hbump & _).
    unfold save_and_return, with_contracts. simpl. rewrite Hsave. eauto.
  - by rewrite Hfirst.
Qed.

Lemma sync_with_metadata_spec metadata now list_data address :
  document_ok list_data = true →
  overlay_ok metadata = true →
  persisted now list_data (sync_with_metadata metadata now list_data address)
    (matching (sync_matches metadata address) (records list_data)).
Proof.
  intros Hdoc Hmeta. pose proof Hdoc as Hdoc'.
  apply document_ok_inv in Hdoc'
      as (d & version & p & rs & -> & Hversion & Hmajor & Hminor & Hpatch & Hrs & Hall).
  destruct (records_ok (JObj d) d rs eq_refl Hrs) as [Hrecords Hload].
  rewrite Hrecords. unfold sync_with_metadata. rewrite Hload. simpl.
  destruct (mapM_sync_contract metadata address rs Hmeta Hall)
    as (turns & -> & <- & _).
  destruct (finish_spec now (JObj d) turns Hdoc) as (w & Hfinish & Hzero & Hsome).
  exists w. split; [done|]. split; [done|].
  intros Hpos. destruct (Hsome Hpos) as (after & -> & Hbump & _). eauto.
Qed.

Lemma update_where_persisted now list_data key value updates :
  document_ok list_data = true →
  persisted now list_data
    (finish now list_data
       (load_contracts list_data ≫= mapM (update_where key value updates)))
    (matching (record_has key value) (records list_data)).
Proof.
  intros Hdoc.
  destruct (update_where_spec now list_data key value updates Hdoc)
    as (w & Hrun & Hzero & Hsome).
  exists w. split; [done|]. split; [done|].
  intros Hpos. destruct (Hsome Hpos) as (after & -> & Hbump & _). eauto.
Qed.

End persistence.

(** C6: each of the four operations writes the document exactly when a
    record matches (for the sync: a record in the scope of the address
    filter whose effective metadata has a key the sync reads); the document
    it writes has the new time stamp and the patch one higher; with no
    matching record nothing is written, and the count (or [False]) is
    returned. *)
Theorem update_persistence (metadata : json) (now : string) (list_data : json)
    (address module_name platform : string) (scope : option string) (updates : dict) :
  document_ok list_data = true →
  overlay_ok metadata = true →
  (if existsb (fun r => record_has "address" address r
                        && record_has "moduleName" module_name r)
              (records list_data)
   then ∃ after,
          update_contract now list_data address module_name updates
          = Returned (Some after) true
          ∧ bumped now list_data after
   else update_contract now list_data address module_name updates
        = Returned None false)
  ∧ persisted now list_data
      (update_contracts_by_address now list_data address updates)
      (matching (record_has "address" address) (records list_data))
  ∧ persisted now list_data
      (update_contracts_by_platform now list_data platform updates)
      (matching (record_has "platform" platform) (records list_data))
  ∧ persisted now list_data
      (sync_with_metadata metadata now list_data scope)
      (matching (sync_matches metadata scope) (records list_data)).
Proof.
  intros Hdoc Hmeta. split_and!.
  - by apply update_contract_spec.
  - by apply update_where_persisted.
  - by apply update_where_persisted.
  - by apply sync_with_metadata_spec.
Qed.

Lemma update_persistence_witness :
  (∃ after,
     update_contract "2026-01-01T00:00:00" c6_document "0xabc" "pool"
       [("website", JStr "https://pool.example")] = Returned (Some after) true
     ∧ bumped "2026-01-01T00:00:00" c6_document after)
  ∧ persisted "2026-01-01T00:00:00" c6_document
      (update_contracts_by_address "2026-01-01T00:00:00" c6_document "0xabc"
         [("website", JStr "https://pool.example")]) 2%nat
  ∧ persisted "2026-01-01T00:00:00" c6_document
      (update_contracts_by_platform "2026-01-01T00:00:00" c6_document "Nobody"
         [("website", JStr "https://pool.example")]) 0%nat
  ∧ persisted "2026-01-01T00:00:00" c6_document
      (sync_with_metadata c6_metadata "2026-01-01T00:00:00" c6_document None) 1%nat.
Proof.
  exact (update_persistence c6_metadata "2026-01-01T00:00:00" c6_document
           "0xabc" "pool" "Nobody" None [("website", JStr "https://pool.example")]
           eq_refl eq_refl).
Defined.

(** C7: [update_contracts_by_address] with the payload
    [{"description": x}] returns the number of records at the address; each
    of them gets the description [x] and keeps its other fields, the other
    records are as they were; the document is written, bumped, exactly when
    that number is not zero. *)
Theorem update_contracts_by_address_description
    (now : string) (list_data : json) (address x : string) :
  document_ok list_data = true →
  ∃ w,
    update_contracts_by_address now list_data address [("description", JStr x)]
    = Returned w (matching (record_has "address" address) (records list_data))
    ∧ (matching (record_has "address" address) (records list_data) = 0%nat →
       w = None)
    ∧ ((0 < matching (record_has "address" address) (records list_data))%nat →
       ∃ after,
         w = Some after
         ∧ bumped now list_data after
         ∧ Forall2
             (fun r r' =>
                if record_has "address" address r
                then ∃ c c',
                       r = JObj c ∧ r' = JObj c'
                       ∧ dict_get c' "description" = Some (JStr x)
                       ∧ ∀ k, k ≠ "description" → dict_get c' k = dict_get c k
                else r' = r)
             (records list_data) (records after)).
Proof.
  intros Hdoc.
  destruct (update_where_spec now list_data "address" address
              [("description", JStr x)] Hdoc) as (w & Hrun & Hzero & Hsome).
  exists w. split; [done|]. split; [done|].
  intros Hpos. destruct (Hsome Hpos) as (after & -> & Hbump & Hafter).
  exists after. split; [done|]. split; [done|].
  rewrite Hafter. unfold update_all. apply Forall2_fmap_r, Forall_Forall2_diag, Forall_forall.
  intros r _. unfold compose. destruct (record_has "address" address r) eqn:Hr; [|done].
  destruct r as [| | | | |c]; try done.
  exists c, (dict_set c "description" (JStr x)). split_and!; try done.
  - apply dict_get_set_eq.
  - intros k Hk. by apply dict_get_set_ne.
Qed.

Lemma update_contracts_by_address_description_witness :
  ∃ after,
    update_contracts_by_address "2026-01-01T00:00:00" c6_document "0xabc"
      [("description", JStr "x")] = Returned (Some after) 2%nat
    ∧ bumped "2026-01-01T00:00:00" c6_document after
    ∧ length (records after) = 3%nat.
Proof.
  destruct (update_contracts_by_address_description
              "2026-01-01T00:00:00" c6_document "0xabc" "x" eq_refl)
    as (w & Hrun & _ & Hsome).
  destruct Hsome as (after & -> & Hbump & Hrecords); [vm_compute; lia|].
  exists after. split; [exact Hrun|]. split; [exact Hbump|].
  symmetry. apply (Forall2_length _ _ _ Hrecords).
Defined.
Local Open Scope Z_scope.

(** ** The seed loader *)

Section strip_facts.

Lemma string_app_cons c (s1 s2 : string) : String c s1 +:+ s2 = String c (s1 +:+ s2).
Proof. done. Qed.

Lemma string_app_assoc (s1 s2 s3 : string) : (s1 +:+ s2) +:+ s3 = s1 +:+ s2 +:+ s3.
Proof. induction s1 as [|c s1 IH]; [done|]. by rewrite !string_app_cons, IH. Qed.

Lemma string_app_nil_r (s : string) : s +:+ "" = s.
Proof. induction s as [|c s IH]; [done|]. by rewrite string_app_cons, IH. Qed.

Lemma string_length_app (s1 s2 : string) :
  String.length (s1 +:+ s2) = (String.length s1 + String.length s2)%nat.
Proof. induction s1 as [|c s1 IH]; [done|]. rewrite string_app_cons. simpl. by rewrite IH. Qed.

Lemma byte_is_eq n c : byte_is n c = true → c = ascii_of_nat n.
Proof.
  unfold byte_is. intros <-%Nat.eqb_eq. by rewrite ascii_nat_embedding.
Qed.

(** The three string methods, one white space character at a time. *)
Lemma lstrip_eq s :
  lstrip s = match space_head s with Some r => lstrip r | None => s end.
Proof.
  destruct s as [|c1 r1]; [done|]. simpl.
  destruct (is_space c1); [done|].
  destruct r1 as [|c2 r2]; [done|]. simpl.
  destruct (is_space2 c1 c2); [done|].
  destruct r2 as [|c3 r3]; [done|]. simpl.
  by destruct (is_space3 c1 c2 c3).
Qed.

Lemma all_space_eq s :
  all_space s = match s with
                | EmptyString => true
                | _ => match space_head s with Some r => all_space r | None => false end
                end.
Proof.
  destruct s as [|c1 r1]; [done|]. simpl.
  destruct (is_space c1); [done|].
  destruct r1 as [|c2 r2]; [done|]. simpl.
  destruct (is_space2 c1 c2); [done|].
  destruct r2 as [|c3 r3]; [done|]. simpl.
  by destruct (is_space3 c1 c2 c3).
Qed.

Lemma space_head_length s r :
  space_head s = Some r → (String.length r < String.length s)%nat.
Proof.
  destruct s as [|c1 r1]; [done|]. simpl.
  destruct (is_space c1); [intros [= <-]; lia|].
  destruct r1 as [|c2 r2]; [done|]. simpl.
  destruct (is_space2 c1 c2); [intros [= <-]; lia|].
  destruct r2 as [|c3 r3]; [done|]. simpl.
  destruct (is_space3 c1 c2 c3); [intros [= <-]; lia|done].
Qed.

Lemma is_space_whitespace c : is_space c = true → String c "" ∈ whitespace.
Proof.
  unfold is_space. intros H.
  assert (∃ n, (n = 9 ∨ n = 10 ∨ n = 11 ∨ n = 12 ∨ n = 13 ∨ n = 28 ∨ n = 29 ∨ n = 30
                ∨ n = 31 ∨ n = 32)%nat ∧ c = ascii_of_nat n) as (n & Hn & ->).
  { exists (nat_of_ascii c). rewrite ascii_nat_embedding. split; [|done].
    apply orb_true_iff in H as [H|H]; apply andb_true_iff in H as [H1 H2];
      apply Nat.leb_le in H1, H2; lia. }
  repeat (destruct Hn as [->|Hn]; [by apply (bool_decide_eq_true_1 (_ ∈ _))|]).
  subst n. by apply (bool_decide_eq_true_1 (_ ∈ _)).
Qed.

Lemma is_space2_whitespace c1 c2 :
  is_space2 c1 c2 = true → String c1 (String c2 "") ∈ whitespace.
Proof.
  unfold is_space2. rewrite andb_true_iff, orb_true_iff.
  intros [->%byte_is_eq [->%byte_is_eq | ->%byte_is_eq]];
    by apply (bool_decide_eq_true_1 (_ ∈ _)).
Qed.

Lemma is_space3_whitespace c1 c2 c3 :
  is_space3 c1 c2 c3 = true → String c1 (String c2 (String c3 "")) ∈ whitespace.
Proof.
  unfold is_space3. rewrite !orb_true_iff, !andb_true_iff, !orb_true_iff.
  intros H.
  assert (∃ n1 n2 n3,
            ((n1 = 225 ∧ n2 = 154 ∧ n3 = 128)
             ∨ (n1 = 226 ∧ n2 = 128 ∧ 128 ≤ n3 ≤ 138)
             ∨ (n1 = 226 ∧ n2 = 128 ∧ (n3 = 168 ∨ n3 = 169 ∨ n3 = 175))
             ∨ (n1 = 226 ∧ n2 = 129 ∧ n3 = 159)
             ∨ (n1 = 227 ∧ n2 = 128 ∧ n3 = 128))%nat
            ∧ c1 = ascii_of_nat n1 ∧ c2 = ascii_of_nat n2 ∧ c3 = ascii_of_nat n3)
    as (n1 & n2 & n3 & Hn & -> & -> & ->).
  { exists (nat_of_ascii c1), (nat_of_ascii c2), (nat_of_ascii c3).
    rewrite !ascii_nat_embedding. split; [|done].
    unfold byte_is in H. rewrite !andb_true_iff, !Nat.eqb_eq, !Nat.leb_le in H. lia. }
  assert ((n1 = 225 ∧ n2 = 154 ∧ n3 = 128)
          ∨ (n1 = 226 ∧ n2 = 128
             ∧ (n3 = 128 ∨ n3 = 129 ∨ n3 = 130 ∨ n3 = 131 ∨ n3 = 132 ∨ n3 = 133
                ∨ n3 = 134 ∨ n3 = 135 ∨ n3 = 136 ∨ n3 = 137 ∨ n3 = 138
                ∨ n3 = 168 ∨ n3 = 169 ∨ n3 = 175))
          ∨ (n1 = 226 ∧ n2 = 129 ∧ n3 = 159)
          ∨ (n1 = 227 ∧ n2 = 128 ∧ n3 = 128))%nat as Hcases by lia.
  clear Hn.
  destruct Hcases as [(-> & -> & ->)|[(-> & -> & Hn3)|[(-> & -> & ->)|(-> & -> & ->)]]];
    try (by apply (bool_decide_eq_true_1 (_ ∈ _))).
  repeat (destruct Hn3 as [->|Hn3]; [by apply (bool_decide_eq_true_1 (_ ∈ _))|]).
  subst n3. by apply (bool_decide_eq_true_1 (_ ∈ _)).
Qed.

Lemma space_head_whitespace s r :
  space_head s = Some r → ∃ w, w ∈ whitespace ∧ s = w +:+ r.
Proof.
  destruct s as [|c1 r1]; [done|]. simpl.
  destruct (is_space c1) eqn:H1.
  { intros [= <-]. exists (String c1 ""). split; [by apply is_space_whitespace|done]. }
  destruct r1 as [|c2 r2]; [done|].
  destruct (is_space2 c1 c2) eqn:H2.
  { intros [= <-]. exists (String c1 (String c2 "")).
    split; [by apply is_space2_whitespace|done]. }
  destruct r2 as [|c3 r3]; [done|].
  destruct (is_space3 c1 c2 c3) eqn:H3; [|done].
  intros [= <-]. exists (String c1 (String c2 (String c3 ""))).
  split; [by apply is_space3_whitespace|done].
Qed.

Lemma whitespace_space_head w s :
  w ∈ whitespace → space_head (w +:+ s) = Some s.
Proof.
  unfold whitespace. intros (bytes & -> & Hbytes)%list_elem_of_fmap.
  repeat (apply elem_of_cons in Hbytes as [->|Hbytes]; [reflexivity|]).
  by apply elem_of_nil in Hbytes.
Qed.

Lemma whitespace_not_empty w s : w ∈ whitespace → w +:+ s ≠ "".
Proof.
  intros Hw Hempty. apply (whitespace_space_head w s) in Hw. by rewrite Hempty in Hw.
Qed.

Lemma white_app ws1 ws2 : white ws1 → white ws2 → white (ws1 +:+ ws2).
Proof.
  induction 1 as [|w s Hw _ IH]; intros H2; [done|].
  rewrite string_app_assoc. constructor; auto.
Qed.

Lemma lstrip_white ws s : white ws → lstrip (ws +:+ s) = lstrip s.
Proof.
  induction 1 as [|w ws Hw _ IH]; [done|].
  by rewrite string_app_assoc, lstrip_eq, whitespace_space_head.
Qed.

Lemma all_space_white ws : white ws → all_space ws = true.
Proof.
  induction 1 as [|w ws Hw _ IH]; [done|].
  rewrite all_space_eq, whitespace_space_head by done.
  destruct (w +:+ ws) eqn:Heq; [done|]. done.
Qed.

Lemma white_all_space s : all_space s = true → white s.
Proof.
  remember (String.length s) as n eqn:Hn. revert s Hn.
  induction n as [n IH] using lt_wf_ind. intros s -> Hs.
  rewrite all_space_eq in Hs. destruct s as [|c r]; [constructor|].
  destruct (space_head (String c r)) as [rest|] eqn:Hhead; [|done].
  pose proof (space_head_length _ _ Hhead) as Hlen.
  apply space_head_whitespace in Hhead as (w & Hw & ->).
  constructor; [done|]. by eapply IH.
Qed.

(** [lstrip] takes white space off the front, and only that. *)
Lemma lstrip_decompose s : ∃ ws, white ws ∧ s = ws +:+ lstrip s.
Proof.
  remember (String.length s) as n eqn:Hn. revert s Hn.
  induction n as [n IH] using lt_wf_ind. intros s ->.
  rewrite lstrip_eq. destruct (space_head s) as [rest|] eqn:Hhead.
  - pose proof (space_head_length _ _ Hhead) as Hlen.
    apply space_head_whitespace in Hhead as (w & Hw & ->).
    destruct (IH _ Hlen rest eq_refl) as (ws & Hws & Hrest).
    exists (w +:+ ws). split; [by constructor|].
    by rewrite string_app_assoc, <- Hrest.
  - exists "". split; [constructor|done].
Qed.

(** [rstrip] takes white space off the end, and only that. *)
Lemma rstrip_decompose s : ∃ ws, white ws ∧ s = rstrip s +:+ ws.
Proof.
  induction s as [|c s (ws & Hws & IH)].
  - exists "". split; [constructor|done].
  - cbn [rstrip]. destruct (all_space (String c s)) eqn:Hall.
    + exists (String c s). split; [by apply white_all_space|done].
    + exists ws. split; [done|]. by rewrite string_app_cons, <- IH.
Qed.

Lemma rstrip_empty s : rstrip s = "" → all_space s = true.
Proof.
  destruct s as [|c s]; [done|]. cbn [rstrip].
  by destruct (all_space (String c s)).
Qed.

Lemma rstrip_ends s : ends_with_space (rstrip s) = false.
Proof.
  induction s as [|c s IH]; [done|]. cbn [rstrip].
  destruct (all_space (String c s)) eqn:Hall; [done|].
  destruct (rstrip s) as [|c' r] eqn:Hr; [|done].
  apply rstrip_empty in Hr. simpl.
  destruct (is_space c) eqn:Hc; [|done].
  simpl in Hall. by rewrite Hc, Hr in Hall.
Qed.

Lemma strip_ends s : ends_with_space (strip s) = false.
Proof. apply rstrip_ends. Qed.

(** A character below 128 that is no white space starts no white space. *)
Lemma space_head_low c r :
  is_space c = false → (nat_of_ascii c < 128)%nat → space_head (String c r) = None.
Proof.
  intros Hc Hlow. simpl. rewrite Hc.
  assert (∀ n, (128 ≤ n)%nat → byte_is n c = false) as Hbyte.
  { intros n Hn. unfold byte_is. apply Nat.eqb_neq. lia. }
  assert (∀ c2, is_space2 c c2 = false) as H2.
  { intros c2. unfold is_space2. by rewrite Hbyte by lia. }
  assert (∀ c2 c3, is_space3 c c2 c3 = false) as H3.
  { intros c2 c3. unfold is_space3. by rewrite !Hbyte by lia. }
  destruct r as [|c2 [|c3 r3]]; by rewrite ?H2, ?H3.
Qed.

End strip_facts.

Section seed_facts.

Lemma lower_char_twice c : lower_char (lower_char c) = lower_char c.
Proof. by destruct c as [[] [] [] [] [] [] [] []]. Qed.

Lemma lower_twice s : lower (lower s) = lower s.
Proof.
  unfold lower. induction s as [|c s IH]; simpl; [done|].
  by rewrite lower_char_twice, IH.
Qed.

Lemma ends_with_space_cons c s :
  s ≠ "" → ends_with_space (String c s) = ends_with_space s.
Proof. by destruct s. Qed.

(** On a string that does not end in white space, [[0-9a-fA-F]+$] asks for
    hexadecimal digits up to the end, and for one at least. *)
Lemma hex_digits_to_end_spec s :
  ends_with_space s = false →
  hex_digits_to_end s = true ↔ s ≠ "" ∧ all_hex s = true.
Proof.
  induction s as [|c s IH]; simpl; [naive_solver|].
  intros Hend. rewrite !andb_true_iff, orb_true_iff. unfold at_end.
  rewrite orb_true_iff, !bool_decide_eq_true.
  destruct s as [|c' s'].
  - simpl. naive_solver.
  - assert (String c' s' ≠ String "010" "") as Hnl.
    { intros [= -> ->]. done. }
    rewrite IH by done. naive_solver.
Qed.

Lemma ADDRESS_RE_match_spec s :
  ends_with_space s = false →
  ADDRESS_RE_match s = true ↔
  ∃ digits, s = "0x" +:+ digits ∧ digits ≠ "" ∧ all_hex digits = true.
Proof.
  intros Hend. unfold ADDRESS_RE_match. split.
  - destruct s as [|c0 s]; [done|].
    destruct (decide (c0 = "0"%char)) as [->|]; [|by destruct c0 as [[] [] [] [] [] [] [] []]].
    destruct s as [|c1 rest]; [done|].
    destruct (decide (c1 = "x"%char)) as [->|]; [|by destruct c1 as [[] [] [] [] [] [] [] []]].
    intros Hrest. exists rest. split; [done|].
    apply hex_digits_to_end_spec; [|done].
    destruct rest; [done|]. exact Hend.
  - intros (digits & -> & Hne & Hhex). simpl.
    apply hex_digits_to_end_spec; [|done].
    destruct digits; [done|]. exact Hend.
Qed.

(** One entry of a well-shaped seed file. *)
Lemma add_entry_spec addresses (entry : dict) :
  seed_entry_ok entry = true →
  add_entry addresses (JObj entry)
  = Some (match entry_raw (JObj entry) with
          | Some raw =>
              if ADDRESS_RE_match (strip raw) then {[ lower (strip raw) ]} ∪ addresses
              else addresses
          | None => addresses
          end).
Proof.
  unfold seed_entry_ok, add_entry, entry_address, entry_raw. simpl.
  unfold dict_get_or.
  destruct (dict_get entry "address") as [[| | |s| |]|]; try done.
  simpl. destruct (decide (s = "")) as [->|Hne]; simpl; [done|].
  rewrite bool_decide_eq_false_2 by done. simpl.
  by destruct (ADDRESS_RE_match (strip s)).
Qed.

Lemma for_each_add_entry addresses entries :
  Forall (fun e => obj_where seed_entry_ok e = true) entries →
  ∃ addresses',
    for_each add_entry addresses entries = Some addresses'
    ∧ ∀ x, x ∈ addresses' ↔ x ∈ addresses ∨ x ∈ omap entry_raw entries ≫= accepted.
Proof.
  intros Hall. revert addresses.
  induction Hall as [|e entries (ed & -> & Hok)%obj_where_inv _ IH]; intros addresses.
  - exists addresses. split; [done|]. simpl. set_solver.
  - cbn [for_each]. rewrite (add_entry_spec _ _ Hok). cbn [mbind option_bind].
    match goal with
    | |- context [for_each add_entry ?a entries] =>
        destruct (IH a) as (addresses' & -> & Hmem)
    end.
    exists addresses'. split; [done|]. intros x. rewrite Hmem.
    cbn [omap list_omap].
    destruct (entry_raw (JObj ed)) as [raw|]; [|done].
    rewrite bind_cons, elem_of_app. unfold accepted at 2.
    destruct (ADDRESS_RE_match (strip raw)); set_solver.
Qed.

Lemma add_protocol_spec addresses (protocol : dict) :
  seed_protocol_ok protocol = true →
  ∃ addresses',
    add_protocol addresses (JObj protocol) = Some addresses'
    ∧ ∀ x, x ∈ addresses' ↔
           x ∈ addresses ∨ x ∈ protocol_raws (JObj protocol) ≫= accepted.
Proof.
  intros Hok. unfold add_protocol, protocol_raws. simpl. unfold dict_get_or.
  apply absent_or_inv in Hok as [->|(v & -> & (entries & -> & Hall)%list_of_inv)]; simpl.
  - exists addresses. split; [done|]. set_solver.
  - by apply for_each_add_entry.
Qed.

Lemma for_each_add_protocol addresses protocols :
  Forall (fun p => obj_where seed_protocol_ok p = true) protocols →
  ∃ addresses',
    for_each add_protocol addresses protocols = Some addresses'
    ∧ ∀ x, x ∈ addresses' ↔
           x ∈ addresses ∨ x ∈ (protocols ≫= protocol_raws) ≫= accepted.
Proof.
  intros Hall. revert addresses.
  induction Hall as [|p protocols (pd & -> & Hok)%obj_where_inv _ IH]; intros addresses.
  - exists addresses. split; [done|]. simpl. set_solver.
  - cbn [for_each].
    destruct (add_protocol_spec addresses pd Hok) as (addresses1 & -> & Hmem1).
    cbn [mbind option_bind].
    destruct (IH addresses1) as (addresses' & -> & Hmem).
    exists addresses'. split; [done|]. intros x.
    rewrite Hmem, Hmem1, bind_cons, bind_app, elem_of_app. tauto.
Qed.

Lemma sorted_spec (addresses : gset string) :
  Sorted String.le (sorted addresses)
  ∧ NoDup (sorted addresses)
  ∧ ∀ x, x ∈ sorted addresses ↔ x ∈ addresses.
Proof.
  unfold sorted. split_and!.
  - apply (Sorted_merge_sort String.le).
  - rewrite merge_sort_Permutation. apply NoDup_elements.
  - intros x. by rewrite merge_sort_Permutation, elem_of_elements.
Qed.

Lemma is_hex_lower_char c : is_hex c = true → is_hex (lower_char c) = true.
Proof. by destruct c as [[] [] [] [] [] [] [] []]. Qed.

Lemma is_hex_not_space c : is_hex c = true → is_space c = false.
Proof. by destruct c as [[] [] [] [] [] [] [] []]. Qed.

Lemma is_hex_low c : is_hex c = true → (nat_of_ascii c < 128)%nat.
Proof.
  unfold is_hex. cbv zeta. rewrite !orb_true_iff, !andb_true_iff, !Nat.leb_le. lia.
Qed.

Lemma all_hex_lower s : all_hex s = true → all_hex (lower s) = true.
Proof.
  induction s as [|c s IH]; simpl; [done|].
  rewrite !andb_true_iff. intros [Hc Hs]. split; [by apply is_hex_lower_char|auto].
Qed.

Lemma all_hex_ends s : all_hex s = true → ends_with_space s = false.
Proof.
  induction s as [|c s IH]; simpl; [done|].
  rewrite andb_true_iff. intros [Hc Hs]. destruct s; [by apply is_hex_not_space|auto].
Qed.

Lemma lower_empty s : lower s = "" → s = "".
Proof. by destruct s. Qed.

Lemma rstrip_white ws : white ws → rstrip ws = "".
Proof.
  intros Hws%all_space_white. destruct ws as [|c ws]; [done|].
  cbn [rstrip]. by rewrite Hws.
Qed.

Lemma rstrip_low c s :
  is_space c = false → (nat_of_ascii c < 128)%nat →
  rstrip (String c s) = String c (rstrip s).
Proof.
  intros Hc Hlow. cbn [rstrip]. by rewrite all_space_eq, space_head_low.
Qed.

Lemma rstrip_hex digits ws :
  all_hex digits = true → white ws → rstrip (digits +:+ ws) = digits.
Proof.
  intros Hhex Hws. induction digits as [|c digits IH]; [by apply rstrip_white|].
  simpl in Hhex. apply andb_true_iff in Hhex as [Hc Hhex].
  rewrite string_app_cons, rstrip_low, IH;
    [done|done|by apply is_hex_not_space|by apply is_hex_low].
Qed.

(** [strip] on an address with white space around it. *)
Lemma strip_address before digits after :
  white before → white after → all_hex digits = true →
  strip (before +:+ "0x" +:+ digits +:+ after) = "0x" +:+ digits.
Proof.
  intros Hbefore Hafter Hhex. unfold strip. rewrite lstrip_white by done.
  change ("0x" +:+ digits +:+ after) with (String "0" (String "x" (digits +:+ after))).
  rewrite lstrip_eq, space_head_low by (done || (apply Nat.ltb_lt; reflexivity)).
  rewrite !rstrip_low by (done || (apply Nat.ltb_lt; reflexivity)).
  by rewrite rstrip_hex.
Qed.

(** The addresses a raw string adds, without the string methods. *)
Lemma accepted_normalised raw x : x ∈ accepted raw ↔ normalised raw x.
Proof.
  unfold accepted. split.
  - destruct (ADDRESS_RE_match (strip raw)) eqn:Hmatch; [|by intros ?%elem_of_nil].
    intros ->%list_elem_of_singleton.
    apply ADDRESS_RE_match_spec in Hmatch as (digits & Hstrip & Hne & Hhex);
      [|apply strip_ends].
    destruct (lstrip_decompose raw) as (before & Hbefore & Hraw).
    destruct (rstrip_decompose (lstrip raw)) as (after & Hafter & Hl).
    fold (strip raw) in Hl. rewrite Hstrip in Hl.
    exists before, digits, after. split_and!; try done.
    + by rewrite Hraw, Hl at 1; rewrite !string_app_assoc.
    + by rewrite Hstrip.
  - intros (before & digits & after & -> & Hbefore & Hafter & Hne & Hhex & ->).
    rewrite strip_address by done.
    assert (ADDRESS_RE_match ("0x" +:+ digits) = true) as ->.
    { apply ADDRESS_RE_match_spec; [|by exists digits].
      change ("0x" +:+ digits) with (String "0" (String "x" digits)).
      rewrite !ends_with_space_cons by done. by apply all_hex_ends. }
    by apply list_elem_of_singleton.
Qed.

Lemma white_one w : w ∈ whitespace → white w.
Proof. intros Hw. rewrite <- (string_app_nil_r w). constructor; [done|constructor]. Qed.

(** What [load_seed_addresses] returns on a well-shaped seed file. *)
Lemma load_seed_addresses_set data :
  seed_ok data = true →
  ∃ addresses : gset string,
    load_seed_addresses data = Some (sorted addresses)
    ∧ ∀ x, x ∈ addresses ↔ ∃ raw, raw ∈ seed_raws data ∧ normalised raw x.
Proof.
  intros (top & -> & Htop)%obj_where_inv.
  assert (∃ protocols,
            py_get (JObj top) "protocols" (JList []) ≫= py_iter = Some protocols
            ∧ seed_raws (JObj top) = protocols ≫= protocol_raws
            ∧ Forall (fun p => obj_where seed_protocol_ok p = true) protocols)
    as (protocols & Hiter & Hraws & Hall).
  { simpl. unfold dict_get_or.
    apply absent_or_inv in Htop as [->|(v & -> & (ps & -> & ?)%list_of_inv)];
      simpl; eauto. }
  destruct (for_each_add_protocol ∅ protocols Hall) as (addresses & Hrun & Hmem).
  exists addresses. split.
  - unfold load_seed_addresses. rewrite Hiter. simpl. by rewrite Hrun.
  - intros x. rewrite Hmem, Hraws, list_elem_of_bind. split.
    + intros [[]%not_elem_of_empty|(raw & Hx%accepted_normalised & Hraw)]. eauto.
    + intros (raw & Hraw & Hx%accepted_normalised). eauto.
Qed.

End seed_facts.

(** C8: on a seed file, [load_seed_addresses] returns a list that is sorted
    and free of duplicates; its members are the addresses of the file that
    are ["0x"] and one hexadecimal digit or more once the white space around
    them is taken off (the white space of Python, the characters beyond ASCII
    included), each in lower case, and nothing else; the pattern of the code
    accepts a stripped string exactly when it is of that form.  The
    specification's example gives the two addresses it names, also with
    white space around the addresses. *)
Theorem load_seed_addresses_sorted_unique :
  (∀ data,
     seed_ok data = true →
     ∃ out,
       load_seed_addresses data = Some out
       ∧ Sorted String.le out
       ∧ NoDup out
       ∧ (∀ x, x ∈ out ↔ ∃ raw, raw ∈ seed_raws data ∧ normalised raw x)
       ∧ (∀ x, x ∈ out → lower x = x)
       ∧ (∀ raw, ADDRESS_RE_match (strip raw) = true ↔ ∃ x, normalised raw x))
  ∧ load_seed_addresses c8_seed = Some ["0xabc"; "0xdef"]
  ∧ load_seed_addresses c8_seed_spaced = Some ["0xabc"; "0xdef"].
Proof.
  split; [|split; by vm_compute].
  intros data (addresses & Hrun & Hmem)%load_seed_addresses_set.
  destruct (sorted_spec addresses) as (Hsorted & Hnodup & Helem).
  exists (sorted addresses). split_and!; try done.
  - intros x. by rewrite Helem, Hmem.
  - intros x (raw & _ & before & digits & after & _ & _ & _ & _ & _ & ->)%Helem%Hmem.
    change (lower ("0x" +:+ lower digits)) with ("0x" +:+ lower (lower digits)).
    by rewrite lower_twice.
  - intros raw. split.
    + intros Hmatch. exists (lower (strip raw)). apply accepted_normalised.
      unfold accepted. rewrite Hmatch. by apply list_elem_of_singleton.
    + intros [x Hx%accepted_normalised]. unfold accepted in Hx.
      destruct (ADDRESS_RE_match (strip raw)); [done|by apply elem_of_nil in Hx].
Qed.

Lemma load_seed_addresses_sorted_unique_witness :
  ∃ out,
    load_seed_addresses c8_seed_spaced = Some out
    ∧ NoDup out
    ∧ "0xabc" ∈ out
    ∧ "not-hex" ∉ out.
Proof.
  destruct load_seed_addresses_sorted_unique as [Hspec _].
  destruct (Hspec c8_seed_spaced eq_refl) as (out & Hrun & _ & Hnodup & Hmem & _ & _).
  exists out. split; [exact Hrun|]. split; [exact Hnodup|]. split.
  - apply Hmem.
    exists (utf8 [194; 160]%nat +:+ "0xABC" +:+ utf8 [226; 128; 131]%nat).
    split; [vm_compute; apply list_elem_of_here|].
    exists (utf8 [194; 160]%nat), "ABC", (utf8 [226; 128; 131]%nat).
    split; [reflexivity|].
    split; [apply white_one, (bool_decide_eq_true_1 (_ ∈ _)); reflexivity|].
    split; [apply white_one, (bool_decide_eq_true_1 (_ ∈ _)); reflexivity|].
    split; [discriminate|]. split; reflexivity.
  - intros (raw & _ & before & digits & after & _ & _ & _ & _ & _ & Heq)%Hmem.
    discriminate.
Defined.

(** * Further properties *)

(** ** More on the classifier *)

Section classifier_extra.

Ltac all_rules := by intros [] [] [] [] [] [] [] [] [] [] []; vm_compute.

Lemma tags_from_address_tags c a l s v p b g st o n :
  bool_decide ("stablecoin" ∈ tags_from c a l s v p b g st o n) = st
  ∧ bool_decide ("bridged" ∈ tags_from c a l s v p b g st o n) = st
  ∧ bool_decide ("crossChain" ∈ tags_from c a l s v p b g st o n) = o
  ∧ bool_decide ("native" ∈ tags_from c a l s v p b g st o n) = n.
Proof. revert c a l s v p b g st o n. all_rules. Qed.

Lemma address_lists_disjoint address :
  address_in address stablecoin_addresses && address_in address native_addresses = false.
Proof.
  destruct address as [[| | |a| |]|]; try done. simpl.
  case_bool_decide as Hs; [|done]. simpl.
  unfold stablecoin_addresses in Hs. rewrite !elem_of_cons in Hs.
  destruct Hs as [->|[->|[->|[]%elem_of_nil]]]; by vm_compute.
Qed.

Lemma elem_from_bool (t : string) (tags : list string) (b : bool) :
  bool_decide (t ∈ tags) = b → t ∈ tags ↔ b = true.
Proof. intros <-. by rewrite bool_decide_eq_true. Qed.

Lemma tags_of_all_tags name address t :
  t ∈ tags_of name address → t ∈ all_tags.
Proof.
  rewrite tags_of_from. intros Hin.
  match goal with
  | H : t ∈ tags_from ?c ?a ?l ?s ?v ?p ?b ?g ?st ?o ?n |- _ =>
      pose proof (tags_from_all_tags c a l s v p b g st o n) as Hall
  end.
  rewrite forallb_forall in Hall. apply list_elem_of_In, Hall in Hin.
  by apply bool_decide_eq_true in Hin.
Qed.

End classifier_extra.

(** X1: The address rules of the classifier: [stablecoin] and [bridged] come
    together, for the three bridged-token addresses and no other; [native]
    for the four framework addresses; [crossChain] for the OFT address with
    "oft" in the lower-cased name; no module is both [native] and
    [stablecoin]; a module without an address gets none of them. *)
Theorem determine_tags_address_rules (module : dict) :
  absent_or is_str module "name" = true →
  ∃ name tags,
    dict_get_or module "name" (JStr "") = JStr name
    ∧ determine_tags module = Some tags
    ∧ ("stablecoin" ∈ tags ↔
       address_in (dict_get module "address") stablecoin_addresses = true)
    ∧ ("bridged" ∈ tags ↔ "stablecoin" ∈ tags)
    ∧ ("native" ∈ tags ↔
       address_in (dict_get module "address") native_addresses = true)
    ∧ ("crossChain" ∈ tags ↔
       dict_get module "address" = Some (JStr oft_address)
       ∧ contains "oft" (lower name) = true)
    ∧ ¬ ("native" ∈ tags ∧ "stablecoin" ∈ tags)
    ∧ (dict_get module "address" = None →
       ∀ t, t ∈ ["stablecoin"; "bridged"; "native"; "crossChain"] → t ∉ tags).
Proof.
  intros (name & Hname & Hrun)%determine_tags_name.
  exists name, (tags_of (lower name) (dict_get module "address")).
  split; [done|]. split; [done|]. rewrite tags_of_from.
  match goal with
  | |- context [tags_from ?c ?a ?l ?s ?v ?p ?b ?g ?st ?o ?n] =>
      destruct (tags_from_address_tags c a l s v p b g st o n)
        as (Hst%elem_from_bool & Hbr%elem_from_bool & Hcc%elem_from_bool
            & Hn%elem_from_bool)
  end.
  pose proof (address_lists_disjoint (dict_get module "address")) as Hdisjoint.
  split_and!.
  - done.
  - by rewrite Hbr, Hst.
  - done.
  - rewrite Hcc, andb_true_iff. unfold address_is, eq_str.
    destruct (dict_get module "address") as [[]|]; simpl;
      rewrite ?bool_decide_eq_true; naive_solver.
  - rewrite Hn, Hst. intros [Hnat Hstable]. by rewrite Hnat, Hstable in Hdisjoint.
  - intros Hno t Ht. rewrite Hno in *. rewrite !elem_of_cons in Ht.
    destruct Ht as [->|[->|[->|[->|[]%elem_of_nil]]]];
      rewrite ?Hst, ?Hbr, ?Hn, ?Hcc; done.
Qed.

Lemma determine_tags_address_rules_witness :
  ∃ tags, determine_tags usdt_module = Some tags
          ∧ "stablecoin" ∈ tags ∧ "bridged" ∈ tags ∧ "native" ∉ tags.
Proof.
  destruct (determine_tags_address_rules usdt_module)
    as (name & tags & _ & Hrun & Hst & Hbr & Hn & _); [reflexivity|].
  exists tags. split; [exact Hrun|].
  assert ("stablecoin" ∈ tags) as Hin by (apply Hst; reflexivity).
  split; [exact Hin|]. split; [apply Hbr; exact Hin|].
  intros Hnat%Hn. discriminate.
Defined.

(** X2: Every tag the classifier gives is defined in the tag dictionary of the
    generated list, but for [bridged], which the dictionary does not define
    and which every module at a bridged-token address gets. *)
Theorem determine_tags_in_list_tags (module : dict) :
  absent_or is_str module "name" = true →
  ∃ tags,
    determine_tags module = Some tags
    ∧ (∀ t, t ∈ tags → t ≠ "bridged" → is_Some (dict_get list_tags t))
    ∧ dict_get list_tags "bridged" = None
    ∧ (address_in (dict_get module "address") stablecoin_addresses = true →
       "bridged" ∈ tags).
Proof.
  intros (name & _ & Hrun)%determine_tags_name.
  eexists. split; [exact Hrun|]. split_and!.
  - intros t Ht%tags_of_all_tags Hne. unfold all_tags in Ht.
    repeat (apply elem_of_cons in Ht as [->|Ht]);
      try (by apply elem_of_nil in Ht); done || by vm_compute.
  - done.
  - intros Hst. rewrite tags_of_from.
    match goal with
    | |- context [tags_from ?c ?a ?l ?s ?v ?p ?b ?g ?st ?o ?n] =>
        destruct (tags_from_address_tags c a l s v p b g st o n)
          as (_ & Hbr%elem_from_bool & _)
    end.
    by apply Hbr.
Qed.

Lemma determine_tags_in_list_tags_witness :
  ∃ tags, determine_tags usdt_module = Some tags
          ∧ "bridged" ∈ tags
          ∧ dict_get list_tags "bridged" = None.
Proof.
  destruct (determine_tags_in_list_tags usdt_module eq_refl)
    as (tags & Hrun & _ & Hnone & Hbridged).
  exists tags. split; [exact Hrun|]. split; [apply Hbridged; reflexivity | exact Hnone].
Defined.

(** X3: Of the tags the classifier gives, the Aptos tag dictionary defines all
    but [moveCoin], [perpetuals], [governance], [bridged] and
    [crossChain]. *)
Theorem determine_tags_in_build_tags (module : dict) :
  absent_or is_str module "name" = true →
  ∃ tags,
    determine_tags module = Some tags
    ∧ ∀ t, t ∈ tags → is_Some (dict_get build_tags t) ↔ t ∉ not_in_build_tags.
Proof.
  intros (name & _ & Hrun)%determine_tags_name.
  eexists. split; [exact Hrun|].
  intros t Ht%tags_of_all_tags. unfold all_tags in Ht.
  repeat (apply elem_of_cons in Ht as [->|Ht]);
    try (by apply elem_of_nil in Ht);
    (split; [intros [v Hv]; vm_compute in Hv; try discriminate;
             unfold not_in_build_tags; rewrite !not_elem_of_cons;
             split_and!; discriminate || apply not_elem_of_nil
            |intros Hnot; try (by vm_compute; eauto);
             exfalso; apply Hnot; unfold not_in_build_tags;
             rewrite !elem_of_cons; auto 10]).
Qed.

Lemma determine_tags_in_build_tags_witness :
  ∃ tags, determine_tags usdt_module = Some tags
          ∧ is_Some (dict_get build_tags "stablecoin")
          ∧ ¬ is_Some (dict_get build_tags "moveCoin").
Proof.
  destruct (determine_tags_in_build_tags usdt_module eq_refl) as (tags & Hrun & Hdict).
  exists tags. split; [exact Hrun|].
  assert (tags = ["moveCoin"; "stablecoin"; "bridged"]) as ->.
  { vm_compute in Hrun. by injection Hrun as <-. }
  split.
  - apply (Hdict "stablecoin").
    + rewrite !elem_of_cons. auto.
    + unfold not_in_build_tags. rewrite !not_elem_of_cons.
      split_and!; discriminate || apply not_elem_of_nil.
  - intros Hin. apply (Hdict "moveCoin") in Hin.
    + apply Hin. unfold not_in_build_tags. rewrite !elem_of_cons. auto.
    + rewrite !elem_of_cons. auto.
Defined.

Section platform.

Lemma mapping_get_None mappings address :
  mapping_get mappings address = None ↔ address ∉ mappings.*1.
Proof.
  induction mappings as [|[a p] mappings IH]; simpl.
  - split; [intros _; apply not_elem_of_nil|done].
  - rewrite not_elem_of_cons. destruct (decide (a = address)); naive_solver.
Qed.

End platform.

(** X4: The platform of an address is ["Unknown"] exactly when the address is
    not one of the known addresses of the configuration; the comparison is
    by the exact string, and the module name plays no part. *)
Theorem determine_platform_unknown (address : string) (module_name : json) :
  determine_platform address module_name = "Unknown"
  ↔ address ∉ CONFIG.knownAddresses.
Proof.
  unfold determine_platform.
  change CONFIG.knownAddresses with (platform_mappings.*1).
  rewrite <- mapping_get_None. split.
  - destruct (mapping_get platform_mappings address) as [p|] eqn:Hget; [|done].
    simpl. intros ->. exfalso.
    unfold platform_mappings in Hget. simpl in Hget.
    repeat (case_decide; [by simplify_eq|]). done.
  - by intros ->.
Qed.

(** ** Fetching the modules *)

Section fetch.

Lemma add_module_spec address modules item modules' :
  add_module address modules item = Some modules' →
  modules' = modules
  ∨ ∃ abi, py_item item "abi" = Some (JObj abi)
           ∧ modules' = modules ++ [dict_set abi "address" (JStr address)].
Proof.
  unfold add_module. intros H. apply bind_Some in H as ([] & Hin & H).
  - apply bind_Some in H as (v & Hv & H). apply bind_Some in H as (abi & Habi & [= <-]).
    destruct v; try done. injection Habi as ->. eauto.
  - injection H as <-. by left.
Qed.

Lemma for_each_add_module address items modules modules' :
  for_each (add_module address) modules items = Some modules' →
  ∃ added,
    modules' = modules ++ added
    ∧ (length added ≤ length items)%nat
    ∧ Forall (fun m => ∃ item abi,
                item ∈ items ∧ py_item item "abi" = Some (JObj abi)
                ∧ m = dict_set abi "address" (JStr address)) added.
Proof.
  revert modules. induction items as [|item items IH]; intros modules; simpl.
  - intros [= <-]. exists []. by rewrite app_nil_r.
  - intros H. apply bind_Some in H as (modules1 & H1 & H).
    destruct (IH _ H) as (added & -> & Hlen & Hall).
    assert (Forall (fun m => ∃ item0 abi,
                      item0 ∈ item :: items ∧ py_item item0 "abi" = Some (JObj abi)
                      ∧ m = dict_set abi "address" (JStr address)) added) as Hall'.
    { eapply Forall_impl; [exact Hall|]. intros m (i & abi & ? & ? & ?).
      exists i, abi. split_and!; [by right|done..]. }
    apply add_module_spec in H1 as [->|(abi & Habi & ->)].
    + exists added. split_and!; [done|lia|done].
    + exists (dict_set abi "address" (JStr address) :: added).
      rewrite <- app_assoc. split_and!; [done|simpl; lia|].
      constructor; [|done]. exists item, abi. split_and!; [by left|done..].
Qed.

Lemma for_each_None {A S : Type} (body : S → A → option S) (st : S) (xs : list A) :
  Exists (fun x => ∀ st', body st' x = None) xs → for_each body st xs = None.
Proof.
  intros Hex. revert st. induction Hex as [x xs Hx|x xs _ IH]; intros st; simpl.
  - by rewrite Hx.
  - destruct (body st x); simpl; [apply IH|done].
Qed.

End fetch.

(** X5: [fetch_account_modules]: every module it returns is the [abi] of an item
    of the answer, with the address it was asked for written over whatever
    address the [abi] carried; items without [abi] are skipped; an answer that
    is not a list gives no modules; and if one item of the list raises (it is
    no dict, or its [abi] is no dict), all the modules of the address are
    lost. *)
Theorem fetch_account_modules_spec
    (make_request : string → string → json) (rpc_url address : string) :
  let response := make_request rpc_url ("/v1/accounts/" +:+ address +:+ "/modules") in
  let modules := fetch_account_modules make_request rpc_url address in
  Forall (fun m => dict_get m "address" = Some (JStr address)) modules
  ∧ (∀ items, response = JList items →
       (length modules ≤ length items)%nat
       ∧ Forall (fun m => ∃ item abi,
                   item ∈ items ∧ py_item item "abi" = Some (JObj abi)
                   ∧ m = dict_set abi "address" (JStr address)) modules)
  ∧ ((∀ items, response ≠ JList items) → modules = [])
  ∧ (∀ items, response = JList items →
       Exists (fun item => ∀ ms, add_module address ms item = None) items →
       modules = []).
Proof.
  intros response modules. subst modules. unfold fetch_account_modules.
  fold response. destruct response as [| | | |items|] eqn:Hresponse;
    try (split_and!; [by constructor|done|done|done]).
  destruct (for_each (add_module address) [] items) as [modules|] eqn:Hrun; simpl.
  - destruct (for_each_add_module _ _ _ _ Hrun) as (added & -> & Hlen & Hall).
    simpl. split_and!.
    + eapply Forall_impl; [exact Hall|]. intros m (? & ? & _ & _ & ->).
      apply dict_get_set_eq.
    + by intros ? [= <-].
    + intros Hnot. by destruct (Hnot items).
    + intros ? [= <-] Hex. by rewrite (for_each_None _ _ _ Hex) in Hrun.
  - split_and!; [by constructor| |done|done].
    intros ? [= <-]. split; [simpl; lia|by constructor].
Qed.

Lemma fetch_account_modules_spec_witness :
  length (fetch_account_modules x_rpc "https://node" "0x1") = 2%nat
  ∧ Forall (fun m => dict_get m "address" = Some (JStr "0x1"))
           (fetch_account_modules x_rpc "https://node" "0x1")
  ∧ fetch_account_modules x_rpc "https://node" "0x2" = []
  ∧ fetch_account_modules x_rpc_broken "https://node" "0x1" = [].
Proof.
  split; [reflexivity|]. split; [|split].
  - apply (fetch_account_modules_spec x_rpc "https://node" "0x1").
  - apply (fetch_account_modules_spec x_rpc "https://node" "0x2"). intros items. discriminate.
  - destruct (fetch_account_modules_spec x_rpc_broken "https://node" "0x1")
      as (_ & _ & _ & Hbroken).
    apply (Hbroken _ eq_refl). apply Exists_cons_tl, Exists_cons_hd. reflexivity.
Defined.

(** ** The record of a module *)

Section transform_facts.
Implicit Types (metadata : json) (module contract e : dict).

Lemma enhance_frame metadata now contract e k :
  enhance_contract_with_metadata metadata now contract = Some e →
  k ∉ overlay_keys → k ≠ "apiVerification" →
  dict_get e k = dict_get contract k.
Proof.
  intros (effective & address & _ & _ & Hget)%enhance_get Hk Hapi.
  rewrite Hget, decide_False by done. by apply overlay_at_other.
Qed.

Lemma module_name_inv module name_lower :
  module_name_lower module = Some name_lower →
  ∃ name, dict_get_or module "name" (JStr "") = JStr name ∧ name_lower = lower name.
Proof.
  unfold module_name_lower. destruct (dict_get_or module "name" (JStr "")); try done.
  intros [= <-]. eauto.
Qed.

(** What a run of [transform_module_to_contract] that returns has done. *)
Lemma transform_module_to_contract_inv metadata now module chain_id address r :
  transform_module_to_contract metadata now module chain_id address = Some r →
  ∃ name tags exposed functions structs0 structs,
    dict_get_or module "name" (JStr "") = JStr name
    ∧ determine_tags module = Some tags
    ∧ py_iter (dict_get_or module "exposed_functions" (JList [])) = Some exposed
    ∧ mapM transform_move_function exposed = Some functions
    ∧ py_iter (dict_get_or module "structs" (JList [])) = Some structs0
    ∧ mapM transform_move_struct structs0 = Some structs
    ∧ enhance_contract_with_metadata metadata now
        (base_record module chain_id address name tags functions structs) = Some r.
Proof.
  unfold transform_module_to_contract. intros H.
  apply bind_Some in H as (tags & Htags & H).
  apply bind_Some in H as (titled & Htitled & H).
  apply bind_Some in H as (exposed & Hexposed & H).
  apply bind_Some in H as (functions & Hfunctions & H).
  apply bind_Some in H as (structs0 & Hstructs0 & H).
  apply bind_Some in H as (structs & Hstructs & H).
  unfold module_title in Htitled.
  destruct (dict_get_or module "name" (JStr "")) as [| | |name| |] eqn:Hname; try done.
  injection Htitled as <-.
  exists name, tags, exposed, functions, structs0, structs. split_and!; done.
Qed.

Lemma transform_move_function_inv func func' :
  transform_move_function func = Some func' →
  ∃ fd,
    func = JObj fd
    ∧ func' = JObj [("name", dict_get_or fd "name" (JStr ""));
                    ("visibility", dict_get_or fd "visibility" (JStr "public"));
                    ("is_entry", dict_get_or fd "is_entry" (JBool false));
                    ("params", dict_get_or fd "params" (JList []));
                    ("return", dict_get_or fd "return" (JList []));
                    ("acquires", dict_get_or fd "acquires" (JList []));
                    ("audited", JBool false); ("verified", JBool true);
                    ("auditors", JList [])].
Proof.
  unfold transform_move_function. destruct func; try done. simpl.
  intros [= <-]. eauto.
Qed.

Lemma mapM_transform_move_function_obj exposed functions :
  mapM transform_move_function exposed = Some functions →
  forallb is_obj functions = true.
Proof.
  rewrite mapM_Some. induction 1 as [|f f' ? ? (fd & -> & ->)%transform_move_function_inv]; done.
Qed.

(** The generator returns on every well-shaped module. *)
Lemma transform_module_to_contract_total metadata now module chain_id address :
  overlay_ok metadata = true →
  module_ok module = true →
  is_Some (transform_module_to_contract metadata now module chain_id address).
Proof.
  intros Hmeta Hmod. unfold module_ok in Hmod. rewrite !andb_true_iff in Hmod.
  destruct Hmod as [[Hname Hfuncs] Hstructs].
  destruct (determine_tags_name module Hname) as (name & Hn & Htags).
  assert (∃ funcs, py_iter (dict_get_or module "exposed_functions" (JList [])) = Some funcs
                   ∧ Forall (fun f => is_obj f = true) funcs) as (funcs & Hiter & Hall).
  { unfold dict_get_or.
    apply absent_or_inv in Hfuncs as [->|(v & -> & (l & -> & ?)%list_of_inv)];
      simpl; eauto. }
  destruct (mapM_transform_move_function_total funcs Hall) as (functions & Hfs & Hobj).
  assert (∃ structs, py_iter (dict_get_or module "structs" (JList [])) = Some structs
                     ∧ Forall (fun s => obj_where struct_ok s = true) structs)
    as (structs & Hiter' & Hall').
  { unfold dict_get_or.
    apply absent_or_inv in Hstructs as [->|(v & -> & (l & -> & ?)%list_of_inv)];
      simpl; eauto. }
  destruct (mapM_transform_move_struct_total structs Hall') as (structs' & Hss).
  unfold transform_module_to_contract, module_title.
  rewrite Htags, Hn. simpl. rewrite Hiter. simpl. rewrite Hfs. simpl.
  rewrite Hiter'. simpl. rewrite Hss. simpl.
  match goal with
  | |- is_Some (enhance_contract_with_metadata _ _ ?c) =>
      destruct (enhance_total metadata now c Hmeta) as (? & ? & ? & ? & _ & _ & _ & _ & ->);
        [|done]
  end.
  unfold record_ok, absent_or. simpl. by rewrite Hobj.
Qed.

Lemma enhance_is_Some metadata now contract :
  overlay_ok metadata = true →
  record_ok contract = true →
  is_Some (enhance_contract_with_metadata metadata now contract).
Proof.
  intros Hmeta Hrec.
  destruct (enhance_total metadata now contract Hmeta Hrec)
    as (? & ? & ? & ? & _ & _ & _ & _ & ->).
  by eexists.
Qed.

End transform_facts.

(** X6: The identity of a record comes from the module and the arguments alone:
    whatever the overlay holds, under whatever key, the record has the chain
    id and the address it was asked for, the module's name, the platform of
    the address, the display name made of the platform and the title-cased
    module name, the classifier's tags, and the [extensions] block. *)
Theorem transform_module_to_contract_identity
    (metadata : json) (now : string) (module : dict) (chain_id : Z)
    (address : string) :
  (overlay_ok metadata = true → module_ok module = true →
   is_Some (transform_module_to_contract metadata now module chain_id address))
  ∧ ∀ r,
      transform_module_to_contract metadata now module chain_id address = Some r →
      ∃ name tags,
        dict_get_or module "name" (JStr "") = JStr name
        ∧ determine_tags module = Some tags
        ∧ dict_get r "chainId" = Some (JInt chain_id)
        ∧ dict_get r "address" = Some (JStr address)
        ∧ dict_get r "moduleName" = Some (JStr name)
        ∧ dict_get r "platform" = Some (JStr (determine_platform address (JStr name)))
        ∧ dict_get r "name"
          = Some (JStr (determine_platform address (JStr name) +:+ " "
                        +:+ title (replace_char "_" " " name)))
        ∧ dict_get r "tags" = Some (JList (JStr <$> tags))
        ∧ dict_get r "extensions"
          = Some (JObj [("audited", JBool false); ("verified", JBool true);
                        ("friends", dict_get_or module "friends" (JList []))]).
Proof.
  split; [by apply transform_module_to_contract_total|]. intros r.
  intros (name & tags & exposed & functions & structs0 & structs
          & Hname & Htags & _ & _ & _ & _ & Hrun)%transform_module_to_contract_inv.
  exists name, tags. split; [done|]. split; [done|].
  assert (∀ k, k ∉ overlay_keys → k ≠ "apiVerification" →
               dict_get r k
               = dict_get (base_record module chain_id address name tags functions structs) k)
    as Hframe by (intros; by eapply enhance_frame).
  assert (∀ k, bool_decide (k ∈ overlay_keys) = false → k ∉ overlay_keys) as Hout.
  { intros k. apply bool_decide_eq_false. }
  split_and!; (rewrite Hframe; [done|by apply Hout|done]).
Qed.

Lemma transform_module_to_contract_identity_witness :
  ∃ r,
    transform_module_to_contract x_metadata "2026-01-01T00:00:00" x_module 1 "0x1" = Some r
    ∧ dict_get r "chainId" = Some (JInt 1)
    ∧ dict_get r "address" = Some (JStr "0x1")
    ∧ dict_get r "name" = Some (JStr "Unknown Managed Coin")
    ∧ dict_get r "description" = Some (JStr "Coin module").
Proof.
  destruct (transform_module_to_contract_identity x_metadata "2026-01-01T00:00:00"
              x_module 1 "0x1") as [Hreturns Hfields].
  destruct Hreturns as [r Hr]; [reflexivity|reflexivity|].
  destruct (Hfields r Hr)
    as (name & tags & Hname & _ & Hchain & Haddress & _ & _ & Hdisplay & _).
  injection Hname as <-.
  exists r. split; [exact Hr|]. split; [exact Hchain|]. split; [exact Haddress|].
  split; [exact Hdisplay|]. vm_compute in Hr. injection Hr as <-. reflexivity.
Defined.

(** ** The keys of an enhanced record *)

Section keys.
Implicit Types (metadata : json) (contract c e d : dict) (k : string).

Lemma dict_get_is_Some d k : is_Some (dict_get d k) ↔ k ∈ d.*1.
Proof.
  rewrite <- not_eq_None_Some, dict_get_None. split; [|tauto].
  intros Hnn. by destruct (decide (k ∈ d.*1)).
Qed.

(** [d[k] = v] keeps the keys of [d] where they are and appends [k] if it is
    new. *)
Lemma dict_set_keys d k v :
  (dict_set d k v).*1 = if decide (k ∈ d.*1) then d.*1 else d.*1 ++ [k].
Proof.
  induction d as [|[k0 v0] d IH].
  - cbn. case_decide as Hin; [by apply elem_of_nil in Hin|done].
  - cbn [dict_set]. destruct (decide (k0 = k)) as [->|Hne].
    + rewrite !fmap_cons. cbn [fst]. rewrite decide_True; [done|by left].
    + rewrite !fmap_cons, IH. cbn [fst].
      destruct (decide (k ∈ d.*1)) as [Hin|Hnot].
      * rewrite decide_True; [done|by right].
      * rewrite decide_False; [done|]. rewrite not_elem_of_cons. naive_solver.
Qed.

Lemma dict_set_prefix d k v : d.*1 `prefix_of` (dict_set d k v).*1.
Proof.
  rewrite dict_set_keys. case_decide; [done|]. by apply prefix_app_r.
Qed.

Lemma copy_key_prefix key metadata c c' :
  copy_key key metadata c = Some c' → c.*1 `prefix_of` c'.*1.
Proof.
  unfold copy_key. intros H. apply bind_Some in H as ([] & _ & H).
  - apply bind_Some in H as (v & _ & [= <-]). apply dict_set_prefix.
  - by injection H as <-.
Qed.

Lemma add_security_prefix metadata c c' :
  add_security metadata c = Some c' → c.*1 `prefix_of` c'.*1.
Proof.
  unfold add_security. intros H. apply bind_Some in H as ([] & _ & H).
  - apply bind_Some in H as (security & _ & H). unfold audit_functions in H.
    etrans; [apply (dict_set_prefix c "security" security)|].
    destruct (dict_get _ "functions") as [functions|]; [|by injection H as <-].
    apply bind_Some in H as (functions' & _ & [= <-]). apply dict_set_prefix.
  - by injection H as <-.
Qed.

Lemma overlay_steps_prefix metadata c c' :
  overlay_steps metadata c = Some c' → c.*1 `prefix_of` c'.*1.
Proof.
  unfold overlay_steps. intros H. bind_inv H.
  repeat match goal with
         | H : copy_key _ _ _ = Some _ |- _ => apply copy_key_prefix in H
         | H : add_security _ _ = Some _ |- _ => apply add_security_prefix in H
         end.
  repeat (etrans; [eassumption|]). done.
Qed.

End keys.

Lemma enhance_prefix metadata now contract e :
  enhance_contract_with_metadata metadata now contract = Some e →
  contract.*1 `prefix_of` e.*1.
Proof.
  rewrite enhance_unfold. intros H. bind_inv H. injection H as <-.
  etrans; [by eapply overlay_steps_prefix|]. apply dict_set_prefix.
Qed.

Lemma enhance_keeps metadata now contract e k :
  enhance_contract_with_metadata metadata now contract = Some e →
  is_Some (dict_get contract k) → is_Some (dict_get e k).
Proof.
  intros [added Hprefix]%enhance_prefix. rewrite !dict_get_is_Some, Hprefix.
  rewrite elem_of_app. by left.
Qed.

(** X7: The overlay removes no field and moves none: the keys of the record it
    was given are the first keys of the record it returns, in the same order;
    what it adds comes after them. *)
Theorem enhance_keeps_keys (metadata : json) (now : string) (contract : dict) :
  (overlay_ok metadata = true → record_ok contract = true →
   is_Some (enhance_contract_with_metadata metadata now contract))
  ∧ ∀ e,
      enhance_contract_with_metadata metadata now contract = Some e →
      contract.*1 `prefix_of` e.*1
      ∧ ∀ k, is_Some (dict_get contract k) → is_Some (dict_get e k).
Proof.
  split; [by apply enhance_is_Some|]. intros e Hrun.
  split; [by eapply enhance_prefix|]. intros k. by eapply enhance_keeps.
Qed.

Lemma enhance_keeps_keys_witness :
  ∃ e,
    enhance_contract_with_metadata c4_metadata "2026-01-01T00:00:00" c4_record = Some e
    ∧ c4_record.*1 `prefix_of` e.*1.
Proof.
  destruct (enhance_keeps_keys c4_metadata "2026-01-01T00:00:00" c4_record)
    as [Hreturns Hkeys].
  destruct Hreturns as [e He]; [reflexivity|reflexivity|].
  exists e. split; [exact He|]. apply (Hkeys e He).
Defined.

(** X8: The overlay keys, one by one: each of the eight copied keys of the
    effective metadata is in the enhanced record with the metadata's value,
    and a copied key the metadata does not have is left as the record had it;
    every key of the metadata that is not among the copied keys and
    [auditors] is ignored: the record's value under such a key is untouched
    ([apiVerification] apart, which is always rewritten). *)
Theorem enhance_copies_keys (metadata : json) (now : string) (contract : dict) :
  (overlay_ok metadata = true → record_ok contract = true →
   is_Some (enhance_contract_with_metadata metadata now contract))
  ∧ ∀ e effective,
      enhance_contract_with_metadata metadata now contract = Some e →
      get_contract_metadata metadata
        (dict_get_or contract "address" (JStr ""))
        (dict_get_or contract "moduleName" (JStr "")) = Some (JObj effective) →
      (∀ k, k ∈ copied_keys →
            dict_get e k = match dict_get effective k with
                           | Some v => Some v
                           | None => dict_get contract k
                           end)
      ∧ (∀ k, k ∉ overlay_keys → k ≠ "apiVerification" →
              dict_get e k = dict_get contract k).
Proof.
  split; [by apply enhance_is_Some|]. intros e effective.
  intros Hrun Heff. split; [|intros; by eapply enhance_frame].
  apply enhance_get in Hrun as (effective' & address & Heff' & _ & Hget).
  rewrite Heff in Heff'. injection Heff' as <-.
  assert (∀ key old,
            copy_key_at key (JObj effective) key old
            = match dict_get effective key with Some v => Some v | None => old end)
    as Hcopy.
  { intros key old. unfold copy_key_at. rewrite decide_True by done. simpl.
    destruct (dict_get effective key) as [v|] eqn:Hv.
    - by rewrite bool_decide_eq_true_2.
    - rewrite bool_decide_eq_false_2; [done|]. by intros [? ?]. }
  intros k Hk. unfold copied_keys in Hk. rewrite !elem_of_cons in Hk.
  rewrite Hget. unfold overlay_at.
  destruct Hk as [->|[->|[->|[->|[->|[->|[->|[->|[]%elem_of_nil]]]]]]]];
    rewrite decide_False by done;
    rewrite ?(copy_key_at_ne "objectExtensions") by done;
    rewrite ?(copy_key_at_ne "bridgeImplementation") by done;
    rewrite ?(copy_key_at_ne "interoperability") by done;
    rewrite ?(copy_key_at_ne "performance") by done;
    rewrite ?(copy_key_at_ne "compliance") by done;
    rewrite ?(copy_key_at_ne "governance") by done;
    rewrite Hcopy;
    rewrite ?(copy_key_at_ne "governance") by done;
    rewrite ?(copy_key_at_ne "compliance") by done;
    rewrite ?(copy_key_at_ne "performance") by done;
    rewrite ?(copy_key_at_ne "interoperability") by done;
    rewrite ?(copy_key_at_ne "bridgeImplementation") by done;
    rewrite ?add_security_at_other by done;
    rewrite ?(copy_key_at_ne "website") by done;
    rewrite ?(copy_key_at_ne "description") by done;
    done.
Qed.

Lemma enhance_copies_keys_witness :
  ∃ e,
    enhance_contract_with_metadata x_metadata "2026-01-01T00:00:00"
      [("address", JStr "0x1"); ("name", JStr "Kept"); ("website", JStr "kept.example")]
    = Some e
    ∧ dict_get e "description" = Some (JStr "Coin module")
    ∧ dict_get e "website" = Some (JStr "kept.example")
    ∧ dict_get e "name" = Some (JStr "Kept").
Proof.
  destruct (enhance_copies_keys x_metadata "2026-01-01T00:00:00"
              [("address", JStr "0x1"); ("name", JStr "Kept");
               ("website", JStr "kept.example")]) as [Hreturns Hkeys].
  destruct Hreturns as [e He]; [reflexivity|reflexivity|].
  destruct (Hkeys e _ He eq_refl) as [Hcopied Hignored].
  exists e. split; [exact He|]. split; [|split].
  - apply (Hcopied "description"). unfold copied_keys. rewrite !elem_of_cons. auto.
  - apply (Hcopied "website"). unfold copied_keys. rewrite !elem_of_cons. auto.
  - apply (Hignored "name"); [|discriminate].
    unfold overlay_keys. rewrite !not_elem_of_cons.
    split_and!; discriminate || apply not_elem_of_nil.
Defined.

(** ** The functions and the structs of a record *)

Section functions_structs.
Implicit Types (metadata : json) (module contract e : dict).

Lemma mapM_transform_move_function_as exposed functions :
  mapM transform_move_function exposed = Some functions →
  Forall2 (fun f f' => function_as f f' ∧ audit_state (JBool false) (JList []) f')
          exposed functions.
Proof.
  rewrite mapM_Some. intros H. eapply Forall2_impl; [exact H|].
  intros f f' (fd & -> & ->)%transform_move_function_inv. split.
  - eexists _, _. split_and!; done.
  - eexists. split_and!; done.
Qed.

Lemma mark_audited_as metadata auditors f f0 f' :
  py_item metadata "auditors" = Some auditors →
  function_as f f0 →
  mark_audited metadata f0 = Some f' →
  function_as f f' ∧ audit_state (JBool true) auditors f'.
Proof.
  intros Ha (fd & fd0 & -> & -> & Hn & Hv & He & Hp & Hr & Hq & Hver).
  unfold mark_audited. rewrite Ha. simpl. intros [= <-]. split.
  - eexists _, _. split_and!; try done; by rewrite !dict_get_set_ne.
  - eexists. split_and!; [done|apply dict_get_set_eq|].
    rewrite dict_get_set_ne by done. apply dict_get_set_eq.
Qed.

Lemma mapM_mark_audited_as metadata auditors exposed functions0 functions :
  py_item metadata "auditors" = Some auditors →
  Forall2 (fun f f' => function_as f f' ∧ audit_state (JBool false) (JList []) f')
          exposed functions0 →
  mapM (mark_audited metadata) functions0 = Some functions →
  Forall2 (fun f f' => function_as f f' ∧ audit_state (JBool true) auditors f')
          exposed functions.
Proof.
  intros Ha Has. rewrite mapM_Some. revert functions.
  induction Has as [|f f0 exposed functions0 [Hf _] _ IH]; intros functions Hmark.
  - inversion Hmark. constructor.
  - inversion Hmark as [|? f' ? functions' Hm Hrest]; subst.
    constructor; [|by apply IH]. by eapply mark_audited_as.
Qed.

Lemma transform_move_struct_as struct struct' :
  transform_move_struct struct = Some struct' → struct_as struct struct'.
Proof.
  unfold transform_move_struct. destruct struct as [| | | | |sd]; try done. simpl.
  intros H. bind_inv H. injection H as <-.
  exists sd, [("name", dict_get_or sd "name" (JStr ""));
              ("abilities", dict_get_or sd "abilities" (JList []));
              ("fields", JList x0); ("is_resource", JBool x1)].
  split_and!; try done.
  - intros abilities Hab. rewrite Hab in Hx1. simpl in Hx1. injection Hx1 as <-.
    eexists. split; [done|]. rewrite existsb_exists. split.
    + intros (v & Hin%list_elem_of_In & Hv). destruct v; try done.
      simpl in Hv. apply bool_decide_eq_true in Hv as ->. done.
    + intros Hin. exists (JStr "key"). split; [by apply list_elem_of_In|done].
  - intros fields Hf. rewrite Hf in Hx. simpl in Hx. injection Hx as <-.
    eexists. split; [done|]. apply mapM_Some in Hx0.
    eapply Forall2_impl; [exact Hx0|]. intros f f' H.
    destruct f; try done. simpl in H. injection H as <-. eexists. done.
Qed.

(** A run of the overlay that returns has found the effective metadata
    without [auditors], or a dict with [auditors]. *)
Lemma enhance_auditors_inv metadata now contract e :
  enhance_contract_with_metadata metadata now contract = Some e →
  ∃ effective,
    get_contract_metadata metadata
      (dict_get_or contract "address" (JStr ""))
      (dict_get_or contract "moduleName" (JStr "")) = Some effective
    ∧ (py_in "auditors" effective = Some false
       ∨ py_in "auditors" effective = Some true
         ∧ ∃ eff auditors, effective = JObj eff
                           ∧ dict_get eff "auditors" = Some auditors).
Proof.
  rewrite enhance_unfold. intros H. bind_inv H. exists x. split; [done|].
  unfold overlay_steps in Hx0. bind_inv Hx0.
  unfold add_security in Hx4. apply bind_Some in Hx4 as ([] & Hin & Hsec); [|by left].
  right. split; [done|]. apply bind_Some in Hsec as (security & Hsecurity & _).
  destruct x as [| | | | |eff]; try done.
  simpl in Hin. injection Hin as Hin%bool_decide_eq_true.
  destruct Hin as [auditors Ha]. eauto.
Qed.

End functions_structs.

(** X9: The functions of a record are the exposed functions of the module, as
    many and in the same order, each with the fields of the ABI (and their
    defaults) and [verified] true.  When the effective metadata has
    [auditors], every function has that auditor list and [audited] true;
    otherwise every function has [audited] false and no auditors. *)
Theorem transform_module_to_contract_functions
    (metadata : json) (now : string) (module : dict) (chain_id : Z)
    (address : string) (exposed : list json) :
  (overlay_ok metadata = true → module_ok module = true →
   is_Some (transform_module_to_contract metadata now module chain_id address))
  ∧ ∀ r,
      transform_module_to_contract metadata now module chain_id address = Some r →
      dict_get module "exposed_functions" = Some (JList exposed) →
      ∃ effective functions,
        get_contract_metadata metadata (JStr address)
          (dict_get_or module "name" (JStr "")) = Some effective
        ∧ dict_get r "functions" = Some (JList functions)
        ∧ length functions = length exposed
        ∧ Forall2 function_as exposed functions
        ∧ (∀ auditors,
             py_item effective "auditors" = Some auditors →
             Forall (audit_state (JBool true) auditors) functions)
        ∧ (py_in "auditors" effective = Some false →
           Forall (audit_state (JBool false) (JList [])) functions).
Proof.
  split; [by apply transform_module_to_contract_total|]. intros r.
  intros (name & tags & exposed' & functions0 & structs0 & structs
          & Hname & Htags & Hexposed & Hfunctions & _ & _ & Hrun)
         %transform_module_to_contract_inv Hmodule.
  unfold dict_get_or in Hexposed. rewrite Hmodule in Hexposed. injection Hexposed as <-.
  pose proof (mapM_transform_move_function_as _ _ Hfunctions) as Has.
  destruct (enhance_keeps _ _ _ _ "functions" Hrun) as [fv Hfv]; [by eexists|].
  destruct (enhance_auditors_inv _ _ _ _ Hrun) as (effective & Heff & Hcases).
  apply enhance_get in Hrun as (effective' & a & Heff' & _ & Hget).
  rewrite Heff in Heff'. injection Heff' as <-.
  simpl in Heff. rewrite Hname. exists effective.
  rewrite Hget, decide_False, overlay_at_functions in Hfv by done. simpl in Hfv.
  rewrite Hget, decide_False, overlay_at_functions by done. simpl.
  destruct Hcases as [Hin|(Hin & eff & auditors & -> & Ha)]; rewrite Hin in *.
  - exists functions0. split; [done|]. split; [done|].
    split; [symmetry; by eapply Forall2_length|].
    split; [eapply Forall2_impl; [exact Has|]; by intros ?? [? _]|]. split.
    + intros auditors Ha. destruct effective as [| | | | |eff]; try done.
      simpl in *. injection Hin as Hin%bool_decide_eq_false.
      destruct Hin. by eexists.
    + intros _. apply (Forall2_Forall_r _ _ _ _ Has), Forall_forall. tauto.
  - apply bind_Some in Hfv as (functions & Hmark & _).
    simpl. rewrite Hmark. simpl.
    exists functions. split; [done|]. split; [done|].
    assert (Forall2 (fun f f' => function_as f f'
                                 ∧ audit_state (JBool true) auditors f')
                    exposed functions) as Hboth.
    { exact (mapM_mark_audited_as (JObj eff) auditors _ _ _ Ha Has Hmark). }
    split; [symmetry; by eapply Forall2_length|].
    split; [eapply Forall2_impl; [exact Hboth|]; by intros ?? [? _]|]. split.
    + intros auditors' Ha'. simpl in Ha'. rewrite Ha in Ha'. injection Ha' as <-.
      apply (Forall2_Forall_r _ _ _ _ Hboth), Forall_forall. tauto.
    + done.
Qed.

Lemma transform_module_to_contract_functions_witness :
  ∃ r functions,
    transform_module_to_contract x_metadata "2026-01-01T00:00:00" x_module 1 "0x1" = Some r
    ∧ dict_get r "functions" = Some (JList functions)
    ∧ length functions = 2%nat
    ∧ Forall (audit_state (JBool false) (JList [])) functions.
Proof.
  destruct (transform_module_to_contract_functions x_metadata "2026-01-01T00:00:00"
              x_module 1 "0x1"
              [JObj [("name", JStr "mint"); ("is_entry", JBool true)];
               JObj [("name", JStr "burn")]]) as [Hreturns Hfunctions].
  destruct Hreturns as [r Hr]; [reflexivity|reflexivity|].
  destruct (Hfunctions r Hr eq_refl)
    as (effective & functions & Heff & Hget & Hlen & _ & _ & Hnone).
  exists r, functions. split; [exact Hr|]. split; [exact Hget|]. split; [exact Hlen|].
  apply Hnone. vm_compute in Heff. injection Heff as <-. reflexivity.
Defined.

(** X10: The structs of a record are the structs of the module, in order: name
    and abilities as they are, the fields reduced to name and type, and
    [is_resource] true exactly when "key" is among the abilities.  The
    overlay does not touch them. *)
Theorem transform_module_to_contract_structs
    (metadata : json) (now : string) (module : dict) (chain_id : Z)
    (address : string) (structs0 : list json) :
  (overlay_ok metadata = true → module_ok module = true →
   is_Some (transform_module_to_contract metadata now module chain_id address))
  ∧ ∀ r,
      transform_module_to_contract metadata now module chain_id address = Some r →
      dict_get module "structs" = Some (JList structs0) →
      ∃ structs,
        dict_get r "structs" = Some (JList structs)
        ∧ Forall2 struct_as structs0 structs.
Proof.
  split; [by apply transform_module_to_contract_total|]. intros r.
  intros (name & tags & exposed & functions & structs0' & structs
          & _ & _ & _ & _ & Hstructs0 & Hstructs & Hrun)
         %transform_module_to_contract_inv Hmodule.
  unfold dict_get_or in Hstructs0. rewrite Hmodule in Hstructs0.
  injection Hstructs0 as <-.
  exists structs. split.
  - rewrite (enhance_frame _ _ _ _ "structs" Hrun); [done| |done].
    by apply (bool_decide_eq_false_1 (_ ∈ _)).
  - apply mapM_Some in Hstructs. eapply Forall2_impl; [exact Hstructs|].
    intros ??. apply transform_move_struct_as.
Qed.

Lemma transform_module_to_contract_structs_witness :
  ∃ r structs,
    transform_module_to_contract x_metadata "2026-01-01T00:00:00" x_module 1 "0x1" = Some r
    ∧ dict_get r "structs" = Some (JList structs)
    ∧ length structs = 2%nat.
Proof.
  destruct (transform_module_to_contract_structs x_metadata "2026-01-01T00:00:00"
              x_module 1 "0x1"
              [JObj [("name", JStr "Capabilities"); ("abilities", JList [JStr "key"]);
                     ("fields",
                       JList [JObj [("name", JStr "cap"); ("type", JStr "u64")]])];
               JObj [("name", JStr "Event");
                     ("abilities", JList [JStr "drop"; JStr "store"])]])
    as [Hreturns Hstructs].
  destruct Hreturns as [r Hr]; [reflexivity|reflexivity|].
  destruct (Hstructs r Hr eq_refl) as (structs & Hget & Has).
  exists r, structs. split; [exact Hr|]. split; [exact Hget|].
  symmetry. apply (Forall2_length _ _ _ Has).
Defined.

(** ** Records without metadata *)

(** X11: When the overlay has no entry for the address of a record, and so too
    when the metadata file is missing or cannot be read, the overlay leaves
    the record as it is and only stamps [apiVerification] on it. *)
Theorem enhance_without_entry
    (metadata : json) (now : string) (contract : dict) (address : string) :
  dict_get_or contract "address" (JStr "") = JStr address →
  (∃ file, (file = NoFile ∨ file = Unreadable)
           ∧ metadata = MovementContractFetcher.load_metadata file)
  ∨ (∃ all, py_get metadata "contractMetadata" (JObj []) = Some (JObj all)
            ∧ dict_get all address = None) →
  enhance_contract_with_metadata metadata now contract
  = Some (dict_set contract "apiVerification" (api_verification address now)).
Proof.
  intros Haddress Hno.
  assert (∃ all, py_get metadata "contractMetadata" (JObj []) = Some (JObj all)
                 ∧ dict_get all address = None) as (all & Hall & Hnone).
  { destruct Hno as [(file & [-> | ->] & ->)|?]; [by exists []..|done]. }
  rewrite enhance_unfold, get_contract_metadata_merged, Haddress, Hall. simpl.
  unfold dict_get_or at 1. rewrite Hnone. simpl.
  rewrite merged_metadata_no_modules by done. simpl.
  done.
Qed.

Lemma enhance_without_entry_witness :
  enhance_contract_with_metadata (MovementContractFetcher.load_metadata NoFile)
    "2026-01-01T00:00:00" c4_record
  = Some (dict_set c4_record "apiVerification"
            (api_verification "0xabc" "2026-01-01T00:00:00"))
  ∧ enhance_contract_with_metadata c6_metadata "2026-01-01T00:00:00" c4_record
    = Some (dict_set c4_record "apiVerification"
              (api_verification "0xabc" "2026-01-01T00:00:00")).
Proof.
  split.
  - apply enhance_without_entry; [reflexivity|]. left. exists NoFile. by split; [left|].
  - apply enhance_without_entry; [reflexivity|]. right. eexists. by split.
Defined.

Section record_shape.

Lemma mapM_mark_audited_obj metadata functions0 functions :
  mapM (mark_audited metadata) functions0 = Some functions →
  forallb is_obj functions = true.
Proof.
  rewrite mapM_Some. induction 1 as [|f f' ? ? Hmark _ IH]; [done|].
  simpl. rewrite IH, andb_true_r. unfold mark_audited in Hmark.
  bind_inv Hmark. by injection Hmark as <-.
Qed.

(** The records the generator makes are records the updater takes. *)
Lemma transform_module_to_contract_record_ok metadata now module chain_id address r :
  transform_module_to_contract metadata now module chain_id address = Some r →
  record_ok r = true.
Proof.
  intros (name & tags & exposed & functions0 & structs0 & structs
          & _ & _ & _ & Hfunctions & _ & _ & Hrun)%transform_module_to_contract_inv.
  destruct (enhance_keeps _ _ _ _ "functions" Hrun) as [fv Hfv]; [by eexists|].
  destruct (enhance_auditors_inv _ _ _ _ Hrun) as (effective & Heff & Hcases).
  pose proof (enhance_frame _ _ _ _ "address" Hrun) as Ha.
  pose proof (enhance_frame _ _ _ _ "moduleName" Hrun) as Hm.
  apply enhance_get in Hrun as (effective' & a & Heff' & _ & Hget).
  rewrite Heff in Heff'. injection Heff' as <-.
  unfold record_ok, absent_or.
  rewrite Ha, Hm; [|by apply (bool_decide_eq_false_1 (_ ∈ _))|done
                   |by apply (bool_decide_eq_false_1 (_ ∈ _))|done].
  rewrite Hget, decide_False, overlay_at_functions in Hfv by done.
  rewrite !Hget, !decide_False, overlay_at_functions, overlay_at_security by done.
  simpl in *.
  destruct Hcases as [Hin|(Hin & eff & auditors & -> & Hauditors)]; rewrite Hin in *.
  - simpl. by rewrite (mapM_transform_move_function_obj _ _ Hfunctions).
  - simpl in *. apply bind_Some in Hfv as (functions & Hmark & _). rewrite Hmark.
    simpl. by rewrite (mapM_mark_audited_obj _ _ _ Hmark).
Qed.

End record_shape.

(** ** The run of the generator *)

Section produced_facts.
Context (metadata : json) (clock : nat → string).

Lemma produced_nil start : produced metadata clock start [] [].
Proof. split; [done|]. intros i j. by rewrite lookup_nil. Qed.

Lemma produced_app start jobs1 jobs2 rs1 rs2 :
  produced metadata clock start jobs1 rs1 →
  produced metadata clock (start + length rs1) jobs2 rs2 →
  produced metadata clock start (jobs1 ++ jobs2) (rs1 ++ rs2).
Proof.
  intros [Hlen1 H1] [Hlen2 H2]. split; [rewrite !length_app; lia|].
  intros i j Hj. destruct (decide (i < length jobs1)%nat) as [Hi|Hi].
  - rewrite lookup_app_l in Hj by done. rewrite lookup_app_l by lia. by apply H1.
  - rewrite lookup_app_r in Hj by lia. rewrite lookup_app_r by lia.
    rewrite Hlen1, <- (H2 _ _ Hj).
    by replace (start + length rs1 + (i - length jobs1))%nat with (start + i)%nat by lia.
Qed.

Lemma produced_made_from start jobs rs :
  produced metadata clock start jobs rs →
  Forall (made_from metadata clock jobs) rs.
Proof.
  intros [Hlen H]. apply Forall_lookup. intros i r Hr.
  destruct (lookup_lt_is_Some_2 jobs i) as [j Hj].
  { rewrite <- Hlen. by eapply lookup_lt_Some. }
  exists j, (start + i)%nat. split; [by eapply list_elem_of_lookup_2|].
  by rewrite (H _ _ Hj).
Qed.

(** A loop that appends what each turn makes. *)
Lemma fold_left_produced {A} (step : list dict → A → list dict)
    (jobs_of : A → list job) (xs : list A) (acc : list dict) :
  (∀ acc x, x ∈ xs →
     ∃ added, step acc x = acc ++ added
              ∧ produced metadata clock (length acc) (jobs_of x) added) →
  ∃ added, fold_left step xs acc = acc ++ added
           ∧ produced metadata clock (length acc) (xs ≫= jobs_of) added.
Proof.
  revert acc. induction xs as [|x xs IH]; intros acc Hstep; simpl.
  - exists []. rewrite app_nil_r. split; [done|]. apply produced_nil.
  - destruct (Hstep acc x) as (added1 & -> & H1); [by left|].
    destruct (IH (acc ++ added1)) as (added2 & -> & H2).
    { intros ???. apply Hstep. by right. }
    exists (added1 ++ added2). rewrite app_assoc. split; [done|].
    apply produced_app; [done|]. by rewrite length_app in H2.
Qed.

Lemma fold_left_made_from {A} (step : list dict → A → list dict)
    (jobs_of : A → list job) (xs : list A) (acc : list dict) :
  (∀ acc x, x ∈ xs →
     ∃ added, step acc x = acc ++ added
              ∧ Forall (made_from metadata clock (jobs_of x)) added) →
  ∃ added, fold_left step xs acc = acc ++ added
           ∧ Forall (made_from metadata clock (xs ≫= jobs_of)) added.
Proof.
  revert acc. induction xs as [|x xs IH]; intros acc Hstep; simpl.
  - exists []. by rewrite app_nil_r.
  - destruct (Hstep acc x) as (added1 & -> & H1); [by left|].
    destruct (IH (acc ++ added1)) as (added2 & -> & H2).
    { intros ???. apply Hstep. by right. }
    exists (added1 ++ added2). rewrite app_assoc. split; [done|].
    apply Forall_app. split.
    + eapply Forall_impl; [exact H1|]. intros r (j & n & Hj & Hr).
      exists j, n. split; [|done]. apply elem_of_app. by left.
    + eapply Forall_impl; [exact H2|]. intros r (j & n & Hj & Hr).
      exists j, n. split; [|done]. apply elem_of_app. by right.
Qed.

End produced_facts.

Section run_facts.
Context (make_request : string → string → json) (metadata : json)
        (clock : nat → string).

(** The inner loop: the records it appends come from the modules, and the
    records it was given stay. *)
Lemma transform_modules_made_from net address acc modules :
  ∃ added,
    transform_modules metadata clock (CONFIG.chainId net) address acc modules
    = acc ++ added
    ∧ Forall (made_from metadata clock
                ((fun module => (net, address, module)) <$> modules)) added.
Proof.
  revert acc. induction modules as [|module modules IH]; intros acc; simpl.
  - exists []. by rewrite app_nil_r.
  - destruct (transform_module_to_contract _ _ module _ _) as [r|] eqn:Hr.
    + destruct (IH (acc ++ [r])) as (added & -> & Hall).
      exists (r :: added). rewrite <- app_assoc. split; [done|].
      constructor.
      * exists (net, address, module), (length acc). split; [by left|done].
      * eapply Forall_impl; [exact Hall|]. intros r' (j & n & Hj & Hr').
        exists j, n. split; [by right|done].
    + exists []. by rewrite app_nil_r.
Qed.

(** The inner loop when no module raises. *)
Lemma transform_modules_produced net address acc modules :
  Forall (fun module => ∀ now, is_Some (transform_job metadata now (net, address, module)))
         modules →
  ∃ added,
    transform_modules metadata clock (CONFIG.chainId net) address acc modules
    = acc ++ added
    ∧ produced metadata clock (length acc)
        ((fun module => (net, address, module)) <$> modules) added.
Proof.
  intros Hall. revert acc.
  induction Hall as [|module modules Hmodule _ IH]; intros acc; simpl.
  - exists []. rewrite app_nil_r. split; [done|]. apply produced_nil.
  - destruct (Hmodule (clock (length acc))) as [r Hr].
    unfold transform_job in Hr. simpl in Hr. rewrite Hr.
    destruct (IH (acc ++ [r])) as (added & -> & Hprod).
    exists (r :: added). rewrite <- app_assoc. split; [done|].
    apply (produced_app _ _ _ [_] _ [r]).
    + split; [done|]. intros [|i] j; [|done].
      intros [= <-]. rewrite Nat.add_0_r. exact Hr.
    + by rewrite length_app in Hprod.
Qed.

Lemma run_contracts_made_from keys :
  Forall (made_from metadata clock (keys ≫= key_jobs make_request))
         (fold_left (run_step make_request metadata clock) keys []).
Proof.
  destruct (fold_left_made_from metadata clock (run_step make_request metadata clock)
              (key_jobs make_request) keys [])
    as (added & -> & Hall); [|done].
  intros acc key _. unfold key_jobs, run_step.
  destruct (CONFIG.network_get CONFIG.networks key) as [net|].
  - apply (fold_left_made_from metadata clock
             (address_step make_request metadata clock net)
             (address_jobs make_request net)).
    intros acc' address _. apply transform_modules_made_from.
  - exists []. by rewrite app_nil_r.
Qed.

Lemma run_contracts_produced keys :
  Forall (fun j => ∀ now, is_Some (transform_job metadata now j))
         (keys ≫= key_jobs make_request) →
  produced metadata clock 0 (keys ≫= key_jobs make_request)
    (fold_left (run_step make_request metadata clock) keys []).
Proof.
  intros Hgood.
  destruct (fold_left_produced metadata clock (run_step make_request metadata clock)
              (key_jobs make_request) keys [])
    as (added & -> & Hall); [|done].
  intros acc key Hkey.
  assert (Forall (fun j => ∀ now, is_Some (transform_job metadata now j))
                 (key_jobs make_request key)) as Hgood_key.
  { apply Forall_forall. intros j Hj. rewrite Forall_forall in Hgood.
    apply Hgood. apply list_elem_of_bind. eauto. }
  unfold key_jobs, run_step in *.
  destruct (CONFIG.network_get CONFIG.networks key) as [net|].
  - apply (fold_left_produced metadata clock
             (address_step make_request metadata clock net)
             (address_jobs make_request net)).
    intros acc' address Haddress. apply transform_modules_produced.
    apply Forall_forall. intros module Hmodule. rewrite Forall_forall in Hgood_key.
    apply Hgood_key. apply list_elem_of_bind. exists address. split; [|done].
    unfold address_jobs. apply list_elem_of_fmap. eauto.
  - exists []. rewrite app_nil_r. split; [done|]. apply produced_nil.
Qed.

Lemma run_unfold networks :
  run make_request metadata clock networks
  = generate_smart_contract_list
      (clock (length (fold_left (run_step make_request metadata clock)
                        (networks_to_process networks) [])))
      (fold_left (run_step make_request metadata clock) (networks_to_process networks) []).
Proof. done. Qed.

End run_facts.

Section generated.

Lemma transform_job_fields metadata now j r :
  transform_job metadata now j = Some r →
  dict_get r "chainId" = Some (JInt (CONFIG.chainId j.1.1))
  ∧ dict_get r "address" = Some (JStr j.1.2)
  ∧ record_ok r = true.
Proof.
  unfold transform_job. intros Hrun.
  pose proof (transform_module_to_contract_record_ok _ _ _ _ _ _ Hrun) as Hok.
  apply transform_module_to_contract_inv in Hrun
      as (name & tags & exposed & functions & structs0 & structs
          & _ & _ & _ & _ & _ & _ & Hrun).
  split_and!; [| |done].
  - rewrite (enhance_frame _ _ _ _ "chainId" Hrun); [done| |done].
    by apply (bool_decide_eq_false_1 (_ ∈ _)).
  - rewrite (enhance_frame _ _ _ _ "address" Hrun); [done| |done].
    by apply (bool_decide_eq_false_1 (_ ∈ _)).
Qed.

Lemma run_jobs_inv make_request networks j :
  j ∈ run_jobs make_request networks →
  ∃ key,
    key ∈ networks_to_process networks
    ∧ CONFIG.network_get CONFIG.networks key = Some j.1.1
    ∧ j.1.2 ∈ CONFIG.knownAddresses
    ∧ j.2 ∈ fetch_account_modules make_request (CONFIG.rpcUrl j.1.1) j.1.2.
Proof.
  unfold run_jobs. intros (key & Hj & Hkey)%list_elem_of_bind.
  exists key. split; [done|]. unfold key_jobs in Hj.
  destruct (CONFIG.network_get CONFIG.networks key) as [net|]; [|by apply elem_of_nil in Hj].
  unfold network_jobs in Hj. apply list_elem_of_bind in Hj as (address & Hj & Haddress).
  unfold address_jobs in Hj. apply list_elem_of_fmap in Hj as (module & -> & Hmodule).
  done.
Qed.

Lemma generate_smart_contract_list_ok now contracts :
  Forall (fun r => record_ok r = true) contracts →
  document_ok (JObj (generate_smart_contract_list now contracts)) = true.
Proof.
  intros Hall. unfold document_ok. simpl.
  rewrite forallb_forall. intros r [rd [-> Hrd]]%list_elem_of_In%list_elem_of_fmap.
  rewrite Forall_forall in Hall. simpl. by apply Hall.
Qed.

End generated.

(** X12: Every record of the list [run] writes comes from a module that the RPC
    of a configured network returned for a known address, and carries the
    chain id of that network and that address, whatever the module or the
    overlay say; the network is one of those asked for. *)
Theorem run_records
    (make_request : string → string → json) (metadata : json)
    (clock : nat → string) (networks : option (list string)) :
  Forall
    (fun r =>
       ∃ rd key net address module n,
         r = JObj rd
         ∧ key ∈ networks_to_process networks
         ∧ CONFIG.network_get CONFIG.networks key = Some net
         ∧ address ∈ CONFIG.knownAddresses
         ∧ module ∈ fetch_account_modules make_request (CONFIG.rpcUrl net) address
         ∧ transform_module_to_contract metadata (clock n) module
             (CONFIG.chainId net) address = Some rd
         ∧ dict_get rd "chainId" = Some (JInt (CONFIG.chainId net))
         ∧ dict_get rd "address" = Some (JStr address))
    (records (JObj (run make_request metadata clock networks))).
Proof.
  rewrite run_unfold. unfold records. simpl.
  apply Forall_fmap.
  eapply Forall_impl; [apply run_contracts_made_from|].
  intros rd (j & n & Hj & Hrun). simpl.
  destruct (run_jobs_inv _ _ _ Hj) as (key & Hkey & Hnet & Haddress & Hmodule).
  destruct (transform_job_fields _ _ _ _ Hrun) as (Hc & Ha & _).
  exists rd, key, j.1.1, j.1.2, j.2, n. by split_and!.
Qed.

(** X13: What [run] writes is a list document the updater takes: a version
    1.0.0, the time stamp of the clock reading after the last record's, the
    tag dictionary, and records of the shape the updater expects. *)
Theorem run_document
    (make_request : string → string → json) (metadata : json)
    (clock : nat → string) (networks : option (list string)) :
  let list_data := JObj (run make_request metadata clock networks) in
  document_ok list_data = true
  ∧ dict_get (run make_request metadata clock networks) "version"
    = Some (JObj [("major", JInt 1); ("minor", JInt 0); ("patch", JInt 0)])
  ∧ timestamp_of list_data
    = Some (JStr (clock (length (records list_data)) +:+ "Z"))
  ∧ dict_get (run make_request metadata clock networks) "tags" = Some (JObj list_tags).
Proof.
  cbv zeta. rewrite !run_unfold. split_and!; try done.
  - apply generate_smart_contract_list_ok.
    eapply Forall_impl; [apply run_contracts_made_from|].
    intros rd (j & n & _ & Hrun). by destruct (transform_job_fields _ _ _ _ Hrun) as (_ & _ & ?).
  - unfold timestamp_of, records. simpl. by rewrite length_fmap.
Qed.

(** X14: When no module raises (the overlay and the modules the RPC returns are
    well shaped), the list has one record for each module the RPC returned,
    in the order of the loops (networks, then known addresses, then the
    modules of the answer), the record number [i] made at the clock reading
    number [i]. *)
Theorem run_complete
    (make_request : string → string → json) (metadata : json)
    (clock : nat → string) (networks : option (list string)) :
  overlay_ok metadata = true →
  Forall (fun j : job => module_ok j.2 = true) (run_jobs make_request networks) →
  ∃ contracts,
    records (JObj (run make_request metadata clock networks)) = JObj <$> contracts
    ∧ produced metadata clock 0 (run_jobs make_request networks) contracts.
Proof.
  intros Hmeta Hgood. rewrite run_unfold. unfold records. simpl.
  eexists. split; [done|]. apply run_contracts_produced.
  eapply Forall_impl; [exact Hgood|]. intros j Hj now.
  by apply transform_module_to_contract_total.
Qed.

Lemma run_complete_witness :
  ∃ contracts,
    records (JObj (run x_rpc_known c10_metadata x_clock (Some ["movement_mainnet"])))
    = JObj <$> contracts
    ∧ length contracts = 2%nat.
Proof.
  destruct (run_complete x_rpc_known c10_metadata x_clock (Some ["movement_mainnet"]))
    as (contracts & Hrecords & Hlen & _); [reflexivity|by vm_compute; repeat constructor|].
  exists contracts. split; [exact Hrecords|exact Hlen].
Defined.

Section run_edges.
Context (make_request : string → string → json) (metadata : json)
        (clock : nat → string).

Lemma fold_left_run_step_known keys acc :
  fold_left (run_step make_request metadata clock) keys acc
  = fold_left (run_step make_request metadata clock)
      (filter (fun key => is_Some (CONFIG.network_get CONFIG.networks key)) keys) acc.
Proof.
  revert acc. induction keys as [|key keys IH]; intros acc; [done|].
  destruct (CONFIG.network_get CONFIG.networks key) as [net|] eqn:Hkey.
  - rewrite filter_cons_True by (by rewrite Hkey). simpl. apply IH.
  - rewrite filter_cons_False by (rewrite Hkey; by intros [? ?]). simpl.
    unfold run_step at 2. rewrite Hkey. apply IH.
Qed.

End run_edges.

(** X15: The networks [run] is asked for: an empty list stands for all the
    configured networks; in a list that is not empty the unknown keys are
    skipped, and a list of unknown keys only gives a list document without
    records, not the default of all networks. *)
Theorem run_unknown_networks
    (make_request : string → string → json) (metadata : json)
    (clock : nat → string) (keys : list string) :
  let known := filter (fun key => is_Some (CONFIG.network_get CONFIG.networks key)) keys in
  keys ≠ [] →
  run make_request metadata clock (Some []) = run make_request metadata clock None
  ∧ (known ≠ [] →
     run make_request metadata clock (Some keys)
     = run make_request metadata clock (Some known))
  ∧ (known = [] →
     run make_request metadata clock (Some keys)
     = generate_smart_contract_list (clock 0%nat) []).
Proof.
  intros known Hkeys. split; [done|].
  assert (networks_to_process (Some keys) = keys) as Hto by by destruct keys.
  split.
  - intros Hknown.
    assert (networks_to_process (Some known) = known) as Hto' by by destruct known.
    rewrite !run_unfold, Hto, Hto'. rewrite (fold_left_run_step_known _ _ _ keys).
    by fold known.
  - intros Hknown. rewrite run_unfold, Hto, (fold_left_run_step_known _ _ _ keys).
    fold known. by rewrite Hknown.
Qed.

Lemma run_unknown_networks_witness :
  run x_rpc_known c10_metadata x_clock (Some ["ethereum"; "movement_mainnet"])
  = run x_rpc_known c10_metadata x_clock (Some ["movement_mainnet"])
  ∧ run x_rpc_known c10_metadata x_clock (Some ["ethereum"])
    = generate_smart_contract_list (x_clock 0%nat) [].
Proof.
  split.
  - apply (run_unknown_networks x_rpc_known c10_metadata x_clock
             ["ethereum"; "movement_mainnet"]); discriminate.
  - apply (run_unknown_networks x_rpc_known c10_metadata x_clock ["ethereum"]);
      [discriminate|reflexivity].
Defined.

(** X16: A module that raises in the transformation ends the loop over the
    modules of its address: the records of the modules before it stay in the
    list, the modules after it are never looked at. *)
Theorem transform_modules_stops
    (metadata : json) (clock : nat → string) (chain_id : Z) (address : string)
    (all_contracts : list dict) (before after : list dict) (module : dict) :
  (∀ now, transform_module_to_contract metadata now module chain_id address = None) →
  transform_modules metadata clock chain_id address all_contracts
    (before ++ module :: after)
  = transform_modules metadata clock chain_id address all_contracts before
  ∧ all_contracts `prefix_of`
      transform_modules metadata clock chain_id address all_contracts before.
Proof.
  intros Hraises. split.
  - revert all_contracts. induction before as [|m before IH]; intros acc; simpl.
    + by rewrite Hraises.
    + destruct (transform_module_to_contract _ _ m _ _); [apply IH|done].
  - destruct (transform_modules_made_from metadata clock
                {| CONFIG.chainId := chain_id; CONFIG.rpcUrl := ""; CONFIG.name := "" |}
                address all_contracts before) as (added & Hrun & _).
    simpl in Hrun. rewrite Hrun. by exists added.
Qed.

Lemma transform_modules_stops_witness :
  transform_modules c10_metadata x_clock 1 x_address []
    ([[("name", JStr "coin"); ("address", JStr x_address)]]
     ++ [("name", JInt 7)] :: [[("name", JStr "staking_pool")]])
  = transform_modules c10_metadata x_clock 1 x_address []
      [[("name", JStr "coin"); ("address", JStr x_address)]]
  ∧ length (records (JObj (run x_rpc_bad_module c10_metadata x_clock
                             (Some ["movement_mainnet"])))) = 1%nat.
Proof.
  split; [|by vm_compute].
  apply (transform_modules_stops c10_metadata x_clock 1 x_address []
           [[("name", JStr "coin"); ("address", JStr x_address)]]
           [[("name", JStr "staking_pool")]] [("name", JInt 7)]).
  intros now. reflexivity.
Defined.

Section first_update.

Lemma bumped_patch now before after p :
  patch_of before = Some (JInt p) →
  bumped now before after →
  patch_of after = Some (JInt (p + 1)) ∧ timestamp_of after = Some (JStr (now +:+ "Z")).
Proof.
  intros Hp (d & d' & version & version' & q & -> & -> & Hv & Hv' & Hq & Hq' & _ & Ht & _).
  unfold patch_of, timestamp_of in *. rewrite Hv in Hp. simpl in Hp.
  rewrite Hq in Hp. injection Hp as ->. rewrite Hv'. simpl. by rewrite Hq'.
Qed.

Lemma persisted_written now list_data o n after :
  persisted now list_data o n → written o = Some after → bumped now list_data after.
Proof.
  intros (w & -> & Hzero & Hpos) Hw. simpl in Hw. subst w.
  destruct n as [|n]; [by specialize (Hzero eq_refl)|].
  destruct Hpos as (after' & [= <-] & Hbump); [lia|done].
Qed.

End first_update.

(** X17: From the generator to the updater: whichever of the four operations is
    the first to write the list [run] made, the list it writes is version
    1.0.1 and has the time stamp of the operation. *)
Theorem run_then_update
    (make_request : string → string → json) (metadata overlay : json)
    (clock : nat → string) (networks : option (list string))
    (now address module_name platform : string) (scope : option string)
    (updates : dict) (after : json) :
  let list_data := JObj (run make_request metadata clock networks) in
  overlay_ok overlay = true →
  written (update_contract now list_data address module_name updates) = Some after
  ∨ written (update_contracts_by_address now list_data address updates) = Some after
  ∨ written (update_contracts_by_platform now list_data platform updates) = Some after
  ∨ written (sync_with_metadata overlay now list_data scope) = Some after →
  patch_of after = Some (JInt 1) ∧ timestamp_of after = Some (JStr (now +:+ "Z")).
Proof.
  intros list_data Hoverlay Hwritten.
  assert (document_ok list_data = true) as Hdoc.
  { subst list_data. rewrite run_unfold. apply generate_smart_contract_list_ok.
    eapply Forall_impl; [apply run_contracts_made_from|].
    intros rd (j & n & _ & Hrun).
    by destruct (transform_job_fields _ _ _ _ Hrun) as (_ & _ & ?). }
  assert (patch_of list_data = Some (JInt 0)) as Hpatch by done.
  apply (bumped_patch now list_data after 0 Hpatch).
  destruct Hwritten as [Hw|[Hw|[Hw|Hw]]].
  - pose proof (update_contract_spec now list_data address module_name updates Hdoc) as Hspec.
    simpl in Hspec. destruct (existsb _ _).
    + destruct Hspec as (after' & Hrun & Hbump). rewrite Hrun in Hw. by injection Hw as <-.
    + by rewrite Hspec in Hw.
  - eapply persisted_written; [|exact Hw]. by apply update_where_persisted.
  - eapply persisted_written; [|exact Hw]. by apply update_where_persisted.
  - eapply persisted_written; [|exact Hw]. by apply sync_with_metadata_spec.
Qed.

Lemma run_then_update_witness :
  ∃ after,
    written (update_contracts_by_platform "2026-02-02T00:00:00"
               (JObj (run x_rpc_known c10_metadata x_clock (Some ["movement_mainnet"])))
               "Movement" [("website", JStr "https://movementlabs.xyz")])
    = Some after
    ∧ patch_of after = Some (JInt 1)
    ∧ timestamp_of after = Some (JStr "2026-02-02T00:00:00Z").
Proof.
  assert (∃ after,
            written (update_contracts_by_platform "2026-02-02T00:00:00"
                       (JObj (run x_rpc_known c10_metadata x_clock
                                (Some ["movement_mainnet"])))
                       "Movement" [("website", JStr "https://movementlabs.xyz")])
            = Some after) as [after Hafter] by (vm_compute; eauto).
  exists after. split; [exact Hafter|].
  apply (run_then_update x_rpc_known c10_metadata c10_metadata x_clock
           (Some ["movement_mainnet"]) "2026-02-02T00:00:00" "" "" "Movement"
           None [("website", JStr "https://movementlabs.xyz")]); [reflexivity|].
  right. right. left. exact Hafter.
Defined.

(** ** The Aptos generator *)

Section main_facts.
Context (make_request : string → string → json) (metadata : json)
        (clock : nat → string).

Lemma for_each_produced {A} (step : list dict → A → option (list dict))
    (jobs_of : A → list job) (xs : list A) (acc res : list dict) :
  (∀ acc x res, x ∈ xs → step acc x = Some res →
     ∃ added, res = acc ++ added
              ∧ produced metadata clock (length acc) (jobs_of x) added) →
  for_each step acc xs = Some res →
  ∃ added, res = acc ++ added
           ∧ produced metadata clock (length acc) (xs ≫= jobs_of) added.
Proof.
  revert acc. induction xs as [|x xs IH]; intros acc Hstep; simpl.
  - intros [= <-]. exists []. rewrite app_nil_r. split; [done|]. apply produced_nil.
  - intros Hrun. apply bind_Some in Hrun as (acc1 & H1 & Hrun).
    destruct (Hstep acc x acc1) as (added1 & -> & Hp1); [by left|done|].
    destruct (IH (acc ++ added1)) as (added2 & -> & Hp2); [|done|].
    { intros ????. apply Hstep. by right. }
    exists (added1 ++ added2). rewrite app_assoc. split; [done|].
    apply produced_app; [done|]. by rewrite length_app in Hp2.
Qed.

Lemma for_each_is_Some {A S} (step : S → A → option S) (xs : list A) (st : S) :
  (∀ st x, x ∈ xs → is_Some (step st x)) → is_Some (for_each step st xs).
Proof.
  revert st. induction xs as [|x xs IH]; intros st Hstep; simpl; [by eexists|].
  destruct (Hstep st x) as [st' ->]; [by left|]. simpl.
  apply IH. intros ???. apply Hstep. by right.
Qed.

Lemma transform_all_produced net address acc modules res :
  transform_all metadata clock (CONFIG.chainId net) address acc modules = Some res →
  ∃ added, res = acc ++ added
           ∧ produced metadata clock (length acc)
               ((fun module => (net, address, module)) <$> modules) added.
Proof.
  unfold transform_all. intros Hrun.
  destruct (for_each_produced
              (fun contracts module =>
                 contract ← transform_module_to_contract metadata
                              (clock (length contracts)) module (CONFIG.chainId net) address;
                 Some (contracts ++ [contract]))
              (fun module => [(net, address, module)]) modules acc res)
    as (added & -> & Hp); [|done|].
  - intros acc' module res' _ Hstep.
    apply bind_Some in Hstep as (r & Hr & [= <-]).
    exists [r]. split; [done|]. split; [done|].
    intros [|i] j; [|done]. intros [= <-]. by rewrite Nat.add_0_r.
  - exists added. split; [done|].
    replace ((fun module => (net, address, module)) <$> modules)
      with (modules ≫= fun module => [(net, address, module)]); [done|].
    clear. induction modules as [|m modules IH]; [done|]. simpl. by f_equal.
Qed.

Lemma main_step_produced net addresses acc res :
  for_each (main_step make_request metadata clock net) acc addresses = Some res →
  ∃ added, res = acc ++ added
           ∧ produced metadata clock (length acc)
               (network_jobs make_request addresses net) added.
Proof.
  apply for_each_produced. intros acc' address res' _. apply transform_all_produced.
Qed.

Lemma main_step_is_Some net addresses acc :
  Forall (fun j => ∀ now, is_Some (transform_job metadata now j))
         (network_jobs make_request addresses net) →
  is_Some (for_each (main_step make_request metadata clock net) acc addresses).
Proof.
  intros Hgood. apply for_each_is_Some. intros acc' address Haddress.
  unfold main_step, transform_all. apply for_each_is_Some.
  intros acc'' module Hmodule. rewrite Forall_forall in Hgood.
  destruct (Hgood (net, address, module)) with (now := clock (length acc'')) as [r Hr].
  { apply list_elem_of_bind. exists address. split; [|done].
    apply list_elem_of_fmap. eauto. }
  unfold transform_job in Hr. simpl in Hr. rewrite Hr. by eexists.
Qed.

Lemma main_step_None net addresses acc :
  Exists (fun j => ∀ now, transform_job metadata now j = None)
         (network_jobs make_request addresses net) →
  for_each (main_step make_request metadata clock net) acc addresses = None.
Proof.
  intros (j & Hj & Hbad)%Exists_exists.
  apply list_elem_of_bind in Hj as (address & Hj & Haddress).
  apply list_elem_of_fmap in Hj as (module & -> & Hmodule).
  apply for_each_None. apply Exists_exists. exists address. split; [done|].
  intros acc'. unfold main_step, transform_all. apply for_each_None.
  apply Exists_exists. exists module. split; [done|]. intros acc''.
  specialize (Hbad (clock (length acc''))). unfold transform_job in Hbad. simpl in Hbad.
  by rewrite Hbad.
Qed.

End main_facts.

Section main_unfold.

Lemma main_unfold make_request clock network seed metadata :
  main make_request clock network seed metadata
  = if negb (bool_decide (network ∈ network_choices)) then None else
    net ← CONFIG.network_get CONFIG.networks network;
    addresses ← load_seed_addresses seed;
    if bool_decide (addresses = []) then None else
    contracts ← for_each (main_step make_request (MovementContractFetcher.load_metadata metadata)
                            clock net) [] addresses;
    Some (dict_set
            (dict_set
               (dict_set
                  (dict_set
                     (generate_smart_contract_list (clock (length contracts)) contracts)
                     "name" (JStr "FiHub Aptos Smart Contract List"))
                  "keywords"
                  (JList [JStr "aptos"; JStr "move"; JStr "defi"; JStr "stablecoin";
                          JStr "nft"]))
               "timestamp" (JStr (clock (S (length contracts)) +:+ "Z")))
            "tags" (JObj build_tags)).
Proof. done. Qed.

End main_unfold.

(** X18: [main] takes the two Aptos networks only: on any other value of
    [--network], a configured Movement network included, it ends before
    anything is written.  On an Aptos network, a seed file with a valid
    address, and an overlay and modules of the expected shapes, it returns;
    the list it writes has one record for each module the RPC returned for
    the seed addresses, in the sorted order of the addresses, each with the
    chain id of the network; it is a version 1.0.0 list document that the
    updater takes, with the Aptos name, keywords and tag dictionary in the
    places of Movement's, the Movement logo, and the time stamp of the clock
    reading after the one [generate_smart_contract_list] made. *)
Theorem main_document
    (make_request : string → string → json) (clock : nat → string)
    (network : string) (seed : json) (metadata : metadata_file)
    (net : CONFIG.network) (addresses : list string) :
  (network ∉ network_choices →
   main make_request clock network seed metadata = None)
  ∧ (network ∈ network_choices →
     CONFIG.network_get CONFIG.networks network = Some net →
     load_seed_addresses seed = Some addresses →
     addresses ≠ [] →
     overlay_ok (MovementContractFetcher.load_metadata metadata) = true →
     Forall (fun j : job => module_ok j.2 = true)
            (network_jobs make_request addresses net) →
     ∃ out contracts,
       main make_request clock network seed metadata = Some out
       ∧ records (JObj out) = JObj <$> contracts
       ∧ produced (MovementContractFetcher.load_metadata metadata) clock 0
           (network_jobs make_request addresses net) contracts
       ∧ Forall (fun r => dict_get r "chainId" = Some (JInt (CONFIG.chainId net))
                          ∧ ∃ address, address ∈ addresses
                                       ∧ dict_get r "address" = Some (JStr address))
                contracts
       ∧ document_ok (JObj out) = true
       ∧ out.*1 = ["name"; "logoURI"; "keywords"; "tags"; "timestamp"; "version";
                   "smartContracts"]
       ∧ dict_get out "name" = Some (JStr "FiHub Aptos Smart Contract List")
       ∧ dict_get out "logoURI"
         = Some (JStr "ipfs://QmXfzKRvjZz3u5JRgC4v5mGVbm9ahrUiB4DgzHBsnWbTMM")
       ∧ dict_get out "keywords"
         = Some (JList [JStr "aptos"; JStr "move"; JStr "defi"; JStr "stablecoin";
                        JStr "nft"])
       ∧ dict_get out "tags" = Some (JObj build_tags)
       ∧ dict_get out "timestamp" = Some (JStr (clock (S (length contracts)) +:+ "Z"))
       ∧ dict_get out "version"
         = Some (JObj [("major", JInt 1); ("minor", JInt 0); ("patch", JInt 0)])).
Proof.
  split.
  { intros Hno. rewrite main_unfold. by rewrite bool_decide_eq_false_2. }
  intros Hchoice Hnet Hseed Hne Hmeta Hgood.
  assert (Forall (fun j => ∀ now, is_Some (transform_job
                                             (MovementContractFetcher.load_metadata metadata)
                                             now j))
                 (network_jobs make_request addresses net)) as Hsome.
  { eapply Forall_impl; [exact Hgood|]. intros j Hj now.
    by apply transform_module_to_contract_total. }
  destruct (main_step_is_Some make_request _ clock net addresses [] Hsome)
    as [contracts Hrun].
  destruct (main_step_produced _ _ _ _ _ _ _ Hrun) as (added & -> & Hprod).
  rewrite app_nil_l in Hrun. simpl in Hprod.
  eexists _, added. rewrite main_unfold, bool_decide_eq_true_2 by done.
  cbn [negb]. rewrite Hnet. simpl. rewrite Hseed. simpl.
  rewrite bool_decide_eq_false_2 by done. rewrite Hrun. simpl.
  split_and!; try done.
  - eapply Forall_impl; [exact (produced_made_from _ _ _ _ _ Hprod)|].
    intros r (j & n & Hj & Hr).
    destruct (transform_job_fields _ _ _ _ Hr) as (Hc & Ha & _).
    apply list_elem_of_bind in Hj as (address & Hj & Haddress).
    apply list_elem_of_fmap in Hj as (module & -> & Hmodule). simpl in *.
    split; [done|]. by exists address.
  - unfold document_ok. simpl.
    rewrite forallb_forall. intros r [rd [-> Hrd]]%list_elem_of_In%list_elem_of_fmap.
    simpl. pose proof (produced_made_from _ _ _ _ _ Hprod) as Hall.
    rewrite Forall_forall in Hall. destruct (Hall rd Hrd) as (j & n & _ & Hr).
    by destruct (transform_job_fields _ _ _ _ Hr) as (_ & _ & ?).
Qed.

Lemma main_document_witness :
  main x_rpc_seed x_clock "movement_mainnet" c8_seed NoFile = None
  ∧ ∃ out contracts,
      main x_rpc_seed x_clock "aptos_mainnet" c8_seed NoFile = Some out
      ∧ records (JObj out) = JObj <$> contracts
      ∧ length contracts = 2%nat
      ∧ dict_get out "tags" = Some (JObj build_tags).
Proof.
  split.
  - apply (main_document x_rpc_seed x_clock "movement_mainnet" c8_seed NoFile
             {| CONFIG.chainId := 1; CONFIG.rpcUrl := ""; CONFIG.name := "" |} []).
    by apply (bool_decide_eq_false_1 (_ ∈ _)).
  - destruct (main_document x_rpc_seed x_clock "aptos_mainnet" c8_seed NoFile
                {| CONFIG.chainId := 1;
                   CONFIG.rpcUrl := "https://fullnode.mainnet.aptoslabs.com";
                   CONFIG.name := "Aptos Mainnet" |} ["0xabc"; "0xdef"])
      as [_ Hreturns].
    destruct Hreturns
      as (out & contracts & Hrun & Hrecords & [Hlen _] & _ & _ & _ & _ & _ & _ & Htags & _);
      [by apply (bool_decide_eq_true_1 (_ ∈ _))|reflexivity|by vm_compute|discriminate
      |reflexivity|by vm_compute; repeat constructor|].
    exists out, contracts. split; [exact Hrun|]. split; [exact Hrecords|].
    split; [exact Hlen|exact Htags].
Defined.

(** X19: When [main] raises, and writes nothing: on a network that is not
    configured; when the seed file cannot be loaded, or has no valid
    address; and when the transformation raises on one module of one seed
    address, where [run] would have gone on with the next address. *)
Theorem main_raises
    (make_request : string → string → json) (clock : nat → string)
    (network : string) (seed : json) (metadata : metadata_file) :
  CONFIG.network_get CONFIG.networks network = None
  ∨ load_seed_addresses seed = None
  ∨ load_seed_addresses seed = Some []
  ∨ (∃ net addresses,
       CONFIG.network_get CONFIG.networks network = Some net
       ∧ load_seed_addresses seed = Some addresses
       ∧ Exists (fun j => ∀ now, transform_job
                                   (MovementContractFetcher.load_metadata metadata)
                                   now j = None)
                (network_jobs make_request addresses net)) →
  main make_request clock network seed metadata = None.
Proof.
  rewrite main_unfold. destruct (negb (bool_decide (network ∈ network_choices))); [done|].
  intros [->|[Hseed|[Hseed|(net & addresses & -> & Hseed & Hbad)]]]; [done|..].
  - destruct (CONFIG.network_get _ _); [|done]. simpl. by rewrite Hseed.
  - destruct (CONFIG.network_get _ _); [|done]. simpl. by rewrite Hseed.
  - simpl. rewrite Hseed. simpl. case_bool_decide; [done|].
    by rewrite (main_step_None _ _ _ _ _ _ Hbad).
Qed.

Lemma main_raises_witness :
  main x_rpc_seed x_clock "solana" c8_seed NoFile = None
  ∧ main x_rpc_seed x_clock "aptos_mainnet"
      (JObj [("protocols", JList [JObj [("addresses", JList [JObj [("address", JStr "abc")]])]])])
      NoFile = None
  ∧ main x_rpc_seed_bad x_clock "aptos_mainnet" c8_seed NoFile = None.
Proof.
  split_and!.
  - apply main_raises. by left.
  - apply main_raises. right. right. by left.
  - apply main_raises. right. right. right.
    exists {| CONFIG.chainId := 1;
              CONFIG.rpcUrl := "https://fullnode.mainnet.aptoslabs.com";
              CONFIG.name := "Aptos Mainnet" |}, ["0xabc"; "0xdef"].
    split; [reflexivity|]. split; [by vm_compute|].
    apply Exists_exists.
    exists ({| CONFIG.chainId := 1;
               CONFIG.rpcUrl := "https://fullnode.mainnet.aptoslabs.com";
               CONFIG.name := "Aptos Mainnet" |}, "0xdef",
            [("name", JInt 7); ("address", JStr "0xdef")]).
    split; [by vm_compute; repeat constructor|]. intros now. reflexivity.
Defined.

(** ** The updater, beyond the well-shaped list *)

Section updater_edges.
Implicit Types (d c updates : dict) (rs : list json).

Lemma load_contracts_list d rs :
  dict_get d "smartContracts" = Some (JList rs) →
  load_contracts (JObj d) = Some rs.
Proof. intros H. unfold load_contracts. simpl. unfold dict_get_or. by rewrite H. Qed.

Lemma update_contract_unfold now d rs address module_name updates :
  dict_get d "smartContracts" = Some (JList rs) →
  Forall (fun r => is_obj r = true) rs →
  existsb (is_contract address module_name) rs = true →
  ∃ before r after,
    rs = before ++ r :: after
    ∧ Forall (fun r => is_contract address module_name r = false) before
    ∧ is_contract address module_name r = true
    ∧ update_contract now (JObj d) address module_name updates
      = match save_list now (dict_set d "smartContracts"
                               (JList (before ++ updated updates r :: after))) with
        | Returned w _ => Returned w true
        | Raised w => Raised w
        end.
Proof.
  intros Hrs Hall Hex.
  pose proof (update_first_spec address module_name updates rs Hall) as Hfirst.
  simpl in Hfirst. fold (is_contract address module_name) in Hfirst.
  rewrite Hex in Hfirst. destruct Hfirst as (before & r & after & -> & Hbefore & Hr & Hrun).
  exists before, r, after. split_and!; try done.
  unfold update_contract. rewrite (load_contracts_list _ _ Hrs). simpl. by rewrite Hrun.
Qed.

Lemma apply_updates_get c updates k :
  NoDup updates.*1 →
  dict_get (apply_updates c updates) k
  = match dict_get updates k with
    | Some v => Some v
    | None => dict_get c k
    end.
Proof. apply dict_get_update. Qed.

Lemma apply_updates_prefix c updates : c.*1 `prefix_of` (apply_updates c updates).*1.
Proof.
  unfold apply_updates, dict_update. revert c.
  induction updates as [|[k v] updates IH]; intros c; simpl; [done|].
  etrans; [apply dict_set_prefix|apply IH].
Qed.

(** Writing to a record the values it has changes nothing. *)
Lemma apply_updates_id c updates :
  Forall (fun kv => dict_get c kv.1 = Some kv.2) updates →
  apply_updates c updates = c.
Proof.
  unfold apply_updates, dict_update.
  induction 1 as [|[k v] updates Hkv _ IH]; simpl; [done|].
  by rewrite dict_set_id.
Qed.

(** The end of a counting operation, on a list with a whole version. *)
Lemma finish_versioned now d version p rs turns :
  dict_get d "version" = Some (JObj version) →
  is_Some (dict_get version "major") →
  is_Some (dict_get version "minor") →
  dict_get version "patch" = Some (JInt p) →
  dict_get d "smartContracts" = Some (JList rs) →
  (0 < count_updated turns)%nat →
  ∃ after,
    finish now (JObj d) (Some turns) = Returned (Some after) (count_updated turns)
    ∧ bumped now (JObj d) after
    ∧ records after = turns.*1.
Proof.
  intros Hversion Hmajor Hminor Hpatch Hrs Hpos. unfold finish.
  apply Nat.ltb_lt in Hpos. rewrite Hpos.
  destruct (save_list_bumped now d version p rs turns.*1
              Hversion Hmajor Hminor Hpatch Hrs) as (after & Hsave & Hbump & Hafter).
  unfold save_and_return, with_contracts. simpl. rewrite Hsave. eauto.
Qed.

End updater_edges.

(** X20: [update_contract] changes one record, the first in the list that has
    the address and the module name; a later record with the same address
    and module name (the same module on another chain) is left as it is.
    The list is written, bumped, with the other records as they were. *)
Theorem update_contract_first_match
    (now : string) (list_data : json) (address module_name : string)
    (updates : dict) (before after : list json) (r : json) :
  document_ok list_data = true →
  records list_data = before ++ r :: after →
  Forall (fun r => is_contract address module_name r = false) before →
  is_contract address module_name r = true →
  ∃ written,
    update_contract now list_data address module_name updates
    = Returned (Some written) true
    ∧ bumped now list_data written
    ∧ records written = before ++ updated updates r :: after.
Proof.
  intros (d & version & p & rs & -> & Hversion & Hmajor & Hminor & Hpatch & Hrs & Hall)
    %document_ok_inv Hrecords Hbefore Hr.
  destruct (records_ok (JObj d) d rs eq_refl Hrs) as [Hrecords' _].
  rewrite Hrecords' in Hrecords. subst rs.
  destruct (update_contract_unfold now d _ address module_name updates Hrs
              (records_are_objects _ Hall))
    as (before' & r' & after' & Heq & Hbefore' & Hr' & ->).
  { rewrite existsb_app. simpl. by rewrite Hr, orb_true_r. }
  assert (before' = before ∧ r' = r ∧ after' = after) as (-> & -> & ->).
  { clear -Heq Hbefore Hbefore' Hr Hr'. revert before' Heq Hbefore'.
    induction Hbefore as [|b before Hb _ IH]; intros [|b' before'] Heq Hbefore'.
    - by simplify_eq/=.
    - simplify_eq/=. apply Forall_cons in Hbefore' as [Hb' _]. congruence.
    - simplify_eq/=. congruence.
    - simplify_eq/=. apply Forall_cons in Hbefore' as [_ Hbefore'].
      by destruct (IH before') as (-> & -> & ->). }
  destruct (save_list_bumped now d version p _ (before ++ updated updates r :: after)
              Hversion Hmajor Hminor Hpatch Hrs) as (doc & -> & Hbump & Hdoc).
  eauto.
Qed.

Lemma update_contract_first_match_witness :
  ∃ written,
    update_contract "2026-01-01T00:00:00" x_twice "0x1" "coin"
      [("description", JStr "The coin module")] = Returned (Some written) true
    ∧ records written
      = [JObj [("chainId", JInt 1); ("address", JStr "0x1");
               ("moduleName", JStr "coin"); ("platform", JStr "Movement");
               ("description", JStr "The coin module")];
         JObj [("chainId", JInt 2); ("address", JStr "0x1");
               ("moduleName", JStr "coin"); ("platform", JStr "Movement")]].
Proof.
  destruct (update_contract_first_match "2026-01-01T00:00:00" x_twice "0x1" "coin"
              [("description", JStr "The coin module")] []
              [JObj [("chainId", JInt 2); ("address", JStr "0x1");
                     ("moduleName", JStr "coin"); ("platform", JStr "Movement")]]
              (JObj [("chainId", JInt 1); ("address", JStr "0x1");
                     ("moduleName", JStr "coin"); ("platform", JStr "Movement")]))
    as (written & Hrun & _ & Hrecords); [reflexivity|reflexivity|constructor|reflexivity|].
  exists written. split; [exact Hrun|exact Hrecords].
Defined.

(** X21: [update_contracts_by_platform] with any payload: it returns the number
    of records of the platform; in the list it writes, each of them has
    the payload's value under every key of the payload and its own value
    under every other key, its keys in their old order and the new keys
    after them; the records of other platforms are as they were. *)
Theorem update_contracts_by_platform_payload
    (now : string) (list_data : json) (platform : string) (updates : dict) :
  document_ok list_data = true →
  payload_ok updates →
  ∃ w,
    update_contracts_by_platform now list_data platform updates
    = Returned w (matching (record_has "platform" platform) (records list_data))
    ∧ (matching (record_has "platform" platform) (records list_data) = 0%nat →
       w = None)
    ∧ ((0 < matching (record_has "platform" platform) (records list_data))%nat →
       ∃ after,
         w = Some after
         ∧ bumped now list_data after
         ∧ Forall2
             (fun r r' =>
                if record_has "platform" platform r
                then ∃ c c',
                       r = JObj c ∧ r' = JObj c'
                       ∧ (∀ k v, dict_get updates k = Some v → dict_get c' k = Some v)
                       ∧ (∀ k, dict_get updates k = None → dict_get c' k = dict_get c k)
                       ∧ c.*1 `prefix_of` c'.*1
                else r' = r)
             (records list_data) (records after)).
Proof.
  intros Hdoc Hpayload.
  destruct (update_where_spec now list_data "platform" platform updates Hdoc)
    as (w & Hrun & Hzero & Hsome).
  exists w. split; [done|]. split; [done|].
  intros Hpos. destruct (Hsome Hpos) as (after & -> & Hbump & Hafter).
  exists after. split; [done|]. split; [done|].
  rewrite Hafter. unfold update_all. apply Forall2_fmap_r, Forall_Forall2_diag, Forall_forall.
  intros r _. unfold compose. destruct (record_has "platform" platform r) eqn:Hr; [|done].
  destruct r as [| | | | |c]; try done.
  exists c, (apply_updates c updates). split_and!; try done.
  - intros k v Hk. by rewrite apply_updates_get, Hk.
  - intros k Hk. by rewrite apply_updates_get, Hk.
  - apply apply_updates_prefix.
Qed.

Lemma update_contracts_by_platform_payload_witness :
  ∃ after,
    update_contracts_by_platform "2026-01-01T00:00:00" c6_document "Mosaic"
      [("website", JStr "https://mosaic.ag"); ("platform", JStr "Mosaic AG")]
    = Returned (Some after) 2%nat
    ∧ bumped "2026-01-01T00:00:00" c6_document after
    ∧ length (records after) = 3%nat.
Proof.
  destruct (update_contracts_by_platform_payload
              "2026-01-01T00:00:00" c6_document "Mosaic"
              [("website", JStr "https://mosaic.ag"); ("platform", JStr "Mosaic AG")]
              eq_refl)
    as (w & Hrun & _ & Hsome).
  { unfold payload_ok. simpl. repeat constructor; set_solver. }
  destruct Hsome as (after & -> & Hbump & Hrecords); [vm_compute; lia|].
  exists after. split; [exact Hrun|]. split; [exact Hbump|].
  symmetry. apply (Forall2_length _ _ _ Hrecords).
Defined.

(** X22: An update that changes nothing is still an update: when every record at
    the address already has the payload's values, [update_contracts_by_address]
    counts them all the same and writes the list, with the records as they
    were, a new time stamp and the patch one higher. *)
Theorem update_contracts_by_address_unchanged
    (now : string) (list_data : json) (address : string) (updates : dict) :
  document_ok list_data = true →
  Forall (fun r => ∀ c, r = JObj c → get_is c "address" address = true →
                        Forall (fun kv => dict_get c kv.1 = Some kv.2) updates)
         (records list_data) →
  (0 < matching (record_has "address" address) (records list_data))%nat →
  ∃ after,
    update_contracts_by_address now list_data address updates
    = Returned (Some after)
        (matching (record_has "address" address) (records list_data))
    ∧ bumped now list_data after
    ∧ records after = records list_data.
Proof.
  intros Hdoc Hsame Hpos.
  destruct (update_where_spec now list_data "address" address updates Hdoc)
    as (w & Hrun & _ & Hsome).
  destruct (Hsome Hpos) as (after & -> & Hbump & Hafter).
  exists after. split; [done|]. split; [done|].
  rewrite Hafter. unfold update_all. rewrite <- (list_fmap_id (records list_data)) at 2.
  apply list_fmap_ext. intros i r Hi. simpl.
  destruct (record_has "address" address r) eqn:Hr; [|done].
  destruct r as [| | | | |c]; try done. simpl.
  rewrite Forall_forall in Hsame. f_equal. apply apply_updates_id.
  eapply Hsame; [by eapply list_elem_of_lookup_2|done..].
Qed.

Lemma update_contracts_by_address_unchanged_witness :
  ∃ after,
    update_contracts_by_address "2026-01-01T00:00:00" c6_document "0xabc"
      [("platform", JStr "Mosaic")] = Returned (Some after) 2%nat
    ∧ bumped "2026-01-01T00:00:00" c6_document after
    ∧ records after = records c6_document.
Proof.
  apply (update_contracts_by_address_unchanged "2026-01-01T00:00:00" c6_document
           "0xabc" [("platform", JStr "Mosaic")] eq_refl).
  - set (rs := records c6_document). vm_compute in rs. subst rs.
    repeat (apply Forall_cons; split;
            [intros c [= <-] Hc; first [by vm_compute in Hc | repeat constructor]|]).
    constructor.
  - vm_compute. lia.
Defined.

(** X23: [update_contract] on a list whose version is not whole, when a record
    matches.  Without [version] the list is written, with the record
    changed and the new time stamp, and the call raises after the write.
    A version that is no dict, or whose [patch] is no number, makes the call
    raise before anything is written.  A version without [patch] gets the
    patch 1.  A version without [major] or [minor] is bumped and written,
    and the call raises after the write. *)
Theorem update_contract_version_cases
    (now : string) (d : dict) (address module_name : string) (updates : dict)
    (rs : list json) :
  dict_get d "smartContracts" = Some (JList rs) →
  Forall (fun r => is_obj r = true) rs →
  existsb (is_contract address module_name) rs = true →
  let result := update_contract now (JObj d) address module_name updates in
  ∃ before r after,
    rs = before ++ r :: after
    ∧ Forall (fun r => is_contract address module_name r = false) before
    ∧ is_contract address module_name r = true
    ∧ (dict_get d "version" = None →
       result
       = Raised (Some (JObj (dict_set
                               (dict_set d "smartContracts"
                                  (JList (before ++ updated updates r :: after)))
                               "timestamp" (JStr (now +:+ "Z"))))))
    ∧ (∀ version,
         dict_get d "version" = Some version →
         is_obj version = false
         ∨ (∃ p, py_item version "patch" = Some p
                 ∧ match p with JInt _ | JBool _ => False | _ => True end) →
         result = Raised None)
    ∧ (∀ version,
         dict_get d "version" = Some (JObj version) →
         dict_get version "patch" = None →
         is_Some (dict_get version "major") →
         is_Some (dict_get version "minor") →
         ∃ written,
           result = Returned (Some written) true
           ∧ patch_of written = Some (JInt 1)
           ∧ records written = before ++ updated updates r :: after)
    ∧ (∀ version p,
         dict_get d "version" = Some (JObj version) →
         dict_get version "patch" = Some (JInt p) →
         dict_get version "major" = None ∨ dict_get version "minor" = None →
         ∃ written,
           result = Raised (Some written)
           ∧ patch_of written = Some (JInt (p + 1))
           ∧ records written = before ++ updated updates r :: after).
Proof.
  intros Hrs Hall Hex result. subst result.
  destruct (update_contract_unfold now d rs address module_name updates Hrs Hall Hex)
    as (before & r & after & -> & Hbefore & Hr & ->).
  exists before, r, after. split_and!; try done.
  - intros Hversion. unfold save_list. rewrite !dict_get_set_ne by done.
    by rewrite Hversion.
  - intros version Hversion Hbad. unfold save_list. rewrite !dict_get_set_ne by done.
    rewrite Hversion.
    assert (bump_patch version = None) as ->; [|done].
    unfold bump_patch. destruct Hbad as [Hno|(p & Hp & Hbad)].
    + by destruct version.
    + destruct version; try done. simpl in *. unfold dict_get_or. rewrite Hp. simpl.
      by destruct p.
  - intros version Hversion Hpatch [major Hmajor] [minor Hminor].
    unfold save_list, bump_patch. rewrite !dict_get_set_ne by done.
    rewrite Hversion. simpl. unfold dict_get_or. rewrite Hpatch. simpl.
    rewrite !dict_get_set_ne by done. rewrite Hmajor, Hminor.
    eexists. split; [done|]. unfold patch_of, records. split.
    + rewrite dict_get_set_eq. simpl. by rewrite dict_get_set_eq.
    + rewrite !dict_get_set_ne by done. by rewrite dict_get_set_eq.
  - intros version p Hversion Hpatch Hmissing.
    unfold save_list, bump_patch. rewrite !dict_get_set_ne by done.
    rewrite Hversion. simpl. unfold dict_get_or. rewrite Hpatch. simpl.
    rewrite !dict_get_set_ne by done.
    assert (∀ w : json,
              match dict_get version "major", dict_get version "minor" with
              | Some _, Some _ => Returned (Some w) ()
              | _, _ => Raised (Some w)
              end = Raised (Some w)) as ->.
    { intros w. destruct Hmissing as [-> | ->]; [done|].
      by destruct (dict_get version "major"). }
    eexists. split; [done|]. unfold patch_of, records. split.
    + rewrite dict_get_set_eq. simpl. by rewrite dict_get_set_eq.
    + rewrite !dict_get_set_ne by done. by rewrite dict_get_set_eq.
Qed.

Lemma update_contract_version_cases_witness :
  update_contract "2026-01-01T00:00:00" (JObj (x_versioned None)) "0x1" "coin"
    [("website", JStr "https://example.org")]
  = Raised (Some (JObj [("smartContracts",
                          JList [JObj [("address", JStr "0x1"); ("moduleName", JStr "coin");
                                       ("website", JStr "https://example.org")]]);
                        ("timestamp", JStr "2026-01-01T00:00:00Z")]))
  ∧ update_contract "2026-01-01T00:00:00"
      (JObj (x_versioned (Some (JStr "1.0.0")))) "0x1" "coin"
      [("website", JStr "https://example.org")]
    = Raised None
  ∧ update_contract "2026-01-01T00:00:00"
      (JObj (x_versioned (Some (JObj [("major", JInt 1); ("minor", JInt 0);
                                      ("patch", JStr "3")])))) "0x1" "coin"
      [("website", JStr "https://example.org")]
    = Raised None.
Proof.
  split_and!.
  - destruct (update_contract_version_cases "2026-01-01T00:00:00" (x_versioned None)
                "0x1" "coin" [("website", JStr "https://example.org")]
                [JObj [("address", JStr "0x1"); ("moduleName", JStr "coin")]])
      as (before & r & after & Heq & Hbefore & _ & Hnone & _);
      [reflexivity|by repeat constructor|reflexivity|].
    rewrite (Hnone eq_refl).
    destruct before as [|b [|b' before]]; [|by destruct after|done].
    by injection Heq as <- <-.
  - destruct (update_contract_version_cases "2026-01-01T00:00:00"
                (x_versioned (Some (JStr "1.0.0")))
                "0x1" "coin" [("website", JStr "https://example.org")]
                [JObj [("address", JStr "0x1"); ("moduleName", JStr "coin")]])
      as (before & r & after & _ & _ & _ & _ & Hbad & _);
      [reflexivity|by repeat constructor|reflexivity|].
    apply (Hbad (JStr "1.0.0")); [reflexivity|by left].
  - destruct (update_contract_version_cases "2026-01-01T00:00:00"
                (x_versioned (Some (JObj [("major", JInt 1); ("minor", JInt 0);
                                          ("patch", JStr "3")])))
                "0x1" "coin" [("website", JStr "https://example.org")]
                [JObj [("address", JStr "0x1"); ("moduleName", JStr "coin")]])
      as (before & r & after & _ & _ & _ & _ & Hbad & _);
      [reflexivity|by repeat constructor|reflexivity|].
    apply (Hbad (JObj [("major", JInt 1); ("minor", JInt 0); ("patch", JStr "3")]));
      [reflexivity|]. right. by exists (JStr "3").
Defined.

(** ** The sync, again *)

Section sync_again.
Implicit Types (metadata merged : json) (contract c e s : dict) (k key : string)
               (st : dict * bool).

(** A record that already holds what a step of the sync writes is left as
    it is by the step. *)
Lemma sync_key_stable field merged st st' e (b : bool) :
  sync_key field merged st = Some st' →
  dict_get e field = dict_get st'.1 field →
  ∃ b', sync_key field merged (e, b) = Some (e, b').
Proof.
  unfold sync_key. intros H He. bind_inv H. rewrite Hx. simpl.
  destruct x; [|eauto].
  bind_inv H. injection H as <-. rewrite Hx0. simpl in *.
  rewrite dict_get_set_eq in He. rewrite dict_set_id by done. eauto.
Qed.

Lemma set_security_id key dflt merged e security v :
  py_get merged key dflt = Some v →
  dict_get e "security" = Some (JObj security) →
  dict_get security key = Some v →
  set_security key dflt merged e = Some e.
Proof.
  intros Hv He Hs. unfold set_security. rewrite Hv, He. simpl.
  by rewrite (dict_set_id security), dict_set_id.
Qed.

Lemma sync_security_stable merged st st' e (b : bool) :
  sync_security merged st = Some st' →
  dict_get e "security" = dict_get st'.1 "security" →
  dict_get e "functions" = dict_get st'.1 "functions" →
  ∃ b', sync_security merged (e, b) = Some (e, b').
Proof.
  unfold sync_security. intros H Hs Hf. bind_inv H. rewrite Hx. simpl.
  destruct x; [|eauto].
  bind_inv H. injection H as <-. simpl in *.
  pose proof Hx5 as Haudit.
  rewrite (audit_functions_get _ _ _ _ Haudit), decide_False in Hs by done.
  repeat match goal with
         | H : set_security _ _ _ _ = Some _ |- _ =>
             apply set_security_inv in H as (? & ? & ? & ? & ->)
         end.
  repeat match goal with
         | H : dict_get (dict_set _ "security" _) "security" = Some _ |- _ =>
             rewrite dict_get_set_eq in H; injection H as <-
         end.
  rewrite dict_get_set_eq in Hs.
  rewrite bool_decide_eq_true_2 by (rewrite Hs; eauto).
  erewrite (set_security_id "auditScore"); [|done|exact Hs|]; simpl;
    [|by rewrite !dict_get_set_ne, dict_get_set_eq by done].
  erewrite (set_security_id "lastAuditDate"); [|done|exact Hs|]; simpl;
    [|by rewrite !dict_get_set_ne, dict_get_set_eq by done].
  erewrite (set_security_id "securityLevel"); [|done|exact Hs|]; simpl;
    [|by rewrite !dict_get_set_ne, dict_get_set_eq by done].
  erewrite (set_security_id "penetrationTested"); [|done|exact Hs|]; simpl;
    [|by rewrite !dict_get_set_ne, dict_get_set_eq by done].
  erewrite (set_security_id "formalVerification"); [|done|exact Hs|]; simpl;
    [|by rewrite dict_get_set_eq].
  rewrite (audit_functions_stable _ _ _ _ Haudit Hf). simpl. eauto.
Qed.

Lemma sync_key_unflagged field merged st st' :
  sync_key field merged st = Some st' → st'.2 = false → st' = st.
Proof.
  unfold sync_key. intros H Hflag. bind_inv H. destruct x.
  - bind_inv H. by injection H as <-.
  - by injection H.
Qed.

Lemma sync_security_unflagged merged st st' :
  sync_security merged st = Some st' → st'.2 = false → st' = st.
Proof.
  unfold sync_security. intros H Hflag. bind_inv H. destruct x.
  - bind_inv H. by injection H as <-.
  - by injection H.
Qed.

(** The keys the sync does not name are as they were. *)
Lemma sync_steps_frame merged contract st k :
  sync_steps merged contract = Some st →
  k ∉ sync_written_keys →
  dict_get st.1 k = dict_get contract k.
Proof.
  intros Hrun Hk. unfold sync_written_keys in Hk. rewrite !not_elem_of_cons in Hk.
  destruct_and!.
  rewrite (sync_steps_get _ _ _ k Hrun) by done.
  rewrite !copy_key_at_ne by done. by rewrite add_security_at_other by done.
Qed.

Lemma sync_steps_unflagged merged contract st :
  sync_steps merged contract = Some st → st.2 = false → st.1 = contract.
Proof.
  intros (st1 & st2 & st3 & st4 & st5 & st6 & H1 & H2 & H3 & H4 & H5 & H6 & H7)
    %sync_steps_inv Hflag.
  apply (sync_key_unflagged _ _ _ _ H7) in Hflag as Heq. subst st.
  apply (sync_key_unflagged _ _ _ _ H6) in Hflag as Heq. subst st6.
  apply (sync_key_unflagged _ _ _ _ H5) in Hflag as Heq. subst st5.
  apply (sync_key_unflagged _ _ _ _ H4) in Hflag as Heq. subst st4.
  apply (sync_security_unflagged _ _ _ H3) in Hflag as Heq. subst st3.
  apply (sync_key_unflagged _ _ _ _ H2) in Hflag as Heq. subst st2.
  apply (sync_key_unflagged _ _ _ _ H1) in Hflag as Heq. by subst st1.
Qed.

(** The steps of a turn, run on the record they made, change nothing. *)
Lemma sync_steps_stable merged contract st :
  sync_steps merged contract = Some st →
  sync_steps merged st.1 = Some st.
Proof.
  intros Hrun. pose proof Hrun as Hflag. apply sync_steps_flag in Hflag.
  pose proof Hrun as Hsteps.
  apply sync_steps_inv in Hsteps
      as (st1 & st2 & st3 & st4 & st5 & st6 & H1 & H2 & H3 & H4 & H5 & H6 & H7).
  assert (∀ k, dict_get st.1 k
               = copy_key_at "interoperability" merged k (dict_get st6.1 k)) as G7
    by (intros; by apply sync_key_get).
  assert (∀ k, dict_get st6.1 k
               = copy_key_at "performance" merged k (dict_get st5.1 k)) as G6
    by (intros; by apply sync_key_get).
  assert (∀ k, dict_get st5.1 k
               = copy_key_at "compliance" merged k (dict_get st4.1 k)) as G5
    by (intros; by apply sync_key_get).
  assert (∀ k, dict_get st4.1 k
               = copy_key_at "governance" merged k (dict_get st3.1 k)) as G4
    by (intros; by apply sync_key_get).
  assert (∀ k, k ≠ "security" →
               dict_get st3.1 k = add_security_at merged k (dict_get st2.1 k)) as G3
    by (intros; by apply sync_security_get).
  assert (∀ k, dict_get st2.1 k
               = copy_key_at "website" merged k (dict_get st1.1 k)) as G2
    by (intros; by apply sync_key_get).
  destruct (sync_key_stable _ _ _ _ st.1 false H1) as [b1 E1].
  { rewrite G7, G6, G5, G4, G3, G2 by done.
    rewrite !copy_key_at_ne by done. by rewrite add_security_at_other. }
  destruct (sync_key_stable _ _ _ _ st.1 b1 H2) as [b2 E2].
  { rewrite G7, G6, G5, G4, G3 by done.
    rewrite !copy_key_at_ne by done. by rewrite add_security_at_other. }
  destruct (sync_security_stable _ _ _ st.1 b2 H3) as [b3 E3].
  { rewrite G7, G6, G5, G4. by rewrite !copy_key_at_ne. }
  { rewrite G7, G6, G5, G4. by rewrite !copy_key_at_ne. }
  destruct (sync_key_stable _ _ _ _ st.1 b3 H4) as [b4 E4].
  { rewrite G7, G6, G5. by rewrite !copy_key_at_ne. }
  destruct (sync_key_stable _ _ _ _ st.1 b4 H5) as [b5 E5].
  { rewrite G7, G6. by rewrite !copy_key_at_ne. }
  destruct (sync_key_stable _ _ _ _ st.1 b5 H6) as [b6 E6].
  { rewrite G7. by rewrite !copy_key_at_ne. }
  destruct (sync_key_stable _ _ _ _ st.1 b6 H7) as [b7 E7]; [done|].
  assert (sync_steps merged st.1 = Some (st.1, b7)) as Hagain.
  { unfold sync_steps. rewrite E1. simpl. rewrite E2. simpl. rewrite E3. simpl.
    rewrite E4. simpl. rewrite E5. simpl. rewrite E6. simpl. by rewrite E7. }
  rewrite Hagain. f_equal. destruct st as [c b]. simpl in *. f_equal.
  apply sync_steps_flag in Hagain. simpl in Hagain. congruence.
Qed.

(** One turn of the sync: what it leaves alone, and what it does to the
    record it made. *)
Lemma sync_contract_again metadata address contract t :
  sync_contract metadata address (JObj contract) = Some t →
  ∃ c',
    t.1 = JObj c'
    ∧ (∀ k, k ∉ sync_written_keys → dict_get c' k = dict_get contract k)
    ∧ (t.2 = false → c' = contract)
    ∧ sync_contract metadata address (JObj c') = Some t.
Proof.
  intros Hrun. pose proof Hrun as Hrun'. rewrite sync_contract_unfold in Hrun'.
  destruct (filtered_out _ _) eqn:Hfilter.
  { injection Hrun' as <-. exists contract. by split_and!. }
  apply bind_Some in Hrun' as (all & Hall & Hrun').
  apply bind_Some in Hrun' as (contract_meta & Hmeta & Hrun').
  destruct (negb (truthy contract_meta)) eqn:Htruthy.
  { injection Hrun' as <-. exists contract. by split_and!. }
  apply bind_Some in Hrun' as (merged & Hmerged & Hrun').
  apply bind_Some in Hrun' as (st & Hst & [= <-]).
  assert (∀ k, k ∉ sync_written_keys → dict_get st.1 k = dict_get contract k) as Hframe
    by (intros; by eapply sync_steps_frame).
  exists st.1. split; [done|]. split; [done|]. split.
  { simpl. intros Hflag. by eapply sync_steps_unflagged. }
  rewrite sync_contract_unfold. unfold dict_get_or.
  rewrite !Hframe by (by apply (bool_decide_eq_false_1 (_ ∈ _))).
  fold (dict_get_or contract "address" (JStr "")).
  fold (dict_get_or contract "moduleName" (JStr "")).
  rewrite Hfilter, Hall. simpl. rewrite Hmeta. simpl. rewrite Htruthy, Hmerged. simpl.
  rewrite (sync_steps_stable _ _ _ Hst). simpl. by destruct st.
Qed.

Lemma mapM_sync_contract_again metadata address rs turns :
  Forall (fun r => is_obj r = true) rs →
  mapM (sync_contract metadata address) rs = Some turns →
  mapM (sync_contract metadata address) turns.*1 = Some turns
  ∧ Forall2
      (fun r t =>
         ∃ c c', r = JObj c ∧ t.1 = JObj c'
                 ∧ (∀ k, k ∉ sync_written_keys → dict_get c' k = dict_get c k)
                 ∧ (t.2 = false → t.1 = r))
      rs turns.
Proof.
  intros Hall Hrun. apply mapM_Some in Hrun. revert Hall.
  induction Hrun as [|r t rs turns Hr _ IH]; intros Hall; [done|].
  apply Forall_cons in Hall as [[c ->]%is_obj_inv Hall].
  destruct (IH Hall) as [IH1 IH2].
  destruct (sync_contract_again _ _ _ _ Hr) as (c' & Ht & Hframe & Hflag & Hagain).
  split.
  - apply mapM_Some. rewrite fmap_cons. constructor.
    + by rewrite Ht.
    + by apply mapM_Some.
  - constructor; [|done]. exists c, c'. split_and!; try done.
    intros Hfalse. by rewrite Ht, (Hflag Hfalse).
Qed.

(** The lists a sync reads and writes. *)
Lemma sync_with_metadata_inv metadata now list_data address after :
  document_ok list_data = true →
  overlay_ok metadata = true →
  written (sync_with_metadata metadata now list_data address) = Some after →
  ∃ turns,
    load_contracts list_data
    ≫= mapM (sync_contract metadata address) = Some turns
    ∧ mapM (sync_contract metadata address) (records list_data) = Some turns
    ∧ count_updated turns
      = matching (sync_matches metadata address) (records list_data)
    ∧ (0 < count_updated turns)%nat
    ∧ sync_with_metadata metadata now list_data address
      = Returned (Some after) (count_updated turns)
    ∧ bumped now list_data after
    ∧ records after = turns.*1
    ∧ Forall2 (fun r t => t.2 = sync_matches metadata address r)
        (records list_data) turns.
Proof.
  intros Hdoc Hmeta Hwritten. pose proof Hdoc as Hdoc'.
  apply document_ok_inv in Hdoc'
      as (d & version & p & rs & -> & Hversion & Hmajor & Hminor & Hpatch & Hrs & Hall).
  destruct (records_ok (JObj d) d rs eq_refl Hrs) as [Hrecords Hload].
  rewrite Hrecords. unfold sync_with_metadata in *. rewrite Hload in *. simpl in *.
  destruct (mapM_sync_contract metadata address rs Hmeta Hall)
    as (turns & Hturns & Hcount & Hrel).
  rewrite Hturns in *.
  destruct (finish_spec now (JObj d) turns Hdoc) as (w & Hfinish & Hzero & Hsome).
  rewrite Hfinish in Hwritten. simpl in Hwritten. subst w.
  assert (0 < count_updated turns)%nat as Hpos.
  { destruct (count_updated turns); [by specialize (Hzero eq_refl)|lia]. }
  destruct (Hsome Hpos) as (after' & [= <-] & Hbump & Hafter).
  exists turns. split_and!; try done.
  eapply Forall2_impl; [exact Hrel|]. by intros ?? [? _].
Qed.

End sync_again.

(** X24: What a sync leaves alone: a record that does not match is as it was; a
    record that matches keeps every field but the eight the sync writes;
    and an empty address filter is no filter. *)
Theorem sync_with_metadata_frame
    (metadata : json) (now : string) (list_data : json) (scope : option string)
    (after : json) :
  document_ok list_data = true →
  overlay_ok metadata = true →
  written (sync_with_metadata metadata now list_data scope) = Some after →
  Forall2
    (fun r r' =>
       (sync_matches metadata scope r = false → r' = r)
       ∧ ∃ c c', r = JObj c ∧ r' = JObj c'
                 ∧ ∀ k, k ∉ sync_written_keys → dict_get c' k = dict_get c k)
    (records list_data) (records after)
  ∧ sync_with_metadata metadata now list_data (Some "")
    = sync_with_metadata metadata now list_data None.
Proof.
  intros Hdoc Hmeta Hwritten. split; [|done].
  destruct (sync_with_metadata_inv _ _ _ _ _ Hdoc Hmeta Hwritten)
    as (turns & _ & Hturns & _ & _ & _ & _ & -> & Hflags).
  apply document_ok_inv in Hdoc
      as (d & version & p & rs & -> & _ & _ & _ & _ & Hrs & Hall).
  destruct (records_ok (JObj d) d rs eq_refl Hrs) as [Hrecords _].
  rewrite Hrecords in *.
  destruct (mapM_sync_contract_again _ _ _ _ (records_are_objects _ Hall) Hturns)
    as [_ Hframe].
  apply Forall2_fmap_r.
  clear -Hframe Hflags. induction Hframe as [|r t rs turns Hr _ IH]; [done|].
  apply Forall2_cons in Hflags as [Hflag Hflags].
  constructor; [|by apply IH].
  destruct Hr as (c & c' & -> & Ht & Hkeys & Hsame). split.
  - intros Hno. apply Hsame. by rewrite Hflag.
  - by exists c, c'.
Qed.

Lemma sync_with_metadata_frame_witness :
  ∃ after,
    written (sync_with_metadata c6_metadata "2026-01-01T00:00:00" c6_document None)
    = Some after
    ∧ length (records after) = 3%nat.
Proof.
  assert (∃ after,
            written (sync_with_metadata c6_metadata "2026-01-01T00:00:00"
                       c6_document None) = Some after) as [after Hafter]
    by (vm_compute; eauto).
  exists after. split; [exact Hafter|].
  destruct (sync_with_metadata_frame c6_metadata "2026-01-01T00:00:00" c6_document
              None after eq_refl eq_refl Hafter) as [Hframe _].
  symmetry. apply (Forall2_length _ _ _ Hframe).
Defined.

(** X25: The sync run again on the list it wrote: no record changes, but the
    records that matched the first time match again, so the same count is
    returned and the list is written once more, with a new time stamp and
    the patch one higher again. *)
Theorem sync_with_metadata_twice
    (metadata : json) (now1 now2 : string) (list_data : json)
    (scope : option string) (once : json) :
  document_ok list_data = true →
  overlay_ok metadata = true →
  written (sync_with_metadata metadata now1 list_data scope) = Some once →
  ∃ twice,
    sync_with_metadata metadata now2 once scope
    = Returned (Some twice)
        (matching (sync_matches metadata scope) (records list_data))
    ∧ records twice = records once
    ∧ bumped now2 once twice.
Proof.
  intros Hdoc Hmeta Hwritten.
  destruct (sync_with_metadata_inv _ _ _ _ _ Hdoc Hmeta Hwritten)
    as (turns & _ & Hturns & Hcount & Hpos & _ & Hbump & Honce & _).
  apply document_ok_inv in Hdoc
      as (d & version & p & rs & -> & Hversion & Hmajor & Hminor & Hpatch & Hrs & Hall).
  destruct (records_ok (JObj d) d rs eq_refl Hrs) as [Hrecords _].
  rewrite Hrecords in *.
  destruct (mapM_sync_contract_again _ _ _ _ (records_are_objects _ Hall) Hturns)
    as [Hagain _].
  destruct Hbump as (d0 & d' & version0 & version' & q & [= <-] & -> & Hv & Hv' & Hq
                     & Hq' & Hother & _).
  rewrite Hversion in Hv. injection Hv as <-.
  assert (dict_get d' "smartContracts" = Some (JList turns.*1)) as Hrs'.
  { unfold records in Honce.
    destruct (dict_get d' "smartContracts") as [[| | | |l|]|]; try subst l; try done;
      destruct turns; try done; unfold count_updated in Hpos; simpl in Hpos; lia. }
  destruct (finish_versioned now2 d' version' (q + 1) turns.*1 turns)
    as (twice & Hrun & Hbump2 & Htwice); try done.
  - rewrite Hother by done. exact Hmajor.
  - rewrite Hother by done. exact Hminor.
  - exists twice. unfold sync_with_metadata.
    rewrite (load_contracts_list _ _ Hrs'). simpl. rewrite Hagain.
    rewrite Hrun, <- Hcount. split; [done|]. split; [|done].
    rewrite Htwice. unfold records. by rewrite Hrs'.
Qed.

Lemma sync_with_metadata_twice_witness :
  ∃ once twice,
    written (sync_with_metadata c6_metadata "2026-01-01T00:00:00" c6_document None)
    = Some once
    ∧ sync_with_metadata c6_metadata "2026-01-02T00:00:00" once None
      = Returned (Some twice) 1%nat
    ∧ records twice = records once.
Proof.
  assert (∃ once,
            written (sync_with_metadata c6_metadata "2026-01-01T00:00:00"
                       c6_document None) = Some once) as [once Honce]
    by (vm_compute; eauto).
  destruct (sync_with_metadata_twice c6_metadata "2026-01-01T00:00:00"
              "2026-01-02T00:00:00" c6_document None once eq_refl eq_refl Honce)
    as (twice & Hrun & Hrecords & _).
  exists once, twice. split; [exact Honce|]. split; [exact Hrun|exact Hrecords].
Defined.

(** ** The seed loader, again *)

Section seed_again.

Lemma seed_accepted_normalised data x :
  x ∈ seed_accepted data ↔ seed_normalised data x.
Proof.
  unfold seed_accepted, seed_normalised. rewrite list_elem_of_bind.
  split; intros (raw & H1 & H2); exists raw; split; try done;
    by apply accepted_normalised.
Qed.

(** An address of the output is a seed address that gives itself. *)
Lemma accepted_accepted raw x : x ∈ accepted raw → accepted x = [x].
Proof.
  intros (before & digits & after & _ & _ & _ & Hne & Hhex & ->)%accepted_normalised.
  assert ("0x" +:+ lower digits ∈ accepted ("0x" +:+ lower digits)) as Hself.
  { apply accepted_normalised. exists "", (lower digits), "".
    split_and!; try done.
    - by rewrite string_app_nil_r.
    - constructor.
    - constructor.
    - by intros ?%lower_empty.
    - by apply all_hex_lower.
    - by rewrite lower_twice. }
  unfold accepted in *. destruct (ADDRESS_RE_match _); [|by apply elem_of_nil in Hself].
  apply list_elem_of_singleton in Hself. by rewrite <- Hself.
Qed.

Lemma seed_of_ok addresses : seed_ok (seed_of addresses) = true.
Proof.
  unfold seed_ok, seed_of. simpl. unfold absent_or. simpl.
  rewrite andb_true_r. unfold seed_protocol_ok, absent_or. simpl.
  induction addresses as [|a addresses IH]; [done|]. simpl. exact IH.
Qed.

Lemma seed_of_raws addresses : seed_raws (seed_of addresses) = addresses.
Proof.
  unfold seed_raws, seed_of. simpl. rewrite app_nil_r.
  induction addresses as [|a addresses IH]; [done|]. simpl. by f_equal.
Qed.

End seed_again.

(** X26: The output of the seed loader depends on the set of the normalised
    valid addresses of the file only: the order of the entries, their
    grouping into protocols, repetitions, upper and lower case and the
    white space around an address make no difference. *)
Theorem load_seed_addresses_same_set (data1 data2 : json) :
  seed_ok data1 = true →
  seed_ok data2 = true →
  (∀ x, seed_normalised data1 x ↔ seed_normalised data2 x) →
  ∃ out,
    load_seed_addresses data1 = Some out ∧ load_seed_addresses data2 = Some out.
Proof.
  intros (A1 & -> & H1)%load_seed_addresses_set (A2 & -> & H2)%load_seed_addresses_set Hsame.
  assert (A1 = A2) as ->; [|eauto].
  apply set_eq. intros x. rewrite H1, H2. apply Hsame.
Qed.

Lemma load_seed_addresses_same_set_witness :
  ∃ out,
    load_seed_addresses c8_seed = Some out
    ∧ load_seed_addresses x_seed_shuffled = Some out.
Proof.
  apply load_seed_addresses_same_set; [reflexivity|reflexivity|].
  intros x. rewrite <- !seed_accepted_normalised.
  assert (seed_accepted c8_seed = ["0xabc"; "0xabc"; "0xdef"]) as -> by by vm_compute.
  assert (seed_accepted x_seed_shuffled = ["0xdef"; "0xabc"; "0xdef"]) as ->
    by by vm_compute.
  set_solver.
Defined.

(** X27: The output of the seed loader is a seed list in its own right: written
    back as a seed file, it loads to itself. *)
Theorem load_seed_addresses_round_trip (data : json) (out : list string) :
  seed_ok data = true →
  load_seed_addresses data = Some out →
  load_seed_addresses (seed_of out) = Some out.
Proof.
  intros (A & Hrun & HA)%load_seed_addresses_set Hout.
  rewrite Hrun in Hout. injection Hout as <-.
  destruct (load_seed_addresses_set (seed_of (sorted A)) (seed_of_ok _))
    as (A' & -> & HA').
  assert (A' = A) as ->; [|done].
  apply set_eq. intros x. rewrite HA', seed_of_raws. split.
  - intros (y & Hy & Hx%accepted_normalised). apply sorted_spec, HA in Hy.
    destruct Hy as (raw & Hraw & Hy%accepted_normalised).
    rewrite (accepted_accepted _ _ Hy) in Hx. apply list_elem_of_singleton in Hx.
    subst x. apply HA. exists raw. split; [done|]. by apply accepted_normalised.
  - intros Hx. exists x. split; [by apply sorted_spec|].
    apply HA in Hx as (raw & _ & Hx%accepted_normalised).
    apply accepted_normalised. rewrite (accepted_accepted _ _ Hx).
    by apply list_elem_of_singleton.
Qed.

Lemma load_seed_addresses_round_trip_witness :
  load_seed_addresses (seed_of ["0xabc"; "0xdef"]) = Some ["0xabc"; "0xdef"].
Proof.
  apply (load_seed_addresses_round_trip x_seed_shuffled); [reflexivity|by vm_compute].
Defined.

(** X28: Entries the shape of the seed file does not foresee.  An entry whose
    address is not a string but counts as false ([0], [false], an empty list
    or dict) is skipped like a missing address.  An entry that is no dict, or
    whose address is a number, [true], or a list or dict that is not empty,
    makes the loader raise: no address of the file is returned. *)
Theorem load_seed_addresses_entries
    (top protocol : dict) (protocols entries : list json) (entry : json) :
  dict_get top "protocols" = Some (JList protocols) →
  JObj protocol ∈ protocols →
  dict_get protocol "addresses" = Some (JList entries) →
  entry ∈ entries →
  (is_obj entry = false
   ∨ ∃ e a, entry = JObj e ∧ dict_get e "address" = Some a
            ∧ truthy a = true ∧ is_str a = false) →
  load_seed_addresses (JObj top) = None
  ∧ ∀ (addresses : gset string) (e : dict),
      truthy (dict_get_or e "address" JNull) = false →
      add_entry addresses (JObj e) = Some addresses.
Proof.
  intros Hprotocols Hprotocol Hentries Hentry Hbad. split.
  - unfold load_seed_addresses. simpl. unfold dict_get_or. rewrite Hprotocols. simpl.
    rewrite (for_each_None add_protocol ∅ protocols); [done|].
    apply Exists_exists. exists (JObj protocol). split; [done|].
    intros addresses. unfold add_protocol. simpl. unfold dict_get_or.
    rewrite Hentries. simpl. apply for_each_None.
    apply Exists_exists. exists entry. split; [done|].
    intros addresses'. unfold add_entry, entry_address.
    destruct Hbad as [Hno|(e & a & -> & Ha & Htruthy & Hstr)].
    + by destruct entry.
    + simpl. unfold dict_get_or. rewrite Ha. simpl. rewrite Htruthy. by destruct a.
  - intros addresses e Hfalsy. unfold add_entry, entry_address. simpl.
    by rewrite Hfalsy.
Qed.

Lemma load_seed_addresses_entries_witness :
  load_seed_addresses x_seed_number = None.
Proof.
  apply (load_seed_addresses_entries
           [("protocols",
              JList [JObj [("addresses",
                JList [JObj [("address", JStr "0xabc")];
                       JObj [("address", JInt 171)]])]])]
           [("addresses",
              JList [JObj [("address", JStr "0xabc")]; JObj [("address", JInt 171)]])]
           [JObj [("addresses",
              JList [JObj [("address", JStr "0xabc")]; JObj [("address", JInt 171)]])]]
           [JObj [("address", JStr "0xabc")]; JObj [("address", JInt 171)]]
           (JObj [("address", JInt 171)])).
  - reflexivity.
  - by left.
  - reflexivity.
  - right. by left.
  - right. by exists [("address", JInt 171)], (JInt 171).
Defined.

(** ** The metadata file of the updater *)

Section updater_metadata.

Lemma sync_matches_empty_overlay scope contract :
  record_ok contract = true →
  sync_matches (JObj [("contractMetadata", JObj [])]) scope (JObj contract) = false.
Proof.
  intros Hrec. unfold sync_matches.
  destruct (record_strings _ Hrec) as (a & module_name & -> & ->).
  rewrite get_contract_metadata_merged.
  change (py_get (JObj [("contractMetadata", JObj [])]) "contractMetadata" (JObj []))
    with (Some (JObj [])).
  change (Some (JObj []) ≫= _)
    with (merged_metadata (JObj []) (JStr module_name)).
  rewrite merged_metadata_no_modules by done. simpl. apply andb_false_r.
Qed.

End updater_metadata.

(** X29: The updater without a metadata file: the overlay is empty, no record
    matches, and a sync returns 0 and writes nothing, whatever the address
    filter.  A metadata file that cannot be read makes the updater raise
    when it is set up, where the generator goes on with the empty
    overlay. *)
Theorem sync_with_metadata_no_file
    (now : string) (list_data : json) (scope : option string) (metadata : json) :
  document_ok list_data = true →
  SurgicalUpdater.load_metadata NoFile = Some metadata →
  sync_with_metadata metadata now list_data scope = Returned None 0%nat
  ∧ SurgicalUpdater.load_metadata Unreadable = None
  ∧ MovementContractFetcher.load_metadata Unreadable = metadata.
Proof.
  intros Hdoc [= <-]. split; [|done].
  destruct (sync_with_metadata_spec (JObj [("contractMetadata", JObj [])]) now
              list_data scope Hdoc eq_refl) as (w & Hrun & Hzero & _).
  assert (matching (sync_matches (JObj [("contractMetadata", JObj [])]) scope)
            (records list_data) = 0%nat) as Hnone.
  { apply document_ok_inv in Hdoc
        as (d & version & p & rs & -> & _ & _ & _ & _ & Hrs & Hall).
    destruct (records_ok (JObj d) d rs eq_refl Hrs) as [-> _].
    unfold matching. clear Hrs Hrun Hzero.
    induction Hall as [|r rs (c & -> & Hrec)%obj_where_inv _ IH]; [done|].
    rewrite filter_cons_False; [done|].
    by rewrite sync_matches_empty_overlay. }
  rewrite Hnone in *. by rewrite Hrun, (Hzero eq_refl).
Qed.

Lemma sync_with_metadata_no_file_witness :
  sync_with_metadata (JObj [("contractMetadata", JObj [])]) "2026-01-01T00:00:00"
    c6_document (Some "0xabc") = Returned None 0%nat.
Proof.
  apply (sync_with_metadata_no_file "2026-01-01T00:00:00" c6_document (Some "0xabc")
           (JObj [("contractMetadata", JObj [])]) eq_refl eq_refl).
Defined.

(** ** The sync and the generator's overlay *)

Section sync_overlay.





End sync_overlay.


